(** * generate_json.py: markdown guides to a static JSON API

    A shallow embedding of [.github/scripts/generate_json.py] and the
    properties its specification states about it.

    Conventions of the embedding.
    - A Python [str] is a [string]; its characters are the code points
      below 256, which is where every literal of the script lives.
    - [re] patterns are values of [regex], run by a backtracking matcher
      with the priorities of Python's engine (lazy and greedy repetition,
      groups, [^] and [$], the DOTALL and MULTILINE flags).
    - Parsed JSON is the tree [json]; a Python [dict] keeps its insertion
      order, so an object is an association list.
    - The file system, the log written by [print], exceptions and
      [sys.exit] are threaded through the small monad [M]. *)

From Stdlib Require Import List Ascii String Bool Arith ZArith Lia Permutation Sorted.
Import ListNotations.

Local Open Scope string_scope.
Local Open Scope bool_scope.

(* ================================================================== *)
(** * Python strings *)

Module Py.

Definition nl : ascii := "010"%char.

Definition code (c : ascii) : nat := nat_of_ascii c.

Definition between (lo hi n : nat) : bool := Nat.leb lo n && Nat.leb n hi.

(** [str.lower] on one character: A-Z, and the Latin-1 capitals
    U+00C0..U+00DE without the multiplication sign U+00D7. *)
Definition lower_char (c : ascii) : ascii :=
  let n := code c in
  if between 65 90 n then ascii_of_nat (n + 32)
  else if between 192 222 n && negb (Nat.eqb n 215) then ascii_of_nat (n + 32)
  else c.

(** [str.upper] on one character, where the result stays below 256. *)
Definition upper_char (c : ascii) : ascii :=
  let n := code c in
  if between 97 122 n then ascii_of_nat (n - 32)
  else if between 224 254 n && negb (Nat.eqb n 247) then ascii_of_nat (n - 32)
  else c.

Fixpoint lower (s : string) : string :=
  match s with
  | EmptyString => EmptyString
  | String c s' => String (lower_char c) (lower s')
  end.

(** [str.capitalize]: first character upper case, the rest lower case.
    A first character whose upper case is not one character below 256
    (the sharp s, the micro sign, the y with diaeresis) is left as it
    is; the script capitalizes the four guide types only. *)
Definition capitalize (s : string) : string :=
  match s with
  | EmptyString => EmptyString
  | String c s' => String (upper_char c) (lower s')
  end.

(** [s.startswith(p)]. *)
Fixpoint startswith (s p : string) {struct p} : bool :=
  match p, s with
  | EmptyString, _ => true
  | String a p', String b s' => Ascii.eqb a b && startswith s' p'
  | String _ _, EmptyString => false
  end.

(** [sub in s]. *)
Fixpoint str_in (sub s : string) : bool :=
  startswith s sub ||
  match s with
  | EmptyString => false
  | String _ s' => str_in sub s'
  end.

Fixpoint drop (n : nat) (s : string) : string :=
  match n, s with
  | O, _ => s
  | S n', String _ s' => drop n' s'
  | S _, EmptyString => EmptyString
  end.

Fixpoint take (n : nat) (s : string) : string :=
  match n, s with
  | S n', String c s' => String c (take n' s')
  | _, _ => EmptyString
  end.

(** [s.endswith(p)]. *)
Definition endswith (s p : string) : bool :=
  Nat.leb (length p) (length s) && String.eqb (drop (length s - length p) s) p.

(** [s.find(sub)]: the lowest index of an occurrence, [-1] when there is
    none. *)
Fixpoint find (s sub : string) : Z :=
  if startswith s sub then 0%Z
  else match s with
       | EmptyString => (-1)%Z
       | String _ s' =>
           let i := find s' sub in
           if (i <? 0)%Z then (-1)%Z else (i + 1)%Z
       end.

(** [s[i:]] with Python's treatment of a negative index. *)
Definition slice_from (s : string) (i : Z) : string :=
  if (i <? 0)%Z
  then drop (Z.to_nat (Z.max 0 (Z.of_nat (length s) + i))) s
  else drop (Z.to_nat i) s.

(** [s.replace(old, new)]: occurrences are taken left to right and do not
    overlap; [skip] counts the characters of the occurrence just replaced
    that are still to be passed over. *)
Fixpoint replace_from (old new : string) (skip : nat) (s : string) : string :=
  match s with
  | EmptyString => EmptyString
  | String c s' =>
      match skip with
      | S n => replace_from old new n s'
      | O =>
          if startswith s old
          then new ++ replace_from old new (length old - 1) s'
          else String c (replace_from old new 0 s')
      end
  end.

Fixpoint interleave (new s : string) : string :=
  match s with
  | EmptyString => new
  | String c s' => new ++ String c (interleave new s')
  end.

Definition replace (s old new : string) : string :=
  match old with
  | EmptyString => interleave new s
  | String _ _ => replace_from old new 0 s
  end.

(** [s.split(sep)] for a one-character separator: the pieces between the
    separators, never an empty list. *)
Fixpoint split (sep : ascii) (s : string) : list string :=
  match s with
  | EmptyString => [EmptyString]
  | String c s' =>
      if Ascii.eqb c sep then EmptyString :: split sep s'
      else match split sep s' with
           | p :: ps => String c p :: ps
           | [] => [String c EmptyString]
           end
  end.

(** [l[-1]] of a list that [split] returned. *)
Definition last_piece (l : list string) : string := last l EmptyString.

(** [sep.join(parts)]. *)
Fixpoint join (sep : string) (parts : list string) : string :=
  match parts with
  | [] => EmptyString
  | [p] => p
  | p :: ps => p ++ sep ++ join sep ps
  end.

(** [str.isspace] on one character below 256, which is also what [\s]
    matches in a [str] pattern. *)
Definition isspace (c : ascii) : bool :=
  let n := code c in
  between 9 13 n || between 28 32 n || Nat.eqb n 133 || Nat.eqb n 160.

End Py.

(* ================================================================== *)
(** * os.path (posixpath) *)

Module OsPath.
Import Py.

(** [posixpath.basename]: what follows the last slash. *)
Definition basename (p : string) : string := last_piece (split "/" p).

(** [posixpath.join] of two components. *)
Definition join2 (a b : string) : string :=
  if startswith b "/" then b
  else if String.eqb a "" || endswith a "/" then a ++ b
  else a ++ "/" ++ b.

(** [posixpath.join(a, *p)]. *)
Definition join (a : string) (p : list string) : string := fold_left join2 p a.

Fixpoint rstrip_slash_rev (r : list ascii) : list ascii :=
  match r with
  | c :: r' => if Ascii.eqb c "/" then rstrip_slash_rev r' else r
  | [] => []
  end.

Definition all_slashes (s : string) : bool :=
  forallb (fun c => Ascii.eqb c "/") (list_ascii_of_string s).

(** [posixpath.dirname]: the head up to the last slash, without its
    trailing slashes unless it is made of slashes only. *)
Definition dirname (p : string) : string :=
  let head := take (length p - length (basename p)) p in
  if all_slashes head then head
  else string_of_list_ascii
         (rev (rstrip_slash_rev (rev (list_ascii_of_string head)))).

(** The directories [os.makedirs(name)] goes up through before it makes
    [name], outermost first: with [head, tail = os.path.split(name)],
    taken once more on [head] when [tail] is empty, these are the
    directories of [head] and [head] itself as long as [head] and [tail]
    are not empty.  [fuel] bounds the way up; the length of [name] is
    enough. *)
Fixpoint parents (fuel : nat) (name : string) : list string :=
  match fuel with
  | O => []
  | S fuel' =>
      let name' := if String.eqb (basename name) "" then dirname name
                   else name in
      let head := dirname name' in
      let tail := basename name' in
      if String.eqb head "" || String.eqb tail "" then []
      else (parents fuel' head ++ [head])%list
  end.

(** The directories that are there once [os.makedirs(name)] has
    returned: those above [name], then [name]. *)
Definition made_by_makedirs (name : string) : list string :=
  (parents (length name) name ++ [name])%list.

End OsPath.

(* ================================================================== *)
(** * The [re] module: a backtracking matcher *)

Module Re.
Import Py.

Inductive greed := Greedy | Lazy.

(** One-character items: a literal, [.], [\s]. *)
Inductive atom :=
| Chr (c : ascii)
| Any
| Space.

(** The fragment of pattern syntax the script uses.  Repetition is over
    one-character items only, as in [.*?], [.*] and [\s+]. *)
Inductive regex :=
| Eps
| One (a : atom)
| Star (g : greed) (a : atom)
| Plus (g : greed) (a : atom)
| Bol
| Eol
| Group (r : regex)
| Seq (r1 r2 : regex).

(** [re.DOTALL] and [re.MULTILINE]. *)
Record flags := { DOTALL : bool; MULTILINE : bool }.

Definition no_flags : flags := {| DOTALL := false; MULTILINE := false |}.

(** The matcher's position: the character before it (none at the start
    of the text), the text still ahead, and the groups closed so far. *)
Record mstate := {
  prev : option ascii;
  rest : string;
  groups : list string
}.

Definition atom_ok (fl : flags) (a : atom) (c : ascii) : bool :=
  match a with
  | Chr c' => Ascii.eqb c' c
  | Any => DOTALL fl || negb (Ascii.eqb c nl)
  | Space => isspace c
  end.

(** [^]: the start of the text, and under MULTILINE also after a line
    break. *)
Definition at_bol (fl : flags) (st : mstate) : bool :=
  match prev st with
  | None => true
  | Some c => MULTILINE fl && Ascii.eqb c nl
  end.

(** [$]: the end of the text or just before a final line break, and under
    MULTILINE before every line break. *)
Definition at_eol (fl : flags) (st : mstate) : bool :=
  match rest st with
  | EmptyString => true
  | String c s' =>
      Ascii.eqb c nl &&
      (MULTILINE fl || match s' with EmptyString => true | _ => false end)
  end.

(** [a*?] followed by [k]: the continuation is tried first, and one more
    character is taken only when it fails. *)
Fixpoint star_lazy (ok : ascii -> bool) (k : mstate -> option mstate)
    (p : option ascii) (gs : list string) (s : string) : option mstate :=
  match k {| prev := p; rest := s; groups := gs |} with
  | Some r => Some r
  | None =>
      match s with
      | String c s' => if ok c then star_lazy ok k (Some c) gs s' else None
      | EmptyString => None
      end
  end.

(** [a*] followed by [k]: as many characters as possible are taken, and
    given back one by one while the continuation fails. *)
Fixpoint star_greedy (ok : ascii -> bool) (k : mstate -> option mstate)
    (p : option ascii) (gs : list string) (s : string) : option mstate :=
  let here := k {| prev := p; rest := s; groups := gs |} in
  match s with
  | String c s' =>
      if ok c
      then match star_greedy ok k (Some c) gs s' with
           | Some r => Some r
           | None => here
           end
      else here
  | EmptyString => here
  end.

Definition star (g : greed) := 
  match g with Lazy => star_lazy | Greedy => star_greedy end.

(** What a group captured: the text between where it opened and where it
    closed. *)
Definition captured (opened closed : string) : string :=
  take (length opened - length closed) opened.

(** [rmatch fl r k st]: match [r] at [st] and then [k]; the first success
    in the engine's order of preference is the answer. *)
Fixpoint rmatch (fl : flags) (r : regex) (k : mstate -> option mstate)
    (st : mstate) : option mstate :=
  match r with
  | Eps => k st
  | One a =>
      match rest st with
      | String c s' =>
          if atom_ok fl a c
          then k {| prev := Some c; rest := s'; groups := groups st |}
          else None
      | EmptyString => None
      end
  | Star g a => star g (atom_ok fl a) k (prev st) (groups st) (rest st)
  | Plus g a =>
      match rest st with
      | String c s' =>
          if atom_ok fl a c
          then star g (atom_ok fl a) k (Some c) (groups st) s'
          else None
      | EmptyString => None
      end
  | Bol => if at_bol fl st then k st else None
  | Eol => if at_eol fl st then k st else None
  | Group r1 =>
      rmatch fl r1
        (fun st' => k {| prev := prev st'; rest := rest st';
                         groups := (groups st' ++ [captured (rest st) (rest st')])%list |})
        st
  | Seq r1 r2 => rmatch fl r1 (rmatch fl r2 k) st
  end.

(** A match object: [group(0)], the numbered groups, and the text after
    the match. *)
Record match_obj := {
  m_text : string;
  m_groups : list string;
  m_after : string
}.

(** [m.group(i)] for [i >= 1]. *)
Definition group (m : match_obj) (i : nat) : string :=
  nth (i - 1) (m_groups m) EmptyString.

(** One attempt at one position.  With [must_advance] an empty match is
    refused, and the engine backtracks into the pattern for another. *)
Definition match_at (fl : flags) (r : regex) (must_advance : bool)
    (p : option ascii) (s : string) : option match_obj :=
  let final st :=
    if must_advance && Nat.eqb (length (rest st)) (length s)
    then None else Some st in
  match rmatch fl r final {| prev := p; rest := s; groups := [] |} with
  | Some st => Some {| m_text := captured s (rest st);
                       m_groups := groups st;
                       m_after := rest st |}
  | None => None
  end.

(** [re.search]: the leftmost position with a match. *)
Fixpoint search_from (fl : flags) (r : regex) (p : option ascii)
    (s : string) : option match_obj :=
  match match_at fl r false p s with
  | Some m => Some m
  | None =>
      match s with
      | String c s' => search_from fl r (Some c) s'
      | EmptyString => None
      end
  end.

Definition search (fl : flags) (r : regex) (s : string) : option match_obj :=
  search_from fl r None s.

(** The scan shared by [re.finditer] and [re.sub]: the text cut into the
    characters outside every match and the matches, left to right.
    [skip] counts the characters of the last match still to be passed
    over.  After an empty match the same position is tried once more
    for a match that is not empty. *)
Inductive piece :=
| Plain (c : ascii)
| Hit (m : match_obj).

Fixpoint scan (fl : flags) (r : regex) (skip : nat) (p : option ascii)
    (s : string) : list piece :=
  match s with
  | EmptyString =>
      match match_at fl r false p s with
      | Some m => [Hit m]
      | None => []
      end
  | String c s' =>
      match skip with
      | S n => scan fl r n (Some c) s'
      | O =>
          match match_at fl r false p s with
          | None => Plain c :: scan fl r 0 (Some c) s'
          | Some m =>
              match length (m_text m) with
              | S n => Hit m :: scan fl r n (Some c) s'
              | O =>
                  match match_at fl r true p s with
                  | Some m' =>
                      Hit m :: Hit m' ::
                      scan fl r (length (m_text m') - 1) (Some c) s'
                  | None => Hit m :: Plain c :: scan fl r 0 (Some c) s'
                  end
              end
          end
      end
  end.

(** [re.finditer(pattern, s)]. *)
Definition finditer (fl : flags) (r : regex) (s : string) : list match_obj :=
  flat_map (fun x => match x with Hit m => [m] | Plain _ => [] end)
           (scan fl r 0 None s).

(** [re.sub(pattern, repl, s)] for a replacement without group
    references. *)
Definition sub (fl : flags) (r : regex) (repl : string) (s : string) : string :=
  fold_right
    (fun x acc => match x with
                  | Hit _ => repl ++ acc
                  | Plain c => String c acc
                  end)
    EmptyString (scan fl r 0 None s).

(** A literal run of characters. *)
Fixpoint lit (s : string) : regex :=
  match s with
  | EmptyString => Eps
  | String c EmptyString => One (Chr c)
  | String c s' => Seq (One (Chr c)) (lit s')
  end.

Fixpoint seq (rs : list regex) : regex :=
  match rs with
  | [] => Eps
  | [r] => r
  | r :: rs' => Seq r (seq rs')
  end.

End Re.

(* ================================================================== *)
(** * The script *)

Module Script.
Import Py Re.

(** ** The patterns *)

(** [r'\[(.*?)\]\((.*?)\)'] *)
Definition link_pattern : regex :=
  seq [lit "["; Group (Star Lazy Any); lit "]("; Group (Star Lazy Any); lit ")"].

(** [r'<!--.*?-->'], used with [re.DOTALL]. *)
Definition comment_pattern : regex :=
  seq [lit "<!--"; Star Lazy Any; lit "-->"].

Definition dotall : flags := {| DOTALL := true; MULTILINE := false |}.

(** [r'^# (.*?)$'], used with [re.MULTILINE]. *)
Definition title_pattern : regex :=
  seq [Bol; lit "# "; Group (Star Lazy Any); Eol].

Definition multiline : flags := {| DOTALL := false; MULTILINE := true |}.

(** [r'\s+//.*$'], used with [re.MULTILINE]. *)
Definition line_comment_pattern : regex :=
  seq [Plus Greedy Space; lit "//"; Star Greedy Any; Eol].

(** [re.sub(r'<!--.*?-->', '', content, flags=re.DOTALL)] *)
Definition strip_comments (content : string) : string :=
  sub dotall comment_pattern "" content.

(** ** References *)

Record reference := {
  ref_name : string;
  ref_path : string;
  ref_type : string;
  ref_apiUrl : string
}.

Definition infer_guide_type (path : string) : string :=
  if str_in "python" (lower path) then "language"
  else if str_in "make" (lower path) then "pattern"
  else if str_in "postgresql" (lower path) || str_in "sql" (lower path)
  then "platform"
  else if str_in "shell" (lower path) then "language"
  else "other".

(** The body of the loop of [extract_references]: one match, the list so
    far, the list after it. *)
Definition extract_step (base_url : string) (references : list reference)
    (m : match_obj) : list reference :=
  let name := group m 1 in
  let path := group m 2 in
  if str_in "guides" path && endswith path ".md" then
    let guide_type := infer_guide_type path in
    let filename := replace (OsPath.basename path) ".md" ".json" in
    let api_url := base_url ++ "/" ++ guide_type ++ "s/" ++ filename in
    (references ++ [{| ref_name := name; ref_path := path;
                       ref_type := guide_type; ref_apiUrl := api_url |}])%list
  else references.

Definition extract_references_at (base_url content : string) : list reference :=
  fold_left (extract_step base_url) (finditer no_flags link_pattern content) [].

(** [extract_references(content)] with the default [base_url]. *)
Definition extract_references (content : string) : list reference :=
  extract_references_at "api/guides" content.

(** ** JSON values *)

#[local] Set Warnings "-register-all".

(** What [json.loads] returns: [None], [bool], [int], [float] (kept by
    its literal), [str], [list], and [dict] in insertion order. *)
Inductive json :=
| JNull
| JBool (b : bool)
| JInt (z : Z)
| JFloat (literal : string)
| JStr (s : string)
| JArr (items : list json)
| JObj (fields : list (string * json)).

(** [d.get(key)] on a [dict]. *)
Fixpoint dict_get (d : list (string * json)) (key : string) : option json :=
  match d with
  | [] => None
  | (k, v) :: d' => if String.eqb k key then Some v else dict_get d' key
  end.

(** [d[key] = v]: an existing key keeps its place, a new one goes last. *)
Fixpoint dict_set (d : list (string * json)) (key : string) (v : json)
    : list (string * json) :=
  match d with
  | [] => [(key, v)]
  | (k, v0) :: d' =>
      if String.eqb k key then (k, v) :: d' else (k, v0) :: dict_set d' key v
  end.

(** The exceptions the script can meet, all below [Exception]. *)
Inductive exn :=
| OSError
| JSONDecodeError
| AttributeError
| TypeError.

(** A computation that returns or raises. *)
Inductive raises (A : Type) :=
| Ok (a : A)
| Err (e : exn).
Arguments Ok {A} a.
Arguments Err {A} e.

Definition bind_raises {A B} (m : raises A) (k : A -> raises B) : raises B :=
  match m with
  | Ok a => k a
  | Err e => Err e
  end.

(** [iter(v)]: the items of a list, the keys of a dict, the characters of
    a string; anything else is not iterable. *)
Definition py_iter (v : json) : raises (list json) :=
  match v with
  | JArr items => Ok items
  | JObj fields => Ok (map (fun kv => JStr (fst kv)) fields)
  | JStr s => Ok (map (fun c => JStr (String c EmptyString)) (list_ascii_of_string s))
  | _ => Err TypeError
  end.

(** [v.get(key)]: only a dict has the method. *)
Definition py_get (v : json) (key : string) : raises (option json) :=
  match v with
  | JObj fields => Ok (dict_get fields key)
  | _ => Err AttributeError
  end.

(** [x == "main_guide"] for the result [x] of a [get]. *)
Definition is_str (x : option json) (s : string) : bool :=
  match x with
  | Some (JStr s') => String.eqb s' s
  | _ => false
  end.

(** [[e for e in items if e.get("name") == "main_guide"]] *)
Fixpoint keep_main_guide (items : list json) : raises (list json) :=
  match items with
  | [] => Ok []
  | e :: items' =>
      bind_raises (py_get e "name") (fun name =>
      bind_raises (keep_main_guide items') (fun kept =>
      Ok (if is_str name "main_guide" then e :: kept else kept)))
  end.

(** ** Generated guides, grouped by type *)

(** An entry of [generated_guides]. *)
Record generated_guide := {
  g_name : string;
  g_type : string;
  g_path : string
}.

(** One turn of the grouping loop on the dict [guides_by_type]: the guide
    joins the list of its type, and a type seen for the first time gets a
    new key, after the keys already there. *)
Fixpoint group_add (guide : generated_guide)
    (by_type : list (string * list generated_guide))
    : list (string * list generated_guide) :=
  match by_type with
  | [] => [(g_type guide, [guide])]
  | (t, guides) :: by_type' =>
      if String.eqb t (g_type guide)
      then (t, (guides ++ [guide])%list) :: by_type'
      else (t, guides) :: group_add guide by_type'
  end.

Definition group_by_type (generated_guides : list generated_guide)
    : list (string * list generated_guide) :=
  fold_left (fun by_type guide => group_add guide by_type) generated_guides [].

(** The endpoint built for one guide in [generate_mcp_manifest]. *)
Definition guide_endpoint (type_label : string) (guide : generated_guide) : json :=
  JObj [("name", JStr (replace (last_piece (split "/" (g_path guide))) ".json" ""));
        ("description", JStr (type_label ++ " guide for " ++ g_name guide));
        ("path", JStr ("/" ++ g_path guide))].

(** The two nested loops over [guides_by_type.items()]. *)
Definition guide_endpoints (generated_guides : list generated_guide) : list json :=
  flat_map
    (fun entry => map (guide_endpoint (capitalize (fst entry))) (snd entry))
    (group_by_type generated_guides).

(** The body of the [try] of [generate_mcp_manifest] between parsing the
    template and writing the manifest. *)
Definition build_manifest (manifest : json)
    (generated_guides : list generated_guide) : raises json :=
  match manifest with
  | JObj fields =>
      let listed := match dict_get fields "endpoints" with
                    | Some v => v
                    | None => JArr []
                    end in
      bind_raises (py_iter listed) (fun items =>
      bind_raises (keep_main_guide items) (fun endpoints =>
      Ok (JObj (dict_set fields "endpoints"
                  (JArr (endpoints ++ guide_endpoints generated_guides)%list)))))
  | _ => Err AttributeError
  end.

(** ** The world outside, the output tree, and the monad *)

(** What the script reads and asks of the operating system.  [None] from
    [read_text] or [listdir] stands for the call raising; [mkdir_ok path]
    says whether the whole call [os.makedirs(path, exist_ok=True)]
    succeeds, and [write_ok path] whether opening [path] for writing
    does. *)
Record world := {
  abspath : string -> string;
  read_text : string -> option string;
  path_exists : string -> bool;
  listdir : string -> option (list string);
  isfile : string -> bool;
  today : string;
  mkdir_ok : string -> bool;
  write_ok : string -> bool
}.

(** A row of the table of [index.html]. *)
Record index_row := {
  row_type : string;
  row_href : string;
  row_label : string;
  row_description : string
}.

(** What a written file holds: a document passed to [json.dump], or the
    index page, kept by the rows spliced into its fixed text. *)
Inductive file_content :=
| JsonFile (j : json)
| IndexHtml (rows : list index_row).

(** The output tree: the directories [os.makedirs] has made or found
    there, and the files written, by path. *)
Record fs := {
  dirs : list string;
  files : list (string * file_content)
}.

(** The lines the script prints. *)
Inductive event :=
| Usage
| LookingForGuides (guides_dir : string)
| ErrorReadingReadme
| ErrorNoGuideStart
| ErrorProcessingGuide (file_path : string)
| Created (path : string)
| Success
| ManifestCreatedAt (output_path : string)
| ErrorGeneratingManifest (e : exn)
| GeneratedFiles (paths : list string).

Record state := {
  st_fs : fs;
  st_log : list event
}.

(** How a computation ends: it returns, an exception leaves it, or
    [sys.exit] was called. *)
Inductive outcome (A : Type) :=
| Ret (a : A)
| Raise (e : exn)
| SysExit (code : Z).
Arguments Ret {A} a.
Arguments Raise {A} e.
Arguments SysExit {A} code.

Definition M (A : Type) : Type := state -> outcome A * state.

Definition ret {A} (a : A) : M A := fun st => (Ret a, st).

Definition bind {A B} (m : M A) (k : A -> M B) : M B :=
  fun st =>
    match m st with
    | (Ret a, st') => k a st'
    | (Raise e, st') => (Raise e, st')
    | (SysExit c, st') => (SysExit c, st')
    end.

Notation "x <- m ;; k" := (bind m (fun x => k))
  (at level 61, m at next level, right associativity).
Notation "m ;; k" := (bind m (fun _ => k))
  (at level 61, right associativity).

Definition raise {A} (e : exn) : M A := fun st => (Raise e, st).

Definition sys_exit {A} (code : Z) : M A := fun st => (SysExit code, st).

Definition print (e : event) : M unit :=
  fun st => (Ret tt, {| st_fs := st_fs st; st_log := (st_log st ++ [e])%list |}).

(** [try: body / except Exception as e: handler(e)]; [sys.exit] is not
    an [Exception] and passes through. *)
Definition try_except {A} (body : M A) (handler : exn -> M A) : M A :=
  fun st =>
    match body st with
    | (Raise e, st') => handler e st'
    | r => r
    end.

Definition lift {A} (r : raises A) : M A :=
  match r with
  | Ok a => ret a
  | Err e => raise e
  end.

(** A directory joins the directories that are there, once. *)
Definition add_dir (l : list string) (d : string) : list string :=
  if existsb (String.eqb d) l then l else (l ++ [d])%list.

(** [os.makedirs(path, exist_ok=True)]: when the call succeeds
    ([mkdir_ok]), the path and every directory above it are there,
    made by the call or found. *)
Definition makedirs (w : world) (path : string) : M unit :=
  fun st =>
    if mkdir_ok w path then
      let f := st_fs st in
      (Ret tt,
       {| st_fs := {| dirs := fold_left add_dir (OsPath.made_by_makedirs path)
                                (dirs f);
                      files := files f |};
          st_log := st_log st |})
    else (Raise OSError, st).

Definition set_file (path : string) (c : file_content)
    (l : list (string * file_content)) : list (string * file_content) :=
  (path, c) :: filter (fun kv => negb (String.eqb (fst kv) path)) l.

Fixpoint get_file (l : list (string * file_content)) (path : string)
    : option file_content :=
  match l with
  | [] => None
  | (k, c) :: l' => if String.eqb k path then Some c else get_file l' path
  end.

(** [with open(path, 'w', encoding='utf-8') as f:] followed by the one
    write of the content. *)
Definition write_file (w : world) (path : string) (c : file_content) : M unit :=
  fun st =>
    if write_ok w path then
      let f := st_fs st in
      (Ret tt,
       {| st_fs := {| dirs := dirs f; files := set_file path c (files f) |};
          st_log := st_log st |})
    else (Raise OSError, st).

(** [open(path, 'r', encoding='utf-8')] and [f.read()]. *)
Definition read_file (w : world) (path : string) : M string :=
  match read_text w path with
  | Some text => ret text
  | None => raise OSError
  end.

Fixpoint for_each {A B} (body : B -> A -> M B) (l : list A) (acc : B) : M B :=
  match l with
  | [] => ret acc
  | a :: l' => acc' <- body acc a ;; for_each body l' acc'
  end.

(** The status the interpreter exits with. *)
Definition exit_status {A} (o : outcome A) : Z :=
  match o with
  | Ret _ => 0%Z
  | Raise _ => 1%Z
  | SysExit code => code
  end.

(** ** process_guide_markdown *)

Record guide_data := {
  title : string;
  content : string
}.

Definition process_guide_markdown (w : world) (file_path : string)
    : M (option guide_data) :=
  try_except
    (content <- read_file w file_path ;;
     let content := strip_comments content in
     let title :=
       match search multiline title_pattern content with
       | Some title_match => group title_match 1
       | None => replace (OsPath.basename file_path) ".md" ""
       end in
     ret (Some {| title := title; content := content |}))
    (fun e => print (ErrorProcessingGuide file_path) ;; ret None).

(** ** create_index_html *)

(** Python's stable [list.sort(key=...)] on the names: each guide goes
    behind the ones whose name is not greater. *)
Fixpoint insert_by_name (g : generated_guide) (l : list generated_guide)
    : list generated_guide :=
  match l with
  | [] => [g]
  | h :: t =>
      if String.leb (g_name h) (g_name g) then h :: insert_by_name g t
      else g :: h :: t
  end.

Definition sort_by_name (l : list generated_guide) : list generated_guide :=
  fold_left (fun acc g => insert_by_name g acc) l [].

Fixpoint lookup_group (by_type : list (string * list generated_guide))
    (t : string) : option (list generated_guide) :=
  match by_type with
  | [] => None
  | (k, v) :: by_type' => if String.eqb k t then Some v else lookup_group by_type' t
  end.

Definition guide_type_order : list string :=
  ["language"; "pattern"; "platform"; "other"].

Definition index_rows (generated_guides : list generated_guide) : list index_row :=
  let guides_by_type := group_by_type generated_guides in
  ({| row_type := "Manifest"; row_href := "manifest.json";
      row_label := "manifest.json"; row_description := "MCP Server Manifest" |}
   :: {| row_type := "Main Guide"; row_href := "api/guide.json";
         row_label := "guide.json";
         row_description := "Complete AI Developer Guide" |}
   :: flat_map
        (fun guide_type =>
           match lookup_group guides_by_type guide_type with
           | Some guides =>
               map (fun guide =>
                      {| row_type := capitalize guide_type;
                         row_href := g_path guide;
                         row_label := last_piece (split "/" (g_path guide));
                         row_description := g_name guide |})
                   (sort_by_name guides)
           | None => []
           end)
        guide_type_order)%list.

Definition create_index_html (w : world) (output_dir : string)
    (generated_guides : list generated_guide) : M unit :=
  let index_html := IndexHtml (index_rows generated_guides) in
  let index_html_path := OsPath.join output_dir ["index.html"] in
  write_file w index_html_path index_html ;;
  print (Created "index.html").

Section WithJsonLoads.

(** [json.loads] of the standard library; [None] stands for its
    [JSONDecodeError]. *)
Variable json_loads : string -> option json.

(** ** generate_mcp_manifest *)

Definition generate_mcp_manifest (w : world) (project_dir output_dir : string)
    (generated_guides : list generated_guide) : M unit :=
  let template_path := OsPath.join project_dir ["mcp"; "manifest.template.json"] in
  let output_path := OsPath.join output_dir ["manifest.json"] in
  try_except
    (template_content <- read_file w template_path ;;
     let template_content := sub multiline line_comment_pattern "" template_content in
     manifest <- match json_loads template_content with
                 | Some j => ret j
                 | None => raise JSONDecodeError
                 end ;;
     manifest <- lift (build_manifest manifest generated_guides) ;;
     write_file w output_path (JsonFile manifest) ;;
     print (Created "manifest.json") ;;
     print (ManifestCreatedAt output_path))
    (fun e => print (ErrorGeneratingManifest e)).

(** ** create_guide_json *)

Definition golden_rules : string := "## The Golden Rules".

Definition guide_types : list string :=
  ["languages"; "patterns"; "platforms"; "other"].

(** The JSON document of one guide. *)
Definition specific_guide (w : world) (filename guide_type : string)
    (data : guide_data) : json :=
  JObj [("metadata",
         JObj [("name", JStr (title data));
               ("type", JStr guide_type);
               ("version", JStr "0.1.0");
               ("lastUpdated", JStr (today w));
               ("source",
                JStr ("https://github.com/dwmkerr/ai-developer-guide/docs/guides/"
                      ++ filename))]);
        ("content", JStr (content data))].

(** The body of the loop over [guide_files].  The line printed for a
    guide is kept with the path written to; the script prints that path
    relative to the output directory ([os.path.relpath]). *)
Definition emit_guide (w : world) (api_guides_dir : string)
    (generated_guides : list generated_guide) (guide_file : string)
    : M (list generated_guide) :=
  let filename := OsPath.basename guide_file in
  guide_data <- process_guide_markdown w guide_file ;;
  match guide_data with
  | Some data =>
      let guide_type := infer_guide_type guide_file in
      let output_filename := replace filename ".md" ".json" in
      let output_subdir := guide_type ++ "s" in
      let output_path :=
        OsPath.join api_guides_dir [output_subdir; output_filename] in
      makedirs w (OsPath.dirname output_path) ;;
      write_file w output_path
        (JsonFile (specific_guide w filename guide_type data)) ;;
      print (Created output_path) ;;
      ret (generated_guides ++
           [{| g_name := title data;
               g_type := guide_type;
               g_path := "api/guides/" ++ output_subdir ++ "/" ++ output_filename |}])%list
  | None => ret generated_guides
  end.

Definition reference_json (r : reference) : json :=
  JObj [("name", JStr (ref_name r));
        ("path", JStr (ref_path r));
        ("type", JStr (ref_type r));
        ("apiUrl", JStr (ref_apiUrl r))].

(** The JSON document of the main guide. *)
Definition main_guide (w : world) (guide_content : string)
    (references : list reference) : json :=
  JObj [("metadata",
         JObj [("name", JStr "AI Developer Guide");
               ("version", JStr "0.1.0");
               ("lastUpdated", JStr (today w));
               ("source", JStr "https://github.com/dwmkerr/ai-developer-guide")]);
        ("content", JStr guide_content);
        ("references", JArr (map reference_json references))].

(** The files of [guides_dir] to process. *)
Definition list_guide_files (w : world) (guides_dir : string) : M (list string) :=
  if path_exists w guides_dir then
    match listdir w guides_dir with
    | Some names =>
        ret (map (fun f => OsPath.join guides_dir [f])
                 (filter (fun f => endswith f ".md" &&
                                   isfile w (OsPath.join guides_dir [f]))
                         names))
    | None => raise OSError
    end
  else ret [].

(** [create_guide_json] up to and including [create_index_html] and the
    line that reports success: everything before the manifest. *)
Definition generate_api (w : world) (readme_path output_dir : string)
    : M (list generated_guide) :=
  let project_dir := OsPath.dirname (abspath w readme_path) in
  let guides_dir := OsPath.join project_dir ["docs"; "guides"] in
  print (LookingForGuides guides_dir) ;;
  let api_dir := OsPath.join output_dir ["api"] in
  let api_guides_dir := OsPath.join api_dir ["guides"] in
  makedirs w api_dir ;;
  makedirs w api_guides_dir ;;
  for_each (fun _ guide_type =>
              makedirs w (OsPath.join api_guides_dir [guide_type]))
           guide_types tt ;;
  content <- try_except (read_file w readme_path)
               (fun e => print ErrorReadingReadme ;; sys_exit 1) ;;
  let content := strip_comments content in
  let guide_start_idx := find content golden_rules in
  (if (guide_start_idx =? -1)%Z
   then print ErrorNoGuideStart ;; sys_exit 1
   else ret tt) ;;
  let guide_content := slice_from content guide_start_idx in
  let references := extract_references guide_content in
  guide_files <- list_guide_files w guides_dir ;;
  generated_guides <- for_each (emit_guide w api_guides_dir) guide_files [] ;;
  let guide_json_path := OsPath.join api_dir ["guide.json"] in
  write_file w guide_json_path
    (JsonFile (main_guide w guide_content references)) ;;
  print (Created "api/guide.json") ;;
  create_index_html w output_dir generated_guides ;;
  print Success ;;
  ret generated_guides.

(** The listing printed last, kept with the files of the output tree the
    state knows of; [os.walk] lists every file below the output
    directory, in the order of the directories. *)
Definition list_generated : M unit :=
  fun st => print (GeneratedFiles (map fst (files (st_fs st)))) st.

Definition create_guide_json (w : world) (readme_path output_dir : string)
    : M unit :=
  generated_guides <- generate_api w readme_path output_dir ;;
  generate_mcp_manifest w
    (OsPath.dirname (abspath w readme_path)) output_dir generated_guides ;;
  list_generated.

(** The [__main__] block, on [sys.argv]. *)
Definition main (w : world) (argv : list string) : M unit :=
  match argv with
  | [_; readme_path; output_dir] => create_guide_json w readme_path output_dir
  | _ => print Usage ;; sys_exit 1
  end.

End WithJsonLoads.

End Script.

(* ================================================================== *)
(** * What the specification says, in its own terms

    Definitions written from the words of the specification, to be
    compared with the script's. *)

Module Spec.
Import Py Script.

(** "Case-insensitive ... contains": some stretch of the path reads as
    the (lower-case) needle once letter case is ignored. *)
Definition ci_occurs (needle path : string) : Prop :=
  exists pre mid post, path = pre ++ mid ++ post /\ lower mid = needle.

(** The text before the first [delim] and the text after it, as long as
    no line break comes before that [delim]. *)
Fixpoint cut_at (delim s : string) : option (string * string) :=
  if startswith s delim then Some (EmptyString, drop (length delim) s)
  else match s with
       | EmptyString => None
       | String c s' =>
           if Ascii.eqb c nl then None
           else match cut_at delim s' with
                | Some (before, after) => Some (String c before, after)
                | None => None
                end
       end.

(** "Markdown link syntax [[name](path)]", not nested: an opening
    bracket, the name up to the first [](], the path up to the first
    closing parenthesis, all on one line.  The result is the name, the
    path and the text after the link. *)
Definition link_at (s : string) : option (string * string * string) :=
  match s with
  | String c s1 =>
      if Ascii.eqb c "[" then
        match cut_at "](" s1 with
        | Some (name, s2) =>
            match cut_at ")" s2 with
            | Some (path, after) => Some (name, path, after)
            | None => None
            end
        | None => None
        end
      else None
  | EmptyString => None
  end.

(** The links of a text in a "stable, left-to-right scan": the leftmost
    link, then the links of what follows it. *)
Fixpoint links_upto (fuel : nat) (s : string) : list (string * string) :=
  match fuel with
  | O => []
  | S fuel' =>
      match link_at s with
      | Some (name, path, after) => (name, path) :: links_upto fuel' after
      | None =>
          match s with
          | EmptyString => []
          | String _ s' => links_upto fuel' s'
          end
      end
  end.

Definition markdown_links (s : string) : list (string * string) :=
  links_upto (S (length s)) s.

(** "Its path contains the substring guides and ends with .md". *)
Definition is_guide_link (link : string * string) : bool :=
  str_in "guides" (snd link) && endswith (snd link) ".md".

(** The Reference record of a link. *)
Definition reference_of (link : string * string) : reference :=
  let type := infer_guide_type (snd link) in
  {| ref_name := fst link;
     ref_path := snd link;
     ref_type := type;
     ref_apiUrl := "api/guides/" ++ type ++ "s/"
                   ++ replace (OsPath.basename (snd link)) ".md" ".json" |}.

(** A text still holds a comment block: a [<!--] with a [-->] somewhere
    behind it. *)
Definition has_comment (s : string) : bool :=
  let i := find s "<!--" in
  if (i <? 0)%Z then false
  else str_in "-->" (drop (Z.to_nat i + 4) s).

(** The types of a list of guides, each once, in the order in which they
    first appear. *)
Fixpoint distinct (l : list string) : list string :=
  match l with
  | [] => []
  | x :: l' => x :: filter (fun y => negb (String.eqb y x)) (distinct l')
  end.

Definition of_type (t : string) (g : generated_guide) : bool :=
  String.eqb (g_type g) t.

(** Guides grouped by type: the groups in the order in which their types
    first appear, the guides of a group in processing order. *)
Definition grouped (guides : list generated_guide) : list generated_guide :=
  flat_map (fun t => filter (of_type t) guides) (distinct (map g_type guides)).

(** The manifest endpoint of one generated guide. *)
Definition endpoint_of (g : generated_guide) : json :=
  guide_endpoint (capitalize (g_type g)) g.

(** An endpoint of the template named [main_guide]. *)
Definition is_main_guide (e : json) : bool :=
  match e with
  | JObj fields => is_str (dict_get fields "name") "main_guide"
  | _ => false
  end.

(** A field of a dict under another key than [key]. *)
Definition other_than (key : string) (kv : string * json) : bool :=
  negb (String.eqb (fst kv) key).

(** The group of one type among the guides. *)
Definition group_of (guides : list generated_guide) (t : string)
    : string * list generated_guide :=
  (t, filter (of_type t) guides).

Definition is_object (e : json) : bool :=
  match e with
  | JObj _ => true
  | _ => false
  end.

End Spec.

(* ================================================================== *)
(** * Devices of the proofs *)

Module Cont.
Import Py Re Script.

(** The matcher's continuations inside the patterns, named: what remains
    to be matched once a repetition has been entered. *)

(** Behind the second group of [link_pattern], opened at [s2]. *)
Definition path_k (s2 : string) : mstate -> option mstate :=
  fun st' =>
    rmatch no_flags (lit ")") Some
      {| prev := prev st'; rest := rest st';
         groups := (groups st' ++ [captured s2 (rest st')])%list |}.

(** Behind the first group of [link_pattern], opened at [s1]. *)
Definition name_k (s1 : string) : mstate -> option mstate :=
  fun st' =>
    rmatch no_flags (seq [lit "]("; Group (Star Lazy Any); lit ")"]) Some
      {| prev := prev st'; rest := rest st';
         groups := (groups st' ++ [captured s1 (rest st')])%list |}.

(** Behind the [.*?] of [comment_pattern]. *)
Definition comment_k : mstate -> option mstate :=
  rmatch dotall (lit "-->") Some.

(** A comment block opens here and is closed further on. *)
Definition comment_at (s : string) : bool :=
  startswith s "<!--" && str_in "-->" (drop 4 s).

(** The text [re.sub] leaves of a scan when the replacement is empty. *)
Definition kept (l : list piece) : string :=
  fold_right
    (fun x acc => match x with
                  | Hit _ => "" ++ acc
                  | Plain c => String c acc
                  end)
    EmptyString l.

(** The matches of a scan. *)
Definition hits (l : list piece) : list match_obj :=
  flat_map (fun x => match x with Hit m => [m] | Plain _ => [] end) l.

(** Name and path of a link match. *)
Definition link_of (m : match_obj) : string * string := (group m 1, group m 2).

(** What [.] matches without [re.DOTALL]. *)
Definition not_nl : ascii -> bool := atom_ok no_flags Any.

End Cont.

(* ================================================================== *)
(** * The run: paths, states, and a weakest precondition *)

Module Out.
Import Py Script.

(** Where the outputs go, under the output directory. *)
Definition api_guides_dir (output_dir : string) : string :=
  OsPath.join (OsPath.join output_dir ["api"]) ["guides"].

Definition guide_json_path (output_dir : string) : string :=
  OsPath.join (OsPath.join output_dir ["api"]) ["guide.json"].

Definition index_html_path (output_dir : string) : string :=
  OsPath.join output_dir ["index.html"].

Definition manifest_path (output_dir : string) : string :=
  OsPath.join output_dir ["manifest.json"].

(** Where the output of one guide file goes, under the directory of the
    guides and under the output directory. *)
Definition guide_output_path_in (dir guide_file : string) : string :=
  OsPath.join dir
    [infer_guide_type guide_file ++ "s";
     replace (OsPath.basename guide_file) ".md" ".json"].

Definition guide_output_path (output_dir guide_file : string) : string :=
  guide_output_path_in (api_guides_dir output_dir) guide_file.

(** Where the inputs are, from the path of the README. *)
Definition project_dir (w : world) (readme_path : string) : string :=
  OsPath.dirname (abspath w readme_path).

Definition guides_dir (w : world) (readme_path : string) : string :=
  OsPath.join (project_dir w readme_path) ["docs"; "guides"].

Definition template_path (w : world) (readme_path : string) : string :=
  OsPath.join (project_dir w readme_path) ["mcp"; "manifest.template.json"].

Definition files_of (st : state) : list (string * file_content) :=
  files (st_fs st).

(** The run did not end well: an exception left it, or [sys.exit(1)]. *)
Definition aborted {A} (o : outcome A) : Prop :=
  match o with
  | Ret _ => False
  | Raise _ => True
  | SysExit code => code = 1%Z
  end.

(** [wp m Q st]: run from [st], [m] ends in an outcome and a state that
    satisfy [Q]. *)
Definition wp {A} (m : M A) (Q : outcome A -> state -> Prop) (st : state) : Prop :=
  Q (fst (m st)) (snd (m st)).

(** What [Q] asks of a step that is followed by [k]. *)
Definition then_wp {A B} (k : A -> M B) (Q : outcome B -> state -> Prop)
    : outcome A -> state -> Prop :=
  fun o st =>
    match o with
    | Ret a => wp (k a) Q st
    | Raise e => Q (Raise e) st
    | SysExit code => Q (SysExit code) st
    end.

(** The state after a [print]. *)
Definition logged (e : event) (st : state) : state :=
  {| st_fs := st_fs st; st_log := (st_log st ++ [e])%list |}.

(** The state after a [makedirs]. *)
Definition with_dir (path : string) (st : state) : state :=
  {| st_fs := {| dirs := fold_left add_dir (OsPath.made_by_makedirs path)
                           (dirs (st_fs st));
                 files := files (st_fs st) |};
     st_log := st_log st |}.

(** The state after a write. *)
Definition with_file (path : string) (c : file_content) (st : state) : state :=
  {| st_fs := {| dirs := dirs (st_fs st);
                 files := set_file path c (files (st_fs st)) |};
     st_log := st_log st |}.

(** The state [generate_api] leaves when it returns: [guide.json] and
    [index.html] written on top of what the loop left. *)
Definition api_done (output_dir : string) (main : json)
    (guides : list generated_guide) (st : state) : state :=
  logged Success
    (logged (Created "index.html")
       (with_file (index_html_path output_dir) (IndexHtml (index_rows guides))
          (logged (Created "api/guide.json")
             (with_file (guide_json_path output_dir) (JsonFile main) st)))).

(** How [generate_mcp_manifest] can end: always by returning, with the
    manifest written or with the one line of the error logged. *)
Inductive manifest_step (json_loads : string -> option json) (w : world)
    (readme_path output_dir : string) (guides : list generated_guide)
    (st : state) : state -> Prop :=
| manifest_written text manifest manifest' :
    read_text w (template_path w readme_path) = Some text ->
    json_loads (Re.sub multiline line_comment_pattern "" text) = Some manifest ->
    build_manifest manifest guides = Ok manifest' ->
    write_ok w (manifest_path output_dir) = true ->
    manifest_step json_loads w readme_path output_dir guides st
      (logged (ManifestCreatedAt (manifest_path output_dir))
         (logged (Created "manifest.json")
            (with_file (manifest_path output_dir) (JsonFile manifest') st)))
| manifest_failed e :
    read_text w (template_path w readme_path) = None \/
    (exists text,
        read_text w (template_path w readme_path) = Some text /\
        (json_loads (Re.sub multiline line_comment_pattern "" text) = None \/
         exists manifest,
           json_loads (Re.sub multiline line_comment_pattern "" text)
           = Some manifest /\
           (build_manifest manifest guides = Err e \/
            write_ok w (manifest_path output_dir) = false))) ->
    manifest_step json_loads w readme_path output_dir guides st
      (logged (ErrorGeneratingManifest e) st).

End Out.


(* ================================================================== *)
(** * A repository to run the script on *)

Module Demo.
Import Py Script Out.

(** A small repository to run the script on. *)

Definition quote : string := String "034"%char "".

Definition lines (l : list string) : string := join (String nl "") l.

(** The README: the marker sits in the middle of a line. *)
Definition readme_text : string :=
  lines ["# AI Developer Guide <!-- draft -->";
         "Start with ## The Golden Rules of the guide";
         "[Python Guide](./docs/guides/python.md), [Notes](./docs/guides/notes.md)"].

(** A README without the marker. *)
Definition readme_without_marker : string :=
  lines ["# AI Developer Guide"; "<!-- ## The Golden Rules -->"; "Nothing yet."].

(** The manifest template, with a trailing comment. *)
Definition template_text : string :=
  lines ["{" ++ quote ++ "version" ++ quote ++ ": 1,   // kept as it is";
         " " ++ quote ++ "endpoints" ++ quote ++ ": [{" ++ quote ++ "name"
             ++ quote ++ ": " ++ quote ++ "main_guide" ++ quote ++ "}]}"].

(** The template without its comment, as [json.loads] gets it. *)
Definition template_json_text : string :=
  lines ["{" ++ quote ++ "version" ++ quote ++ ": 1,";
         " " ++ quote ++ "endpoints" ++ quote ++ ": [{" ++ quote ++ "name"
             ++ quote ++ ": " ++ quote ++ "main_guide" ++ quote ++ "}]}"].

Definition main_guide_endpoint : json := JObj [("name", JStr "main_guide")].

(** What [json.loads] makes of [template_json_text]. *)
Definition template_json : json :=
  JObj [("version", JInt 1); ("endpoints", JArr [main_guide_endpoint])].

(** [json.loads] on the one text of this repository; it is not asked
    about any other. *)
Definition loads (s : string) : option json :=
  if String.eqb s template_json_text then Some template_json else None.

(** The repository at [/repo], with four guides; [readme] and [template]
    are the contents of the two files ([None]: unreadable), and the
    paths of [read_only] cannot be written. *)
Definition repo (readme template : option string) (read_only : list string)
    : world :=
  {| abspath := fun p => "/repo/" ++ p;
     read_text := fun p =>
       if String.eqb p "README.md" then readme
       else if String.eqb p "/repo/mcp/manifest.template.json" then template
       else if String.eqb p "/repo/docs/guides/python.md"
       then Some (lines ["# Python Guide"; "Body text."])
       else if String.eqb p "/repo/docs/guides/make.md"
       then Some (lines ["# Makefiles"; "Targets."])
       else if String.eqb p "/repo/docs/guides/shell.md"
       then Some (lines ["# Shell Scripts"; "Quoting."])
       else if String.eqb p "/repo/docs/guides/notes.md"
       then Some "Plain notes without a heading."
       else None;
     path_exists := fun p => String.eqb p "/repo/docs/guides";
     listdir := fun p =>
       if String.eqb p "/repo/docs/guides"
       then Some ["python.md"; "make.md"; "shell.md"; "notes.md"]
       else None;
     isfile := fun _ => true;
     today := "2025-01-01";
     mkdir_ok := fun _ => true;
     write_ok := fun p => negb (existsb (String.eqb p) read_only) |}.

Definition healthy : world := repo (Some readme_text) (Some template_text) [].

(** An empty output tree and an empty log. *)
Definition start : state :=
  {| st_fs := {| dirs := []; files := [] |}; st_log := [] |}.

(** The guides of the repository as [generated_guides] lists them. *)
Definition generated : list generated_guide :=
  [{| g_name := "Python Guide"; g_type := "language";
      g_path := "api/guides/languages/python.json" |};
   {| g_name := "Makefiles"; g_type := "pattern";
      g_path := "api/guides/patterns/make.json" |};
   {| g_name := "Shell Scripts"; g_type := "language";
      g_path := "api/guides/languages/shell.json" |};
   {| g_name := "notes"; g_type := "other";
      g_path := "api/guides/others/notes.json" |}].

End Demo.

(* ================================================================== *)
(** * More of the specification and of the proofs' devices *)

Module More.
Import Py Re Script Spec Out.

(** ** Headings, line by line *)

(** The first of the lines that begins with [# ], without that mark. *)
Fixpoint heading_of_lines (ls : list string) : option string :=
  match ls with
  | [] => None
  | l :: ls' => if startswith l "# " then Some (drop 2 l) else heading_of_lines ls'
  end.

(** The text of the first level-1 heading of a document. *)
Definition first_heading (content : string) : option string :=
  heading_of_lines (split nl content).

(** The title of a guide: its first heading, or else its file name
    without [.md]. *)
Definition guide_title (file_path text : string) : string :=
  match first_heading (strip_comments text) with
  | Some t => t
  | None => replace (OsPath.basename file_path) ".md" ""
  end.

(** A line up to its end, and the text from its end on. *)
Fixpoint line_of (s : string) : string :=
  match s with
  | EmptyString => EmptyString
  | String c s' => if Ascii.eqb c nl then EmptyString else String c (line_of s')
  end.

Fixpoint after_line (s : string) : string :=
  match s with
  | EmptyString => EmptyString
  | String c s' => if Ascii.eqb c nl then s else after_line s'
  end.

(** The matcher stands at the start of a line. *)
Definition at_line_start (p : option ascii) : bool :=
  match p with
  | None => true
  | Some c => Ascii.eqb c nl
  end.

(** Behind the group of [title_pattern], opened at [s2]. *)
Definition title_k (s2 : string) : mstate -> option mstate :=
  fun st' =>
    rmatch multiline Eol Some
      {| prev := prev st'; rest := rest st';
         groups := (groups st' ++ [captured s2 (rest st')])%list |}.


(** ** The index page *)

(** One name is not above another, in the order of [str]. *)
Definition name_le (a b : generated_guide) : Prop :=
  String.leb (g_name a) (g_name b) = true.

(** The row of a guide in the table of [index.html]. *)
Definition guide_row (guide_type : string) (guide : generated_guide) : index_row :=
  {| row_type := capitalize guide_type;
     row_href := g_path guide;
     row_label := last_piece (split "/" (g_path guide));
     row_description := g_name guide |}.

(** The two rows every index begins with. *)
Definition fixed_rows : list index_row :=
  [{| row_type := "Manifest"; row_href := "manifest.json";
      row_label := "manifest.json"; row_description := "MCP Server Manifest" |};
   {| row_type := "Main Guide"; row_href := "api/guide.json";
      row_label := "guide.json";
      row_description := "Complete AI Developer Guide" |}].

(** The guides of the index, type after type in the fixed order, each
    type sorted by name. *)
Definition listed_guides (guides : list generated_guide) : list generated_guide :=
  flat_map (fun t => sort_by_name (filter (of_type t) guides)) guide_type_order.

(** ** Paths under a directory *)

(** A directory as the prefix of the paths under it: [os.path.join] puts
    a slash behind it unless it is empty or ends with one. *)
Definition dir_prefix (a : string) : string :=
  if String.eqb a "" || endswith a "/" then a else a ++ "/".

(** The path of a generated guide relative to the output directory, as
    the record of the guide has it. *)
Definition guide_relative_path (guide_file : string) : string :=
  "api/guides/" ++ (infer_guide_type guide_file ++ "s") ++ "/"
  ++ replace (OsPath.basename guide_file) ".md" ".json".

(** ** The loop over the guide files, as a function of the world *)

(** The record kept for a guide file that was read. *)
Definition guide_record (guide_file text : string) : generated_guide :=
  {| g_name := guide_title guide_file text;
     g_type := infer_guide_type guide_file;
     g_path := guide_relative_path guide_file |}.

(** The JSON document written for a guide file that was read. *)
Definition guide_document (w : world) (guide_file text : string) : json :=
  specific_guide w (OsPath.basename guide_file) (infer_guide_type guide_file)
    {| title := guide_title guide_file text;
       content := strip_comments text |}.

(** The records of the guide files that can be read, in the order of
    the files. *)
Definition generated_of (w : world) (guide_files : list string)
    : list generated_guide :=
  flat_map (fun f => match read_text w f with
                     | Some text => [guide_record f text]
                     | None => []
                     end)
           guide_files.

(** The state after the turn of the loop for one guide file. *)
Definition emitted (w : world) (dir : string) (st : state)
    (guide_file : string) : state :=
  match read_text w guide_file with
  | Some text =>
      logged (Created (guide_output_path_in dir guide_file))
        (with_file (guide_output_path_in dir guide_file)
           (JsonFile (guide_document w guide_file text))
           (with_dir (OsPath.dirname (guide_output_path_in dir guide_file)) st))
  | None => logged (ErrorProcessingGuide guide_file) st
  end.

(** The output of a guide file can be written, if the file can be read
    at all. *)
Definition emit_ok (w : world) (dir guide_file : string) : bool :=
  match read_text w guide_file with
  | Some _ =>
      mkdir_ok w (OsPath.dirname (guide_output_path_in dir guide_file)) &&
      write_ok w (guide_output_path_in dir guide_file)
  | None => true
  end.

(** The guide files the script finds in a directory, when listing it
    does not fail. *)
Definition listed_files (w : world) (guides_dir : string) : list string :=
  if path_exists w guides_dir then
    match listdir w guides_dir with
    | Some names =>
        map (fun f => OsPath.join guides_dir [f])
            (filter (fun f => endswith f ".md" &&
                              isfile w (OsPath.join guides_dir [f]))
                    names)
    | None => []
    end
  else [].

(** The directories the script asks [os.makedirs] for before the README
    is opened. *)
Definition output_dirs (output_dir : string) : list string :=
  [OsPath.join output_dir ["api"];
   api_guides_dir output_dir;
   OsPath.join (api_guides_dir output_dir) ["languages"];
   OsPath.join (api_guides_dir output_dir) ["patterns"];
   OsPath.join (api_guides_dir output_dir) ["platforms"];
   OsPath.join (api_guides_dir output_dir) ["other"]].

(** The state once the output directories are made. *)
Definition prepared (w : world) (readme_path output_dir : string)
    (st : state) : state :=
  fold_left (fun st d => with_dir d st) (output_dirs output_dir)
    (logged (LookingForGuides (guides_dir w readme_path)) st).

(** The guide of the README: the text without comments, from the marker
    on. *)
Definition guide_content_of (text : string) : string :=
  slice_from (strip_comments text) (find (strip_comments text) golden_rules).

(** The state [generate_api] leaves when all goes well. *)
Definition api_state (w : world) (readme_path output_dir text : string)
    (st : state) : state :=
  let guide_files := listed_files w (guides_dir w readme_path) in
  api_done output_dir
    (main_guide w (guide_content_of text)
       (extract_references (guide_content_of text)))
    (generated_of w guide_files)
    (fold_left (emitted w (api_guides_dir output_dir)) guide_files
       (prepared w readme_path output_dir st)).

(** Listing the guides directory does not fail. *)
Definition listing_ok (w : world) (guides_dir : string) : bool :=
  negb (path_exists w guides_dir) ||
  match listdir w guides_dir with
  | Some _ => true
  | None => false
  end.

(** Everything [generate_api] asks of the world is granted. *)
Definition world_ok (w : world) (readme_path output_dir : string) : bool :=
  forallb (mkdir_ok w) (output_dirs output_dir) &&
  listing_ok w (guides_dir w readme_path) &&
  forallb (emit_ok w (api_guides_dir output_dir))
          (listed_files w (guides_dir w readme_path)) &&
  write_ok w (guide_json_path output_dir) &&
  write_ok w (index_html_path output_dir).

(** ** More repositories to run the script on *)

(** The world [w] with some files that cannot be read and some
    directories that cannot be made. *)
Definition broken (unreadable no_mkdir : list string) (w : world) : world :=
  {| abspath := abspath w;
     read_text := fun p => if existsb (String.eqb p) unreadable then None
                           else read_text w p;
     path_exists := path_exists w;
     listdir := listdir w;
     isfile := isfile w;
     today := today w;
     mkdir_ok := fun p => negb (existsb (String.eqb p) no_mkdir) && mkdir_ok w p;
     write_ok := write_ok w |}.

(** The world [w] without any directory of guides. *)
Definition without_guides (w : world) : world :=
  {| abspath := abspath w;
     read_text := read_text w;
     path_exists := fun _ => false;
     listdir := listdir w;
     isfile := isfile w;
     today := today w;
     mkdir_ok := mkdir_ok w;
     write_ok := write_ok w |}.

(** The world [w] where what is at the place of the guides directory
    cannot be listed. *)
Definition unlistable (w : world) : world :=
  {| abspath := abspath w;
     read_text := read_text w;
     path_exists := path_exists w;
     listdir := fun _ => None;
     isfile := isfile w;
     today := today w;
     mkdir_ok := mkdir_ok w;
     write_ok := write_ok w |}.

(** The row of a guide under its own type. *)
Definition index_row_of (guide : generated_guide) : index_row :=
  guide_row (g_type guide) guide.

(** ** Line comments of the manifest template *)

(** The text behind the whitespace a text begins with. *)
Fixpoint skip_spaces (s : string) : string :=
  match s with
  | EmptyString => EmptyString
  | String c s' => if isspace c then skip_spaces s' else s
  end.

(** A line comment begins here: whitespace, and right behind all of it
    [//]. *)
Definition line_comment_at (s : string) : bool :=
  match s with
  | EmptyString => false
  | String c s' => isspace c && startswith (skip_spaces s') "//"
  end.

(** What follows the line comment that begins a text: the end of the
    line of its [//] and everything behind. *)
Definition after_comment (s : string) : string :=
  after_line (drop 2 (skip_spaces s)).

(** A text without its line comments, left to right: where a comment
    begins the scan goes on at the end of its line, and any other
    character is kept. *)
Fixpoint uncommented (fuel : nat) (s : string) : string :=
  match fuel with
  | O => EmptyString
  | S fuel' =>
      match s with
      | EmptyString => EmptyString
      | String c s' =>
          if line_comment_at s then uncommented fuel' (after_comment s)
          else String c (uncommented fuel' s')
      end
  end.

Definition without_line_comments (s : string) : string :=
  uncommented (length s) s.

(** A line comment begins somewhere in the text. *)
Fixpoint has_line_comment (s : string) : bool :=
  line_comment_at s ||
  match s with
  | EmptyString => false
  | String _ s' => has_line_comment s'
  end.

(** Behind the [\s+] of [line_comment_pattern]. *)
Definition slashes_k : mstate -> option mstate :=
  rmatch multiline (seq [lit "//"; Star Greedy Any; Eol]) Some.

(** Behind the [.*] of [line_comment_pattern]. *)
Definition eol_k : mstate -> option mstate :=
  rmatch multiline Eol Some.

(** ** The manifest template *)

(** The template is a dict, and what it has under [endpoints], if
    anything, can be gone through and holds dicts only. *)
Definition template_ok (manifest : json) : bool :=
  match manifest with
  | JObj fields =>
      match dict_get fields "endpoints" with
      | None => true
      | Some (JArr items) => forallb is_object items
      | Some (JObj keys) => match keys with [] => true | _ => false end
      | Some (JStr s) => match s with EmptyString => true | _ => false end
      | Some _ => false
      end
  | _ => false
  end.

(** The name of the endpoint of a guide in the manifest. *)
Definition endpoint_name (guide : generated_guide) : string :=
  replace (last_piece (split "/" (g_path guide))) ".json" "".

(** ** What a run may touch *)

(** Where a directory of the run may be: under the output directory, or
    on the way up from its [api], that is the output directory or one
    above it, which [os.makedirs] makes or finds on its way down. *)
Definition allowed (output_dir d : string) : Prop :=
  startswith d (dir_prefix output_dir) = true \/
  In d (OsPath.parents (length (OsPath.join output_dir ["api"]))
          (OsPath.join output_dir ["api"])).

(** Between two states, nothing happened outside the output directory:
    the files whose path does not begin with it hold what they held,
    and every directory that is there now was there before or is where
    a directory of the run may be. *)
Definition confined (output_dir : string) (st st' : state) : Prop :=
  (forall path, startswith path (dir_prefix output_dir) = false ->
                get_file (files_of st') path = get_file (files_of st) path) /\
  (forall d, In d (dirs (st_fs st')) ->
             In d (dirs (st_fs st)) \/ allowed output_dir d).

(** A computation that, however it ends, stays confined when started
    from a state that is. *)
Definition keeps {A} (output_dir : string) (st : state) (m : M A) : Prop :=
  forall st', confined output_dir st st' ->
              wp m (fun _ st'' => confined output_dir st st'') st'.

(** ** Comment blocks, left to right *)

(** The text behind the first [-->] of a text. *)
Fixpoint after_close (s : string) : option string :=
  if startswith s "-->" then Some (drop 3 s)
  else match s with
       | EmptyString => None
       | String _ s' => after_close s'
       end.

(** A text without its comment blocks, in one pass from left to right:
    where [<!--] stands and a [-->] comes behind it, the scan goes on
    behind the first such [-->]; any other character is kept.  What the
    pass has put out is not looked at again. *)
Fixpoint uncomment (fuel : nat) (s : string) : string :=
  match fuel with
  | O => EmptyString
  | S fuel' =>
      match s with
      | EmptyString => EmptyString
      | String c s' =>
          if startswith s "<!--" then
            match after_close (drop 4 s) with
            | Some behind => uncomment fuel' behind
            | None => String c (uncomment fuel' s')
            end
          else String c (uncomment fuel' s')
      end
  end.

Definition without_comments (s : string) : string :=
  uncomment (length s) s.

(** ** File names without their extension *)

(** A file name without its extension: the text before its last dot,
    the whole name when it has no dot. *)
Definition without_extension (filename : string) : string :=
  match rev (split "." filename) with
  | _ :: (_ :: _) as before => join "." (rev before)
  | _ => filename
  end.
End More.

(* ================================================================== *)
(** * Facts about strings *)

Module StrFacts.
Import Py.

Lemma app_assoc (a b c : string) : (a ++ b) ++ c = a ++ (b ++ c).
Proof. induction a as [|x a IH]; simpl; [reflexivity | now rewrite IH]. Qed.

Lemma app_nil_r (a : string) : a ++ "" = a.
Proof. induction a as [|x a IH]; simpl; [reflexivity | now rewrite IH]. Qed.

Lemma length_app (a b : string) : length (a ++ b) = length a + length b.
Proof. induction a as [|x a IH]; simpl; [reflexivity | now rewrite IH]. Qed.

Lemma drop_app (a b : string) : drop (length a) (a ++ b) = b.
Proof. induction a as [|x a IH]; simpl; auto. Qed.

Lemma take_app (a b : string) : take (length a) (a ++ b) = a.
Proof. induction a as [|x a IH]; simpl; [now destruct b | now rewrite IH]. Qed.

Lemma take_drop (n : nat) (s : string) : take n s ++ drop n s = s.
Proof.
  revert s; induction n as [|n IH]; intros [|c s]; simpl; auto.
  now rewrite IH.
Qed.

Lemma drop_nil (n : nat) : drop n "" = "".
Proof. now destruct n. Qed.

Lemma drop_drop (n m : nat) (s : string) : drop n (drop m s) = drop (m + n) s.
Proof.
  revert s; induction m as [|m IH]; intros s; simpl; [reflexivity|].
  destruct s as [|c s]; [now rewrite drop_nil | apply IH].
Qed.

Lemma length_drop (n : nat) (s : string) : length (drop n s) = length s - n.
Proof. revert s; induction n as [|n IH]; intros [|c s]; simpl; auto. Qed.

Lemma drop_all (n : nat) (s : string) : length s <= n -> drop n s = "".
Proof.
  revert s; induction n as [|n IH]; intros [|c s]; simpl; intros H;
    try reflexivity; try lia.
  apply IH; lia.
Qed.

(** [startswith] is "begins with". *)
Lemma startswith_iff (s p : string) :
  startswith s p = true <-> exists t, s = p ++ t.
Proof.
  revert s; induction p as [|a p IH]; intros s; simpl.
  - split; [intros _; now exists s | intros _; now destruct s].
  - destruct s as [|b s]; simpl.
    + split; [discriminate | intros [t H]; discriminate].
    + rewrite andb_true_iff, Ascii.eqb_eq, IH. split.
      * intros [-> [t ->]]. now exists t.
      * intros [t H]. injection H as -> ->. split; [reflexivity | now exists t].
Qed.

Lemma startswith_app (p t : string) : startswith (p ++ t) p = true.
Proof. apply startswith_iff. now exists t. Qed.

Lemma startswith_nil (s : string) : startswith s "" = true.
Proof. now destruct s. Qed.

(** [sub in s] is "occurs somewhere in". *)
Lemma str_in_iff (sub s : string) :
  str_in sub s = true <-> exists pre post, s = pre ++ sub ++ post.
Proof.
  induction s as [|c s IH]; cbn [str_in].
  - rewrite orb_false_r, startswith_iff. split.
    + intros [t H]. now exists "", t.
    + intros [pre [post H]]. destruct pre; [now exists post | discriminate].
  - rewrite orb_true_iff, startswith_iff, IH. split.
    + intros [[t H] | [pre [post H]]].
      * now exists "", t.
      * exists (String c pre), post. simpl. now rewrite H.
    + intros [pre [post H]]. destruct pre as [|x pre]; simpl in H.
      * left. now exists post.
      * right. injection H as _ H. now exists pre, post.
Qed.

Lemma str_in_tail (sub : string) (c : ascii) (s : string) :
  str_in sub (String c s) = false -> str_in sub s = false.
Proof. cbn [str_in]. now intros [_ H]%orb_false_iff. Qed.

Lemma str_in_head (sub : string) (c : ascii) (s : string) :
  str_in sub (String c s) = false -> startswith (String c s) sub = false.
Proof. cbn [str_in]. now intros [H _]%orb_false_iff. Qed.

Lemma str_in_drop (sub : string) (n : nat) (s : string) :
  str_in sub s = false -> str_in sub (drop n s) = false.
Proof.
  revert s; induction n as [|n IH]; intros s H; simpl; [assumption|].
  destruct s as [|c s]; [assumption|]. apply IH. eapply str_in_tail; eauto.
Qed.


(** ** [find] *)

Lemma find_range (s sub : string) :
  find s sub = (-1)%Z \/ (0 <= find s sub <= Z.of_nat (length s))%Z.
Proof.
  induction s as [|c s IH]; cbn [find].
  - destruct (startswith "" sub); [right; simpl; lia | now left].
  - destruct (startswith (String c s) sub); [right; cbn [length]; lia|].
    destruct (Z.ltb_spec (find s sub) 0); [now left | right; cbn [length]; lia].
Qed.

(** A found index is an occurrence, and the first one. *)
Lemma find_found (s sub : string) (i : nat) :
  find s sub = Z.of_nat i ->
  startswith (drop i s) sub = true /\
  forall j, j < i -> startswith (drop j s) sub = false.
Proof.
  revert i; induction s as [|c s IH]; intros i; cbn [find].
  - destruct (startswith "" sub) eqn:E; [|lia].
    intros H. assert (i = 0) as -> by lia. cbn [drop]. split; [assumption | lia].
  - destruct (startswith (String c s) sub) eqn:E.
    + intros H. assert (i = 0) as -> by lia. cbn [drop]. split; [assumption | lia].
    + destruct (Z.ltb_spec (find s sub) 0) as [Hn|Hn]; [lia|].
      intros H. destruct i as [|i]; [lia|].
      destruct (IH i ltac:(lia)) as [H1 H2]. cbn [drop]. split; [assumption|].
      intros [|j] Hj; cbn [drop]; [assumption | apply H2; lia].
Qed.

(** [find] misses only what does not occur. *)
Lemma find_absent (s sub : string) :
  find s sub = (-1)%Z <-> str_in sub s = false.
Proof.
  induction s as [|c s IH]; cbn [find str_in].
  - destruct (startswith "" sub); cbn; split; congruence || lia.
  - destruct (startswith (String c s) sub); cbn [orb].
    + split; congruence || lia.
    + rewrite <- IH. destruct (find_range s sub) as [H|H].
      * rewrite H. cbn. tauto.
      * destruct (Z.ltb_spec (find s sub) 0); split; lia.
Qed.

Lemma find_head (s sub : string) :
  startswith s sub = true -> find s sub = 0%Z.
Proof. intros H. destruct s; cbn [find]; now rewrite H. Qed.

Lemma find_occurs (s sub pre post : string) :
  s = pre ++ sub ++ post ->
  exists i, find s sub = Z.of_nat i /\ i <= length pre.
Proof.
  intros ->. induction pre as [|c pre [i [Hi Hle]]].
  - exists 0. cbn [append length]. split; [|lia].
    apply find_head, startswith_app.
  - cbn [append find length].
    destruct (startswith (String c (pre ++ sub ++ post)) sub).
    + exists 0. split; [reflexivity | lia].
    + rewrite Hi. destruct (Z.ltb_spec (Z.of_nat i) 0); [lia|].
      exists (S i). split; lia.
Qed.


(** ** [lower] *)

Lemma lower_app (a b : string) : lower (a ++ b) = lower a ++ lower b.
Proof. induction a as [|x a IH]; simpl; [reflexivity | now rewrite IH]. Qed.

Lemma lower_app_inv (s a b : string) :
  lower s = a ++ b ->
  exists a' b', s = a' ++ b' /\ lower a' = a /\ lower b' = b.
Proof.
  revert s; induction a as [|x a IH]; intros s H; simpl in H.
  - now exists "", s.
  - destruct s as [|c s]; [discriminate|]. simpl in H.
    injection H as Hc H. destruct (IH s H) as [a' [b' [-> [Ha Hb]]]].
    exists (String c a'), b'. simpl. now rewrite Hc, Ha.
Qed.

(** Looking for a lower-case needle in the lowered path is looking for
    it in the path without regard to letter case. *)
Lemma str_in_lower (needle path : string) :
  str_in needle (lower path) = true <-> Spec.ci_occurs needle path.
Proof.
  rewrite str_in_iff. unfold Spec.ci_occurs. split.
  - intros [pre [post H]].
    destruct (lower_app_inv _ _ _ H) as [pre' [r [-> [_ Hr]]]].
    destruct (lower_app_inv _ _ _ Hr) as [mid [post' [-> [Hm _]]]].
    now exists pre', mid, post'.
  - intros [pre [mid [post [-> H]]]].
    exists (lower pre), (lower post). now rewrite !lower_app, H.
Qed.

End StrFacts.
(* ================================================================== *)
(** * Facts about [replace] *)

Module ReplaceFacts.
Import Py StrFacts.

(** Passing over the rest of the occurrence just replaced. *)
Lemma replace_from_skip (old new a s : string) :
  replace_from old new (length a) (a ++ s) = replace_from old new 0 s.
Proof.
  induction a as [|c a IH]; cbn [append length].
  - now destruct s.
  - cbn [replace_from]. apply IH.
Qed.

(** An occurrence at the head is replaced, and the scan goes on behind
    it. *)
Lemma replace_from_hit (c : ascii) (old new s : string) :
  replace_from (String c old) new 0 (String c old ++ s) =
  new ++ replace_from (String c old) new 0 s.
Proof.
  cbn [append replace_from].
  change (String c (old ++ s)) with (String c old ++ s).
  rewrite startswith_app. f_equal.
  replace (length (String c old) - 1) with (length old) by (cbn [length]; lia).
  apply replace_from_skip.
Qed.

Lemma replace_from_miss (c : ascii) (old new s : string) :
  startswith (String c s) old = false ->
  replace_from old new 0 (String c s) = String c (replace_from old new 0 s).
Proof. intros H. cbn [replace_from]. now rewrite H. Qed.

(** Where the old text does not occur nothing changes. *)
Lemma replace_from_absent (old new s : string) :
  str_in old s = false -> replace_from old new 0 s = s.
Proof.
  induction s as [|c s IH]; intros H; [reflexivity|].
  rewrite replace_from_miss by (eapply str_in_head; eauto).
  f_equal. apply IH. eapply str_in_tail; eauto.
Qed.

(** [.md] cannot begin inside a piece free of it and end in the [.md]
    that follows the piece. *)
Lemma md_not_straddling (c : ascii) (p r : string) :
  startswith (String c p) ".md" = false ->
  startswith (String c (p ++ ".md" ++ r)) ".md" = false.
Proof.
  cbn [startswith].
  destruct (Ascii.eqb "." c); cbn [andb]; [|reflexivity].
  destruct p as [|d p]; cbn [append startswith]; [reflexivity|].
  destruct (Ascii.eqb "m" d); cbn [andb]; [|reflexivity].
  destruct p as [|e p]; cbn [append startswith]; [reflexivity|].
  destruct (Ascii.eqb "d" e); cbn [andb]; [|reflexivity].
  destruct p; cbn [startswith]; discriminate.
Qed.

Lemma replace_md_piece (new p r : string) :
  str_in ".md" p = false ->
  replace_from ".md" new 0 (p ++ ".md" ++ r) =
  p ++ new ++ replace_from ".md" new 0 r.
Proof.
  induction p as [|c p IH]; intros H.
  - cbn [append]. apply (replace_from_hit "." "md").
  - cbn [append]. rewrite replace_from_miss.
    + f_equal. apply IH. eapply str_in_tail; eauto.
    + apply md_not_straddling. eapply str_in_head; eauto.
Qed.

(** Every [.md] between pieces free of [.md] is replaced. *)
Lemma replace_md_join (new : string) (parts : list string) :
  Forall (fun p => str_in ".md" p = false) parts ->
  replace (join ".md" parts) ".md" new = join new parts.
Proof.
  unfold replace. induction 1 as [|p ps Hp Hps IH]; [reflexivity|].
  destruct ps as [|q ps].
  - cbn [join]. now apply replace_from_absent.
  - change (join ".md" (p :: q :: ps)) with (p ++ ".md" ++ join ".md" (q :: ps)).
    change (join new (p :: q :: ps)) with (p ++ new ++ join new (q :: ps)).
    rewrite replace_md_piece by assumption. now rewrite IH.
Qed.

End ReplaceFacts.

(* ================================================================== *)
(** * Facts about the patterns *)

Module ReFacts.
Import Py Re Script Spec StrFacts Cont.

Lemma captured_app (a b : string) : captured (a ++ b) b = a.
Proof.
  unfold captured. rewrite length_app.
  replace (length a + length b - length b) with (length a) by lia.
  apply take_app.
Qed.

Lemma startswith_drop (s d : string) :
  startswith s d = true -> s = d ++ drop (length d) s.
Proof.
  intros [t ->]%startswith_iff. now rewrite drop_app.
Qed.

Lemma cut_at_app (delim s before after : string) :
  cut_at delim s = Some (before, after) -> s = before ++ delim ++ after.
Proof.
  revert before; induction s as [|c s IH]; intros before; cbn [cut_at].
  - destruct (startswith "" delim) eqn:E; [|discriminate].
    intros H; injection H as <- <-. now apply startswith_drop.
  - destruct (startswith (String c s) delim) eqn:E.
    + intros H; injection H as <- <-. now apply startswith_drop.
    + destruct (Ascii.eqb c nl); [discriminate|].
      destruct (cut_at delim s) as [[b a]|]; [|discriminate].
      intros H; injection H as <- <-. cbn [append]. f_equal. now apply IH.
Qed.

(** After a skip the scan goes on behind the skipped text, whatever the
    character before it, when the pattern does not look behind and
    matches no empty text. *)
Lemma scan_skip (fl : flags) (r : regex) (a s : string) (p q : option ascii) :
  (forall p1 p2 t, match_at fl r false p1 t = match_at fl r false p2 t) ->
  (forall p1 t m, match_at fl r false p1 t = Some m -> length (m_text m) <> 0) ->
  scan fl r (length a) p (a ++ s) = scan fl r 0 q s.
Proof.
  intros H1 H2. revert p; induction a as [|c a IH]; intros p.
  - cbn [length append]. destruct s as [|c s].
    + cbn [scan]. now rewrite (H1 p q).
    + cbn [scan]. rewrite (H1 p q).
      destruct (match_at fl r false q (String c s)) as [m|] eqn:E; [|reflexivity].
      apply H2 in E. destruct (length (m_text m)); [contradiction | reflexivity].
  - cbn [length append scan]. apply IH.
Qed.

(** ** The link pattern *)

Lemma not_nl_eq (c : ascii) : not_nl c = negb (Ascii.eqb c nl).
Proof. reflexivity. Qed.

(** The second [.*?] followed by the closing parenthesis: the path runs
    up to the first closing parenthesis of the line. *)
Lemma path_star (u pre : string) (p : option ascii) (gs : list string) :
  star_lazy not_nl (path_k (pre ++ u)) p gs u =
  match cut_at ")" u with
  | Some (path, after) =>
      Some {| prev := Some ")"%char; rest := after;
              groups := List.app gs [pre ++ path] |}
  | None => None
  end.
Proof.
  revert pre p; induction u as [|c u IH]; intros pre p.
  - reflexivity.
  - cbn [star_lazy cut_at startswith].
    unfold path_k at 1. cbn [lit rmatch rest prev groups atom_ok].
    destruct (Ascii.eqb_spec ")" c) as [<-|Hc].
    + cbn [andb length drop]. now rewrite captured_app, app_nil_r.
    + cbn [andb]. rewrite not_nl_eq.
      destruct (Ascii.eqb c nl); cbn [negb]; [reflexivity|].
      replace (pre ++ String c u) with ((pre ++ String c "") ++ u)
        by now rewrite app_assoc.
      rewrite IH. destruct (cut_at ")" u) as [[path after]|]; [|reflexivity].
      now rewrite app_assoc.
Qed.

(** What [name_k] does at one position: the [](] must be there, and then
    the path. *)
Lemma name_k_at (s1 u : string) (p : option ascii) (gs : list string) :
  name_k s1 {| prev := p; rest := u; groups := gs |} =
  if startswith u "]("
  then match cut_at ")" (drop 2 u) with
       | Some (path, after) =>
           Some {| prev := Some ")"%char; rest := after;
                   groups := List.app (List.app gs [captured s1 u]) [path] |}
       | None => None
       end
  else None.
Proof.
  unfold name_k. cbn [seq lit rmatch rest prev groups atom_ok star startswith].
  destruct u as [|a u]; [reflexivity|].
  destruct (Ascii.eqb "]" a); cbn [andb]; [|reflexivity].
  destruct u as [|b u]; [reflexivity|].
  destruct (Ascii.eqb "(" b); cbn [andb drop]; [|reflexivity].
  exact (path_star u "" (Some b) _).
Qed.

(** A line without a closing parenthesis ahead holds no link, wherever
    the name is made to end. *)
Lemma name_star_no_close (s1 u : string) (p : option ascii) (gs : list string) :
  cut_at ")" u = None ->
  star_lazy not_nl (name_k s1) p gs u = None.
Proof.
  revert p; induction u as [|c u IH]; intros p H.
  - cbn [star_lazy]. now rewrite name_k_at.
  - cbn [star_lazy]. rewrite name_k_at.
    assert (Hc : Ascii.eqb ")" c = false /\
                 (Ascii.eqb c nl = false -> cut_at ")" u = None)).
    { cbn [cut_at startswith] in H.
      destruct (Ascii.eqb ")" c); cbn [andb] in H; [discriminate|].
      split; [reflexivity|]. intros E. rewrite E in H.
      now destruct (cut_at ")" u) as [[? ?]|]. }
    destruct Hc as [Hc Hu].
    assert (K : (if startswith (String c u) "]("
                 then match cut_at ")" (drop 2 (String c u)) with
                      | Some (path, after) =>
                          Some {| prev := Some ")"%char; rest := after;
                                  groups := List.app
                                    (List.app gs [captured s1 (String c u)])
                                    [path] |}
                      | None => None
                      end
                 else None) = None).
    { cbn [startswith]. destruct (Ascii.eqb_spec "]" c) as [<-|]; [|reflexivity].
      cbn [andb]. destruct u as [|b u]; [reflexivity|].
      destruct (Ascii.eqb_spec "(" b) as [<-|]; [|reflexivity].
      cbn [andb drop].
      specialize (Hu eq_refl). cbn [cut_at startswith] in Hu.
      change (Ascii.eqb ")" "(") with false in Hu. cbn [andb] in Hu.
      change (Ascii.eqb "(" nl) with false in Hu.
      now destruct (cut_at ")" u) as [[? ?]|]. }
    rewrite K. rewrite not_nl_eq.
    destruct (Ascii.eqb c nl); cbn [negb]; [reflexivity|].
    apply IH. now apply Hu.
Qed.

(** The first [.*?] followed by the rest of the pattern: the name runs up
    to the first [](] of the line, and the path follows. *)
Lemma name_star (u pre : string) (p : option ascii) :
  star_lazy not_nl (name_k (pre ++ u)) p [] u =
  match cut_at "](" u with
  | Some (name, s2) =>
      match cut_at ")" s2 with
      | Some (path, after) =>
          Some {| prev := Some ")"%char; rest := after;
                  groups := [pre ++ name; path] |}
      | None => None
      end
  | None => None
  end.
Proof.
  revert pre p; induction u as [|c u IH]; intros pre p.
  - cbn [star_lazy]. now rewrite name_k_at.
  - cbn [star_lazy]. rewrite name_k_at. cbn [cut_at].
    destruct (startswith (String c u) "](") eqn:E.
    + cbn [length]. rewrite captured_app, app_nil_r.
      destruct (cut_at ")" (drop 2 (String c u))) as [[path after]|] eqn:P;
        [reflexivity|].
      (* the path fails behind the first [](]: no later one can do better *)
      rewrite not_nl_eq.
      destruct (Ascii.eqb c nl); cbn [negb]; [reflexivity|].
      apply name_star_no_close.
      cbn [startswith] in E.
      destruct (Ascii.eqb_spec "]" c) as [<-|]; [|discriminate].
      destruct u as [|b u]; [discriminate|].
      destruct (Ascii.eqb_spec "(" b) as [<-|]; [|discriminate].
      cbn [drop] in P. cbn [cut_at startswith].
      change (Ascii.eqb ")" "(") with false. cbn [andb].
      change (Ascii.eqb "(" nl) with false. now rewrite P.
    + rewrite not_nl_eq.
      destruct (Ascii.eqb c nl); cbn [negb]; [reflexivity|].
      replace (pre ++ String c u) with ((pre ++ String c "") ++ u)
        by now rewrite app_assoc.
      rewrite IH. destruct (cut_at "](" u) as [[name s2]|]; [|reflexivity].
      destruct (cut_at ")" s2) as [[path after]|]; [|reflexivity].
      now rewrite app_assoc.
Qed.

(** [link_pattern] run at one position finds exactly the link that
    starts there. *)
Lemma link_rmatch (p : option ascii) (s : string) :
  rmatch no_flags link_pattern Some {| prev := p; rest := s; groups := [] |} =
  match link_at s with
  | Some (name, path, after) =>
      Some {| prev := Some ")"%char; rest := after; groups := [name; path] |}
  | None => None
  end.
Proof.
  unfold link_at.
  destruct s as [|c s]; [reflexivity|].
  unfold link_pattern. cbn [seq lit rmatch rest prev groups atom_ok star].
  rewrite (Ascii.eqb_sym c "[").
  destruct (Ascii.eqb "[" c); [|reflexivity].
  etransitivity; [exact (name_star s "" (Some c))|].
  destruct (cut_at "](" s) as [[name s2]|]; [|reflexivity].
  destruct (cut_at ")" s2) as [[path after]|]; reflexivity.
Qed.

Lemma link_match (p : option ascii) (s : string) :
  match_at no_flags link_pattern false p s =
  match link_at s with
  | Some (name, path, after) =>
      Some {| m_text := captured s after;
              m_groups := [name; path];
              m_after := after |}
  | None => None
  end.
Proof.
  unfold match_at. cbn [andb].
  change (fun st : mstate => Some st) with (@Some mstate).
  rewrite link_rmatch.
  destruct (link_at s) as [[[name path] after]|]; reflexivity.
Qed.

(** A link is its text: bracket, name, [](], path, parenthesis. *)
Lemma link_at_app (s name path after : string) :
  link_at s = Some (name, path, after) ->
  s = "[" ++ name ++ "](" ++ path ++ ")" ++ after.
Proof.
  unfold link_at. destruct s as [|c s]; [discriminate|].
  destruct (Ascii.eqb_spec c "[") as [->|]; [|discriminate].
  destruct (cut_at "](" s) as [[n s2]|] eqn:E1; [|discriminate].
  destruct (cut_at ")" s2) as [[q a]|] eqn:E2; [|discriminate].
  intros H; injection H as -> -> ->.
  apply cut_at_app in E1, E2. subst. reflexivity.
Qed.

(** The text of a link and the text behind it. *)
Lemma link_at_split (s name path after : string) :
  link_at s = Some (name, path, after) ->
  s = String "[" (name ++ "](" ++ path ++ ")") ++ after.
Proof.
  intros H. rewrite (link_at_app _ _ _ _ H) at 1. cbn [append]. f_equal.
  rewrite app_assoc. cbn [append]. now rewrite app_assoc.
Qed.

Lemma link_match_prev (p1 p2 : option ascii) (t : string) :
  match_at no_flags link_pattern false p1 t =
  match_at no_flags link_pattern false p2 t.
Proof. now rewrite !link_match. Qed.

Lemma link_match_nonempty (p : option ascii) (t : string) (m : match_obj) :
  match_at no_flags link_pattern false p t = Some m -> length (m_text m) <> 0.
Proof.
  rewrite link_match.
  destruct (link_at t) as [[[name path] after]|] eqn:E; [|discriminate].
  intros H; injection H as <-. cbn [m_text].
  rewrite (link_at_split _ _ _ _ E), captured_app. cbn [length]. lia.
Qed.

(** [re.finditer] with [link_pattern] finds the links of the text, in the
    order of the text. *)
Lemma links_scan (n : nat) (s : string) (p : option ascii) :
  length s < n ->
  map link_of (hits (scan no_flags link_pattern 0 p s)) = links_upto n s.
Proof.
  revert s p; induction n as [|n IH]; intros s p Hn; [lia|].
  destruct s as [|c s].
  - cbn [scan links_upto]. rewrite link_match. reflexivity.
  - cbn [scan links_upto]. rewrite link_match.
    destruct (link_at (String c s)) as [[[name path] after]|] eqn:E.
    + pose proof (link_at_split _ _ _ _ E) as Hs.
      cbn [m_text]. rewrite Hs at 1. rewrite captured_app.
      cbn [append] in Hs. injection Hs as Hc Hs.
      cbn [length hits flat_map map List.app].
      fold (hits (scan no_flags link_pattern
                    (length (name ++ "](" ++ path ++ ")")) (Some c) s)).
      f_equal. rewrite Hs at 1.
      rewrite (scan_skip _ _ _ _ _ None link_match_prev link_match_nonempty).
      apply IH. cbn [length] in Hn. rewrite Hs in Hn.
      rewrite !length_app in Hn. lia.
    + cbn [hits flat_map List.app].
      fold (hits (scan no_flags link_pattern 0 (Some c) s)).
      apply IH. cbn [length] in Hn. lia.
Qed.

Lemma finditer_links (s : string) :
  map link_of (finditer no_flags link_pattern s) = markdown_links s.
Proof. apply links_scan. lia. Qed.

(** The loop of [extract_references] keeps the qualifying links, in
    order, as Reference records. *)
Lemma extract_fold (ms : list match_obj) (acc : list reference) :
  fold_left (extract_step "api/guides") ms acc =
  List.app acc (map reference_of (filter is_guide_link (map link_of ms))).
Proof.
  revert acc; induction ms as [|m ms IH]; intros acc; cbn [fold_left map filter].
  - now rewrite List.app_nil_r.
  - rewrite IH. unfold extract_step at 1, is_guide_link at 2.
    cbn [link_of snd].
    destruct (str_in "guides" (group m 2) && endswith (group m 2) ".md");
      [|reflexivity].
    cbn [map]. now rewrite <- List.app_assoc.
Qed.

(** ** The comment pattern *)

Lemma comment_k_at (u : string) (p : option ascii) (gs : list string) :
  comment_k {| prev := p; rest := u; groups := gs |} =
  if startswith u "-->"
  then Some {| prev := Some ">"%char; rest := drop 3 u; groups := gs |}
  else None.
Proof.
  unfold comment_k. cbn [lit rmatch rest prev groups atom_ok startswith].
  destruct u as [|a u]; [reflexivity|].
  destruct (Ascii.eqb "-" a); cbn [andb]; [|reflexivity].
  destruct u as [|b u]; [reflexivity|].
  destruct (Ascii.eqb "-" b); cbn [andb]; [|reflexivity].
  destruct u as [|c u]; [reflexivity|].
  destruct (Ascii.eqb_spec ">" c) as [<-|]; reflexivity.
Qed.

(** Without a closing [-->] ahead the lazy [.*?] runs to the end of the
    text and fails. *)
Lemma comment_star_none (u : string) (p : option ascii) (gs : list string) :
  str_in "-->" u = false ->
  star_lazy (atom_ok dotall Any) comment_k p gs u = None.
Proof.
  revert p; induction u as [|c u IH]; intros p H; cbn [star_lazy];
    rewrite comment_k_at.
  - reflexivity.
  - rewrite (str_in_head _ _ _ H). cbn [atom_ok DOTALL dotall orb].
    apply IH. eapply str_in_tail; eauto.
Qed.

(** With one it stops at the first, and the match ends behind it. *)
Lemma comment_star_some (u : string) (p : option ascii) (gs : list string) :
  str_in "-->" u = true ->
  exists a after,
    u = a ++ "-->" ++ after /\
    star_lazy (atom_ok dotall Any) comment_k p gs u =
    Some {| prev := Some ">"%char; rest := after; groups := gs |}.
Proof.
  revert p; induction u as [|c u IH]; intros p H; cbn [star_lazy];
    rewrite comment_k_at.
  - discriminate.
  - destruct (startswith (String c u) "-->") eqn:E.
    + exists "", (drop 3 (String c u)). split; [|reflexivity].
      exact (startswith_drop _ _ E).
    + cbn [str_in] in H. rewrite E in H. cbn [orb] in H.
      destruct (IH (Some c) H) as [a [after [-> Hs]]].
      exists (String c a), after. split; [reflexivity|].
      cbn [atom_ok DOTALL dotall orb]. exact Hs.
Qed.

Lemma comment_rmatch (p : option ascii) (s : string) :
  rmatch dotall comment_pattern Some {| prev := p; rest := s; groups := [] |} =
  if startswith s "<!--"
  then star_lazy (atom_ok dotall Any) comment_k (Some "-"%char) [] (drop 4 s)
  else None.
Proof.
  unfold comment_pattern.
  cbn [seq lit rmatch rest prev groups atom_ok star startswith].
  destruct s as [|a s]; [reflexivity|].
  destruct (Ascii.eqb "<" a); cbn [andb]; [|reflexivity].
  destruct s as [|b s]; [reflexivity|].
  destruct (Ascii.eqb "!" b); cbn [andb]; [|reflexivity].
  destruct s as [|c s]; [reflexivity|].
  destruct (Ascii.eqb "-" c); cbn [andb]; [|reflexivity].
  destruct s as [|d s]; [reflexivity|].
  destruct (Ascii.eqb_spec "-" d) as [<-|]; reflexivity.
Qed.

(** Where no comment opens and closes, the pattern does not match. *)
Lemma comment_match_none (p : option ascii) (s : string) :
  comment_at s = false -> match_at dotall comment_pattern false p s = None.
Proof.
  unfold comment_at, match_at. cbn [andb].
  change (fun st : mstate => Some st) with (@Some mstate).
  rewrite comment_rmatch.
  destruct (startswith s "<!--"); cbn [andb]; [|reflexivity].
  intros H. now rewrite comment_star_none.
Qed.

(** Where one does, it matches, and the match is not empty. *)
Lemma comment_match_some (p : option ascii) (s : string) :
  comment_at s = true ->
  exists m n, match_at dotall comment_pattern false p s = Some m /\
              length (m_text m) = S n.
Proof.
  unfold comment_at, match_at. cbn [andb].
  change (fun st : mstate => Some st) with (@Some mstate).
  rewrite comment_rmatch.
  destruct (startswith s "<!--") eqn:E; cbn [andb]; [|discriminate].
  intros H.
  destruct (comment_star_some _ (Some "-"%char) [] H) as [a [after [Hu ->]]].
  eexists. exists (3 + length (a ++ "-->")). split; [reflexivity|].
  cbn [m_text rest].
  pose proof (startswith_drop _ _ E) as Hs. cbn [length] in Hs.
  rewrite Hu in Hs. rewrite Hs.
  replace ("<!--" ++ a ++ "-->" ++ after) with (("<!--" ++ a ++ "-->") ++ after).
  - rewrite captured_app. reflexivity.
  - cbn [append]. now rewrite app_assoc.
Qed.

Lemma strip_comments_kept (s : string) :
  strip_comments s = kept (scan dotall comment_pattern 0 None s).
Proof. reflexivity. Qed.

Lemma kept_hit (m : match_obj) (l : list piece) : kept (Hit m :: l) = kept l.
Proof. reflexivity. Qed.

Lemma kept_plain (c : ascii) (l : list piece) :
  kept (Plain c :: l) = String c (kept l).
Proof. reflexivity. Qed.

(** A text in which no comment opens and closes is left as it is. *)
Lemma kept_unchanged (s : string) (p : option ascii) :
  (forall j, comment_at (drop j s) = false) ->
  kept (scan dotall comment_pattern 0 p s) = s.
Proof.
  revert p; induction s as [|c s IH]; intros p H; cbn [scan].
  - now rewrite (comment_match_none _ _ (H 0)).
  - rewrite (comment_match_none _ _ (H 0)), kept_plain.
    f_equal. apply IH. intros j. exact (H (S j)).
Qed.

(** With an empty replacement [re.sub] never makes a text longer. *)
Lemma kept_le (fl : flags) (r : regex) (s : string) (k : nat) (p : option ascii) :
  length (kept (scan fl r k p s)) <= length s.
Proof.
  revert k p; induction s as [|c s IH]; intros k p; cbn [scan].
  - destruct (match_at fl r false p ""); cbn; lia.
  - cbn [length]. destruct k as [|k].
    + destruct (match_at fl r false p (String c s)) as [m|].
      * destruct (length (m_text m)) as [|n].
        -- destruct (match_at fl r true p (String c s)) as [m'|];
             rewrite ?kept_hit, ?kept_plain; cbn [length].
           ++ specialize (IH (length (m_text m') - 1) (Some c)). lia.
           ++ specialize (IH 0 (Some c)). lia.
        -- rewrite kept_hit. specialize (IH n (Some c)). lia.
      * rewrite kept_plain. cbn [length]. specialize (IH 0 (Some c)). lia.
    + specialize (IH k (Some c)). lia.
Qed.

(** A text in which a comment opens and closes gets shorter. *)
Lemma kept_shorter (s : string) (p : option ascii) :
  (exists j, comment_at (drop j s) = true) ->
  length (kept (scan dotall comment_pattern 0 p s)) < length s.
Proof.
  revert p; induction s as [|c s IH]; intros p [j H].
  - rewrite drop_nil in H. discriminate.
  - cbn [scan length]. destruct (comment_at (String c s)) eqn:E.
    + destruct (comment_match_some p _ E) as [m [n [-> Hn]]]. rewrite Hn.
      rewrite kept_hit.
      pose proof (kept_le dotall comment_pattern s n (Some c)) as Hle. lia.
    + rewrite (comment_match_none _ _ E), kept_plain. cbn [length].
      destruct j as [|j]; [cbn [drop] in H; congruence|].
      specialize (IH (Some c) (ex_intro _ j H)). lia.
Qed.

(** [has_comment] says that a comment opens and closes somewhere. *)
Lemma has_comment_iff (s : string) :
  has_comment s = true <-> exists j, comment_at (drop j s) = true.
Proof.
  unfold has_comment, comment_at. split.
  - destruct (find_range s "<!--") as [Hf|Hf]; [now rewrite Hf|].
    destruct (Z.ltb_spec (find s "<!--") 0) as [|_]; [lia|].
    intros H. exists (Z.to_nat (find s "<!--")).
    destruct (find_found s "<!--" (Z.to_nat (find s "<!--"))) as [H1 _];
      [lia|].
    rewrite H1, drop_drop. exact H.
  - intros [j [H1 H2]%andb_true_iff].
    rewrite drop_drop in H2.
    destruct (find_occurs s "<!--" (take j s) (drop 4 (drop j s)))
      as [i [Hi Hle]].
    { rewrite <- (take_drop j s) at 1. f_equal.
      exact (startswith_drop _ _ H1). }
    rewrite Hi. destruct (Z.ltb_spec (Z.of_nat i) 0); [lia|].
    rewrite Nat2Z.id.
    destruct (str_in "-->" (drop (i + 4) s)) eqn:E; [reflexivity|].
    apply (str_in_drop _ (j - i)) in E. rewrite drop_drop in E.
    assert (length (take j s) <= j).
    { clear. revert s; induction j; intros [|c s]; cbn; auto with arith. }
    replace (i + 4 + (j - i)) with (j + 4) in E by lia. congruence.
Qed.

(** The texts [strip_comments] leaves alone are those without a comment
    block. *)
Lemma strip_fixed_iff (s : string) :
  strip_comments s = s <-> has_comment s = false.
Proof.
  rewrite strip_comments_kept. split.
  - intros H. destruct (has_comment s) eqn:E; [|reflexivity].
    apply has_comment_iff in E.
    pose proof (kept_shorter s None E) as Hlt. rewrite H in Hlt. lia.
  - intros H. apply kept_unchanged. intros j.
    destruct (comment_at (drop j s)) eqn:E; [|reflexivity].
    assert (has_comment s = true) by (apply has_comment_iff; eauto).
    congruence.
Qed.

End ReFacts.

(* ================================================================== *)
(** * Facts about the manifest *)

Module ManifestFacts.
Import Py Script Spec StrFacts.

(** ** Dicts *)

Lemma dict_get_set_same (d : list (string * json)) (key : string) (v : json) :
  dict_get (dict_set d key v) key = Some v.
Proof.
  induction d as [|[k v0] d IH]; cbn [dict_set dict_get].
  - now rewrite String.eqb_refl.
  - destruct (String.eqb k key) eqn:E; cbn [dict_get]; now rewrite E.
Qed.

Lemma dict_get_set_other (d : list (string * json)) (key k : string) (v : json) :
  k <> key -> dict_get (dict_set d key v) k = dict_get d k.
Proof.
  intros Hk. induction d as [|[k0 v0] d IH]; cbn [dict_set dict_get].
  - apply String.eqb_neq in Hk. rewrite String.eqb_sym in Hk. now rewrite Hk.
  - destruct (String.eqb_spec k0 key) as [->|Hne]; cbn [dict_get].
    + apply String.eqb_neq in Hk. rewrite String.eqb_sym in Hk. now rewrite Hk.
    + now rewrite IH.
Qed.

(** Setting a key leaves the other fields as they are, values and
    order. *)
Lemma dict_set_others (d : list (string * json)) (key : string) (v : json) :
  filter (other_than key) (dict_set d key v) = filter (other_than key) d.
Proof.
  unfold other_than.
  induction d as [|[k0 v0] d IH]; cbn [dict_set filter fst].
  - now rewrite String.eqb_refl.
  - destruct (String.eqb k0 key) eqn:E; cbn [filter fst]; rewrite E; cbn [negb].
    + reflexivity.
    + now rewrite IH.
Qed.

(** ** The endpoints kept from the template *)

Lemma keep_main_guide_objects (items : list json) :
  forallb is_object items = true ->
  keep_main_guide items = Ok (filter is_main_guide items).
Proof.
  induction items as [|e items IH]; cbn [forallb keep_main_guide filter];
    [reflexivity|].
  intros [He Hi]%andb_true_iff. rewrite (IH Hi).
  destruct e; try discriminate. reflexivity.
Qed.

Lemma keep_main_guide_not_object (items : list json) :
  forallb is_object items = false ->
  keep_main_guide items = Err AttributeError.
Proof.
  induction items as [|e items IH]; cbn [forallb keep_main_guide];
    [discriminate|].
  destruct e; cbn [is_object andb py_get bind_raises]; try reflexivity.
  intros H. now rewrite (IH H).
Qed.

(** ** Grouping by type *)

Lemma filter_app_one {A} (f : A -> bool) (l : list A) (x : A) :
  filter f (l ++ [x])%list = (filter f l ++ (if f x then [x] else []))%list.
Proof. rewrite filter_app. reflexivity. Qed.

Lemma existsb_filter_other (x y : string) (d : list string) :
  x <> y ->
  existsb (String.eqb x) (filter (fun z => negb (String.eqb z y)) d) =
  existsb (String.eqb x) d.
Proof.
  intros Hne. induction d as [|z d IH]; cbn [filter existsb]; [reflexivity|].
  destruct (String.eqb_spec z y) as [->|Hz]; cbn [negb existsb].
  - apply String.eqb_neq in Hne. now rewrite Hne.
  - now rewrite IH.
Qed.

Lemma existsb_distinct (x : string) (l : list string) :
  existsb (String.eqb x) (distinct l) = existsb (String.eqb x) l.
Proof.
  induction l as [|y l IH]; cbn [distinct existsb]; [reflexivity|].
  destruct (String.eqb_spec x y) as [->|Hne]; [reflexivity|].
  cbn [orb]. now rewrite existsb_filter_other.
Qed.

Lemma distinct_snoc (l : list string) (x : string) :
  distinct (l ++ [x]) =
  if existsb (String.eqb x) l then distinct l else (distinct l ++ [x])%list.
Proof.
  induction l as [|y l IH]; cbn [List.app distinct existsb]; [reflexivity|].
  rewrite IH. destruct (String.eqb_spec x y) as [->|Hne]; cbn [orb].
  - destruct (existsb (String.eqb y) l); [reflexivity|].
    rewrite filter_app_one, String.eqb_refl. cbn [negb].
    now rewrite List.app_nil_r.
  - destruct (existsb (String.eqb x) l); [reflexivity|].
    rewrite filter_app_one. apply String.eqb_neq in Hne. now rewrite Hne.
Qed.

Lemma distinct_no_dup (l : list string) : NoDup (distinct l).
Proof.
  induction l as [|y l IH]; cbn [distinct]; constructor.
  - rewrite filter_In, String.eqb_refl. now intros [_ ?].
  - now apply NoDup_filter.
Qed.

(** One turn of the loop on a dict that holds the groups of the guides
    seen so far. *)
Lemma group_add_groups (g : generated_guide) (guides : list generated_guide)
    (types : list string) :
  NoDup types ->
  group_add g (map (group_of guides) types) =
  (map (group_of (guides ++ [g])) types ++
   (if existsb (String.eqb (g_type g)) types
    then []
    else [(g_type g, [g])]))%list.
Proof.
  induction 1 as [|t types Ht Hnd IH]; cbn [map group_add existsb List.app];
    [reflexivity|].
  change (group_of guides t) with (t, filter (of_type t) guides).
  change (group_of (guides ++ [g]) t)
    with (t, filter (of_type t) (guides ++ [g])).
  cbv iota beta. rewrite filter_app_one.
  change (of_type t g) with (String.eqb (g_type g) t).
  rewrite (String.eqb_sym (g_type g) t).
  destruct (String.eqb_spec t (g_type g)) as [->|Hne]; cbn [orb].
  - rewrite List.app_nil_r. f_equal. apply map_ext_in. intros t Hin.
    unfold group_of. rewrite filter_app_one.
    change (of_type t g) with (String.eqb (g_type g) t).
    destruct (String.eqb_spec (g_type g) t) as [<-|]; [contradiction|].
    now rewrite List.app_nil_r.
  - rewrite List.app_nil_r, IH. reflexivity.
Qed.

(** The dict built by the grouping loop: one key per type, in the order
    of first appearance, with the guides of the type in processing
    order. *)
Lemma group_by_type_groups (guides : list generated_guide) :
  group_by_type guides =
  map (group_of guides) (distinct (map g_type guides)).
Proof.
  unfold group_by_type.
  induction guides as [|g guides IH] using rev_ind; [reflexivity|].
  rewrite fold_left_app. cbn [fold_left]. rewrite IH.
  rewrite group_add_groups by apply distinct_no_dup.
  rewrite map_app. cbn [map]. rewrite distinct_snoc, existsb_distinct.
  destruct (existsb (String.eqb (g_type g)) (map g_type guides)) eqn:E.
  - now rewrite List.app_nil_r.
  - rewrite map_app. cbn [map]. f_equal.
    change (group_of (guides ++ [g]) (g_type g))
      with (g_type g, filter (of_type (g_type g)) (guides ++ [g])).
    rewrite filter_app_one.
    change (of_type (g_type g) g) with (String.eqb (g_type g) (g_type g)).
    rewrite String.eqb_refl.
    replace (filter (of_type (g_type g)) guides) with (@nil generated_guide);
      [reflexivity|].
    symmetry. clear IH. induction guides as [|h guides IHg]; [reflexivity|].
    cbn [map existsb] in E. apply orb_false_iff in E as [E1 E2].
    cbn [filter]. change (of_type (g_type g) h) with (String.eqb (g_type h) (g_type g)).
    rewrite String.eqb_sym, E1. now apply IHg.
Qed.

(** The endpoints of the guides, in the order of the manifest. *)
Lemma guide_endpoints_grouped (guides : list generated_guide) :
  guide_endpoints guides = map endpoint_of (grouped guides).
Proof.
  unfold guide_endpoints, grouped. rewrite group_by_type_groups.
  induction (distinct (map g_type guides)) as [|t types IH];
    cbn [map flat_map]; [reflexivity|].
  rewrite map_app, IH. f_equal. cbn [group_of fst snd].
  apply map_ext_in. intros g [_ Hg]%filter_In.
  unfold endpoint_of. unfold of_type in Hg. apply String.eqb_eq in Hg.
  now rewrite Hg.
Qed.

Lemma group_add_members (g : generated_guide)
    (by_type : list (string * list generated_guide)) :
  Permutation (flat_map snd (group_add g by_type)) (g :: flat_map snd by_type).
Proof.
  induction by_type as [|[t guides] by_type IH]; cbn [group_add flat_map snd].
  - reflexivity.
  - destruct (String.eqb t (g_type g)); cbn [flat_map snd].
    + rewrite <- List.app_assoc. cbn [List.app].
      symmetry. apply Permutation_middle.
    + rewrite IH. symmetry. apply Permutation_middle.
Qed.

Lemma group_by_type_members (guides : list generated_guide) :
  Permutation (flat_map snd (group_by_type guides)) guides.
Proof.
  unfold group_by_type.
  induction guides as [|g guides IH] using rev_ind; [reflexivity|].
  rewrite fold_left_app. cbn [fold_left].
  rewrite group_add_members, IH. apply Permutation_cons_append.
Qed.

(** Grouping moves guides but neither drops nor repeats one. *)
Lemma grouped_members (guides : list generated_guide) :
  Permutation (grouped guides) guides.
Proof.
  rewrite <- (group_by_type_members guides) at 2.
  rewrite group_by_type_groups. unfold grouped.
  induction (distinct (map g_type guides)) as [|t types IH];
    cbn [map flat_map]; [reflexivity|].
  cbn [group_of snd]. now apply Permutation_app_head.
Qed.

End ManifestFacts.

(* ================================================================== *)
(** * Facts about the run *)

Module RunFacts.
Import Py Script Spec StrFacts Out.

Lemma wp_ret {A} (a : A) Q st : Q (Ret a) st -> wp (ret a) Q st.
Proof. exact (fun H => H). Qed.

Lemma wp_raise {A} (e : exn) (Q : outcome A -> state -> Prop) st :
  Q (Raise e) st -> wp (raise e) Q st.
Proof. exact (fun H => H). Qed.

Lemma wp_sys_exit {A} (c : Z) (Q : outcome A -> state -> Prop) st :
  Q (SysExit c) st -> wp (sys_exit c) Q st.
Proof. exact (fun H => H). Qed.

Lemma wp_bind {A B} (m : M A) (k : A -> M B) Q st :
  wp m (then_wp k Q) st -> wp (bind m k) Q st.
Proof.
  unfold wp, then_wp, bind. destruct (m st) as [[a|e|c] st']; exact (fun H => H).
Qed.

Lemma wp_print (e : event) Q st : Q (Ret tt) (logged e st) -> wp (print e) Q st.
Proof. exact (fun H => H). Qed.

Lemma wp_makedirs (w : world) (path : string) Q st :
  (mkdir_ok w path = true -> Q (Ret tt) (with_dir path st)) ->
  (mkdir_ok w path = false -> Q (Raise OSError) st) ->
  wp (makedirs w path) Q st.
Proof.
  unfold wp, makedirs. destruct (mkdir_ok w path); intros H1 H2;
    [now apply H1 | now apply H2].
Qed.

Lemma wp_write_file (w : world) (path : string) (c : file_content) Q st :
  (write_ok w path = true -> Q (Ret tt) (with_file path c st)) ->
  (write_ok w path = false -> Q (Raise OSError) st) ->
  wp (write_file w path c) Q st.
Proof.
  unfold wp, write_file. destruct (write_ok w path); intros H1 H2;
    [now apply H1 | now apply H2].
Qed.

Lemma wp_read_file (w : world) (path : string) Q st :
  (forall text, read_text w path = Some text -> Q (Ret text) st) ->
  (read_text w path = None -> Q (Raise OSError) st) ->
  wp (read_file w path) Q st.
Proof.
  unfold wp, read_file. destruct (read_text w path); intros H1 H2;
    [now apply H1 | now apply H2].
Qed.

Lemma wp_try_except {A} (body : M A) (handler : exn -> M A) Q st :
  wp body (fun o st' => match o with
                        | Raise e => wp (handler e) Q st'
                        | _ => Q o st'
                        end) st ->
  wp (try_except body handler) Q st.
Proof.
  unfold wp, try_except. destruct (body st) as [[a|e|c] st']; exact (fun H => H).
Qed.

Lemma wp_lift {A} (r : raises A) (Q : outcome A -> state -> Prop) st :
  match r with Ok a => Q (Ret a) st | Err e => Q (Raise e) st end ->
  wp (lift r) Q st.
Proof. destruct r; exact (fun H => H). Qed.

Lemma wp_conseq {A} (m : M A) (Q Q' : outcome A -> state -> Prop) st :
  wp m Q st -> (forall o st', Q o st' -> Q' o st') -> wp m Q' st.
Proof. unfold wp. auto. Qed.

(** A loop, by an invariant on the accumulator and the state. *)
Lemma wp_for_each {A B} (body : B -> A -> M B) (l : list A)
    (I : B -> state -> Prop) Q :
  (forall acc a st, In a l -> I acc st ->
     wp (body acc a)
        (fun o st' => match o with
                      | Ret acc' => I acc' st'
                      | _ => Q o st'
                      end) st) ->
  (forall acc st, I acc st -> Q (Ret acc) st) ->
  forall acc st, I acc st -> wp (for_each body l acc) Q st.
Proof.
  intros Hbody Hend. induction l as [|a l IH]; intros acc st HI.
  - apply wp_ret. now apply Hend.
  - cbn [for_each]. apply wp_bind.
    eapply wp_conseq; [apply (Hbody acc a st); [now left | exact HI]|].
    intros [acc'|e|c] st' H; cbn [then_wp]; try exact H.
    apply IH; [|exact H]. intros. apply Hbody; [now right | assumption].
Qed.

Ltac wp_step :=
  lazymatch goal with
  | |- wp (bind _ _) _ _ => apply wp_bind
  | |- wp (ret _) _ _ => apply wp_ret
  | |- wp (print _) _ _ => apply wp_print
  | |- wp (raise _) _ _ => apply wp_raise
  | |- wp (sys_exit _) _ _ => apply wp_sys_exit
  | |- wp (makedirs _ _) _ _ => apply wp_makedirs; intros ?
  | |- wp (write_file _ _ _) _ _ => apply wp_write_file; intros ?
  | |- wp (try_except _ _) _ _ => apply wp_try_except
  | |- wp (read_file _ _) _ _ => apply wp_read_file; [intros ? ? | intros ?]
  | |- wp (lift _) _ _ => apply wp_lift
  | |- then_wp _ _ _ _ => cbn [then_wp]
  end.

Ltac wp_go := repeat (first [progress cbn [then_wp for_each] | wp_step]).

(** The first steps of [generate_api]: the directories, the README, the
    comments, the marker.  What follows them is [k], given the text
    without comments. *)
Lemma wp_generate_api_start (w : world) (readme_path output_dir : string)
    (Q : outcome (list generated_guide) -> state -> Prop) (st : state) :
  (forall st', files_of st' = files_of st -> Q (Raise OSError) st') ->
  (forall st', files_of st' = files_of st -> Q (SysExit 1) st') ->
  (forall text st',
     read_text w readme_path = Some text ->
     files_of st' = files_of st ->
     find (strip_comments text) golden_rules <> (-1)%Z ->
     wp (let content := strip_comments text in
         let guide_content := slice_from content (find content golden_rules) in
         let references := extract_references guide_content in
         let api_dir := OsPath.join output_dir ["api"] in
         guide_files <- list_guide_files w (guides_dir w readme_path) ;;
         generated_guides <- for_each (emit_guide w (api_guides_dir output_dir))
                               guide_files [] ;;
         write_file w (guide_json_path output_dir)
           (JsonFile (main_guide w guide_content references)) ;;
         print (Created "api/guide.json") ;;
         create_index_html w output_dir generated_guides ;;
         print Success ;;
         ret generated_guides) Q st') ->
  wp (generate_api w readme_path output_dir) Q st.
Proof.
  intros Hraise Hexit Hgo. unfold generate_api. cbv zeta.
  cbn [for_each guide_types].
  wp_go.
  all: try (apply Hraise; reflexivity).
  all: try (apply Hexit; reflexivity).
  match goal with H : read_text _ _ = Some ?t |- _ => rename t into text end.
  destruct (Z.eqb_spec (find (strip_comments text) golden_rules) (-1)) as [E|E].
  - wp_go. apply Hexit. reflexivity.
  - wp_step. cbn [then_wp].
    apply (Hgo text); [assumption | reflexivity | exact E].
Qed.

(** ** Paths of the outputs *)

Lemma join2_tail (a b : string) :
  startswith b "/" = false -> exists pre, OsPath.join2 a b = pre ++ b.
Proof.
  intros H. unfold OsPath.join2. rewrite H.
  destruct (String.eqb a "" || endswith a "/").
  - now exists a.
  - exists (a ++ "/"). now rewrite app_assoc.
Qed.

Lemma same_tail (p q a b : string) :
  length a = length b -> p ++ a = q ++ b -> a = b.
Proof.
  intros Hl H.
  assert (Hp : length p = length q).
  { apply (f_equal length) in H. rewrite !length_app in H. lia. }
  revert q H Hp; induction p as [|x p IH]; intros [|y q] H Hp;
    try discriminate; [exact H|].
  cbn [append] in H. injection H as _ H. apply (IH q H).
  cbn [length] in Hp. lia.
Qed.

Lemma guide_json_not_index (output_dir : string) :
  guide_json_path output_dir <> index_html_path output_dir.
Proof.
  unfold guide_json_path, index_html_path, OsPath.join. cbn [fold_left].
  destruct (join2_tail (OsPath.join2 output_dir "api") "guide.json" eq_refl)
    as [p ->].
  destruct (join2_tail output_dir "index.html" eq_refl) as [q ->].
  intros H. apply same_tail in H; [discriminate | reflexivity].
Qed.

Lemma guide_json_not_manifest (output_dir : string) :
  guide_json_path output_dir <> manifest_path output_dir.
Proof.
  unfold guide_json_path, manifest_path, OsPath.join. cbn [fold_left].
  destruct (join2_tail (OsPath.join2 output_dir "api") "guide.json" eq_refl)
    as [p ->].
  destruct (join2_tail output_dir "manifest.json" eq_refl) as [q ->].
  change "manifest.json" with ("man" ++ "ifest.json").
  rewrite <- app_assoc.
  intros H. apply same_tail in H; [discriminate | reflexivity].
Qed.

Lemma index_not_manifest (output_dir : string) :
  index_html_path output_dir <> manifest_path output_dir.
Proof.
  unfold index_html_path, manifest_path, OsPath.join. cbn [fold_left].
  destruct (join2_tail output_dir "index.html" eq_refl) as [p ->].
  destruct (join2_tail output_dir "manifest.json" eq_refl) as [q ->].
  change "manifest.json" with ("man" ++ "ifest.json").
  rewrite <- app_assoc.
  intros H. apply same_tail in H; [discriminate | reflexivity].
Qed.

(** ** Files *)

Lemma get_set_same (path : string) (c : file_content) l :
  get_file (set_file path c l) path = Some c.
Proof. unfold set_file. cbn [get_file]. now rewrite String.eqb_refl. Qed.

Lemma get_set_other (path path' : string) (c : file_content) l :
  path' <> path -> get_file (set_file path c l) path' = get_file l path'.
Proof.
  intros Hne. unfold set_file. cbn [get_file].
  assert (E : String.eqb path path' = false)
    by (apply String.eqb_neq; congruence).
  rewrite E. induction l as [|[k v] l IH]; cbn [filter fst get_file];
    [reflexivity|].
  destruct (String.eqb_spec k path) as [->|Hk]; cbn [negb get_file].
  - now rewrite E.
  - now rewrite IH.
Qed.

(** ** The manifest step *)

Lemma generate_mcp_manifest_returns json_loads w readme_path output_dir guides st :
  exists st',
    generate_mcp_manifest json_loads w (project_dir w readme_path) output_dir
      guides st = (Ret tt, st') /\
    manifest_step json_loads w readme_path output_dir guides st st'.
Proof.
  unfold generate_mcp_manifest, try_except, bind, read_file. cbv zeta.
  fold (template_path w readme_path). fold (manifest_path output_dir).
  destruct (read_text w (template_path w readme_path)) as [text|] eqn:R.
  2:{ eexists. split; [reflexivity|]. apply manifest_failed. now left. }
  cbn [ret].
  destruct (json_loads (Re.sub multiline line_comment_pattern "" text))
    as [manifest|] eqn:P.
  2:{ eexists. split; [reflexivity|]. apply manifest_failed. right.
      exists text. split; [exact R|]. now left. }
  cbn [ret].
  destruct (build_manifest manifest guides) as [manifest'|e] eqn:B.
  2:{ eexists. split; [reflexivity|]. apply manifest_failed. right.
      exists text. split; [exact R|]. right. exists manifest.
      split; [exact P|]. now left. }
  cbn [lift ret]. unfold write_file.
  destruct (write_ok w (manifest_path output_dir)) eqn:W.
  - eexists. split; [reflexivity|].
    eapply manifest_written; eauto.
  - eexists. split; [reflexivity|]. apply manifest_failed. right.
    exists text. split; [exact R|]. right. exists manifest.
    split; [exact P|]. now right.
Qed.

(** The manifest step touches no file but [manifest.json]. *)
Lemma manifest_step_frame json_loads w readme_path output_dir guides st st' :
  manifest_step json_loads w readme_path output_dir guides st st' ->
  dirs (st_fs st') = dirs (st_fs st) /\
  forall path, path <> manifest_path output_dir ->
               get_file (files_of st') path = get_file (files_of st) path.
Proof.
  intros [text manifest manifest' _ _ _ _ | e _]; (split; [reflexivity|]).
  - intros path Hne. unfold files_of. cbn [logged with_file st_fs files].
    now apply get_set_other.
  - reflexivity.
Qed.

(** ** The loop over the guide files *)

(** One turn of the loop returns or raises; it never calls [sys.exit]. *)
Lemma emit_guide_no_exit (w : world) (dir : string)
    (acc : list generated_guide) (guide_file : string) (st : state) :
  wp (emit_guide w dir acc guide_file)
     (fun o _ => match o with SysExit _ => False | _ => True end) st.
Proof.
  unfold emit_guide, process_guide_markdown. cbv zeta. wp_go; exact I.
Qed.

Lemma wp_list_guide_files (w : world) (dir : string)
    (Q : outcome (list string) -> state -> Prop) (st : state) :
  Q (Raise OSError) st ->
  (forall files, Q (Ret files) st) ->
  wp (list_guide_files w dir) Q st.
Proof.
  intros H1 H2. unfold list_guide_files.
  destruct (path_exists w dir); [|apply wp_ret, H2].
  destruct (listdir w dir); [apply wp_ret, H2 | apply wp_raise, H1].
Qed.

(** What follows the marker in [generate_api]: the loop over the guide
    files, [guide.json], [index.html].  It returns only if both writes
    succeed; any failure is an exception. *)
Lemma wp_generate_api_rest (w : world) (readme_path output_dir text : string)
    (Q : outcome (list generated_guide) -> state -> Prop) (st : state) :
  (forall e st', Q (Raise e) st') ->
  (forall guides st1,
     write_ok w (guide_json_path output_dir) = true ->
     write_ok w (index_html_path output_dir) = true ->
     Q (Ret guides)
       (api_done output_dir
          (main_guide w
             (slice_from (strip_comments text)
                (find (strip_comments text) golden_rules))
             (extract_references
                (slice_from (strip_comments text)
                   (find (strip_comments text) golden_rules))))
          guides st1)) ->
  wp (let content := strip_comments text in
      let guide_content := slice_from content (find content golden_rules) in
      let references := extract_references guide_content in
      let api_dir := OsPath.join output_dir ["api"] in
      guide_files <- list_guide_files w (guides_dir w readme_path) ;;
      generated_guides <- for_each (emit_guide w (api_guides_dir output_dir))
                            guide_files [] ;;
      write_file w (guide_json_path output_dir)
        (JsonFile (main_guide w guide_content references)) ;;
      print (Created "api/guide.json") ;;
      create_index_html w output_dir generated_guides ;;
      print Success ;;
      ret generated_guides) Q st.
Proof.
  intros Hraise Hret. cbv zeta. wp_step.
  apply wp_list_guide_files; cbn [then_wp]; [apply Hraise|].
  intros guide_files. wp_step.
  apply (wp_for_each _ _ (fun _ _ => True)); [| |exact I].
  - intros acc a st' _ _.
    eapply wp_conseq; [apply emit_guide_no_exit|].
    intros [acc'|e|c] st'' H; cbn [then_wp]; [exact I | apply Hraise | contradiction].
  - intros guides st1 _. cbn [then_wp]. unfold create_index_html. cbv zeta.
    wp_go; try apply Hraise.
    now apply Hret.
Qed.

(** A loop with a turn that cannot succeed does not succeed. *)
Lemma for_each_aborts {A B} (body : B -> A -> M B) (l : list A) (a : A) :
  In a l ->
  (forall acc st, aborted (fst (body acc a st))) ->
  (forall acc x st,
     match fst (body acc x st) with SysExit _ => False | _ => True end) ->
  forall acc st, aborted (fst (for_each body l acc st)).
Proof.
  intros Hin Ha Hne. induction l as [|x l IH]; intros acc st; [contradiction|].
  cbn [for_each]. unfold bind.
  specialize (Hne acc x st). specialize (Ha acc st).
  destruct Hin as [->|Hin].
  - destruct (body acc a st) as [[acc'|e|c] st']; cbn [fst] in *;
      [contradiction | exact I | contradiction].
  - destruct (body acc x st) as [[acc'|e|c] st']; cbn [fst] in *;
      [now apply IH | exact I | contradiction].
Qed.

(** A guide that was read but whose output cannot be written makes the
    turn raise. *)
Lemma emit_guide_write_fails (w : world) (output_dir : string)
    (acc : list generated_guide) (guide_file text : string) (st : state) :
  read_text w guide_file = Some text ->
  write_ok w (guide_output_path output_dir guide_file) = false ->
  aborted (fst (emit_guide w (api_guides_dir output_dir) acc guide_file st)).
Proof.
  intros Hr Hw.
  change (wp (emit_guide w (api_guides_dir output_dir) acc guide_file)
            (fun o _ => aborted o) st).
  unfold emit_guide, process_guide_markdown. cbv zeta.
  fold (guide_output_path_in (api_guides_dir output_dir) guide_file).
  fold (guide_output_path output_dir guide_file).
  wp_go; try exact I; try congruence.
Qed.

Lemma listed_guide_file (w : world) (dir f : string) (names : list string) :
  path_exists w dir = true ->
  listdir w dir = Some names ->
  In f names ->
  endswith f ".md" = true ->
  isfile w (OsPath.join dir [f]) = true ->
  forall st, exists files,
    list_guide_files w dir st = (Ret files, st) /\ In (OsPath.join dir [f]) files.
Proof.
  intros He Hl Hin Hmd Hf st. unfold list_guide_files. rewrite He, Hl.
  eexists. split; [reflexivity|].
  apply (in_map (fun f => OsPath.join dir [f])), filter_In.
  split; [exact Hin|]. now rewrite Hmd, Hf.
Qed.

End RunFacts.
Module RunOutcomes.
Import Py Script Spec StrFacts Out RunFacts.

Lemma aborted_status {A} (o : outcome A) : aborted o -> exit_status o = 1%Z.
Proof. destruct o; cbn; [contradiction | reflexivity | exact (fun H => H)]. Qed.

(** [create_guide_json] once [generate_api] has returned: the manifest
    step returns whatever happens in it, and the listing follows. *)
Lemma create_guide_json_after_api json_loads w readme_path output_dir st
    guides st1 :
  generate_api w readme_path output_dir st = (Ret guides, st1) ->
  exists st2,
    manifest_step json_loads w readme_path output_dir guides st1 st2 /\
    create_guide_json json_loads w readme_path output_dir st =
    (Ret tt, logged (GeneratedFiles (map fst (files_of st2))) st2).
Proof.
  intros H. unfold create_guide_json, bind. rewrite H.
  destruct (generate_mcp_manifest_returns json_loads w readme_path output_dir
              guides st1) as [st2 [E Hstep]].
  fold (project_dir w readme_path). rewrite E.
  exists st2. split; [exact Hstep | reflexivity].
Qed.

(** The same in the style of [wp]. *)
Lemma wp_create_guide_json json_loads w readme_path output_dir
    (Q : outcome unit -> state -> Prop) st :
  wp (generate_api w readme_path output_dir)
     (fun o st1 =>
        match o with
        | Ret guides =>
            forall st2,
              manifest_step json_loads w readme_path output_dir guides st1 st2 ->
              Q (Ret tt) (logged (GeneratedFiles (map fst (files_of st2))) st2)
        | Raise e => Q (Raise e) st1
        | SysExit c => Q (SysExit c) st1
        end) st ->
  wp (create_guide_json json_loads w readme_path output_dir) Q st.
Proof.
  unfold wp.
  destruct (generate_api w readme_path output_dir st) as [[guides|e|c] st1] eqn:E;
    cbn [fst snd]; intros H.
  - destruct (create_guide_json_after_api json_loads _ _ _ _ _ _ E)
      as [st2 [Hstep ->]].
    cbn [fst snd]. now apply H.
  - unfold create_guide_json, bind. rewrite E. exact H.
  - unfold create_guide_json, bind. rewrite E. exact H.
Qed.

(** Without the marker the run stops with status 1 before any file is
    written. *)
Lemma no_marker_no_files json_loads w readme_path output_dir text st :
  read_text w readme_path = Some text ->
  str_in golden_rules (strip_comments text) = false ->
  wp (create_guide_json json_loads w readme_path output_dir)
     (fun o st' => exit_status o = 1%Z /\ files_of st' = files_of st) st.
Proof.
  intros Hr Hm. apply wp_create_guide_json, wp_generate_api_start.
  - intros st' Hf. now split.
  - intros st' Hf. now split.
  - intros text' st' Hr' _ Hfind. exfalso. apply Hfind.
    assert (text' = text) as -> by congruence.
    now apply find_absent.
Qed.


(** A run that does not reach [generate_api]'s end does not end well. *)
Lemma wp_aborts_unless_api json_loads w readme_path output_dir st :
  wp (generate_api w readme_path output_dir) (fun o _ => aborted o) st ->
  aborted (fst (create_guide_json json_loads w readme_path output_dir st)).
Proof.
  intros H.
  change (wp (create_guide_json json_loads w readme_path output_dir)
            (fun o _ => aborted o) st).
  apply wp_create_guide_json. eapply wp_conseq; [exact H|].
  intros [guides|e|c] st' Ha; [contradiction | exact Ha | exact Ha].
Qed.

(** [guide.json] cannot be written: the run aborts. *)
Lemma guide_json_write_failure json_loads w readme_path output_dir st :
  write_ok w (guide_json_path output_dir) = false ->
  aborted (fst (create_guide_json json_loads w readme_path output_dir st)).
Proof.
  intros Hw. apply wp_aborts_unless_api, wp_generate_api_start;
    [intros; exact I | reflexivity |].
  intros text st' _ _ _. apply wp_generate_api_rest; [intros; exact I|].
  intros guides st1 Hw' _. congruence.
Qed.

(** [index.html] cannot be written: the run aborts. *)
Lemma index_html_write_failure json_loads w readme_path output_dir st :
  write_ok w (index_html_path output_dir) = false ->
  aborted (fst (create_guide_json json_loads w readme_path output_dir st)).
Proof.
  intros Hw. apply wp_aborts_unless_api, wp_generate_api_start;
    [intros; exact I | reflexivity |].
  intros text st' _ _ _. apply wp_generate_api_rest; [intros; exact I|].
  intros guides st1 _ Hw'. congruence.
Qed.

(** The JSON file of a guide that was read cannot be written: the run
    aborts. *)
Lemma guide_write_failure json_loads w readme_path output_dir st
    (names : list string) (f text : string) :
  let guide_file := OsPath.join (guides_dir w readme_path) [f] in
  path_exists w (guides_dir w readme_path) = true ->
  listdir w (guides_dir w readme_path) = Some names ->
  In f names ->
  endswith f ".md" = true ->
  isfile w guide_file = true ->
  read_text w guide_file = Some text ->
  write_ok w (guide_output_path output_dir guide_file) = false ->
  aborted (fst (create_guide_json json_loads w readme_path output_dir st)).
Proof.
  intros guide_file He Hl Hin Hmd Hf Hr Hw.
  apply wp_aborts_unless_api, wp_generate_api_start;
    [intros; exact I | reflexivity |].
  intros text' st' _ _ _. cbv zeta. apply wp_bind. unfold wp.
  destruct (listed_guide_file w _ f names He Hl Hin Hmd Hf st')
    as [guide_files [-> Hgf]].
  cbn [fst snd then_wp]. apply wp_bind. unfold wp.
  pose proof (for_each_aborts (emit_guide w (api_guides_dir output_dir))
                guide_files guide_file Hgf
                (fun acc st => emit_guide_write_fails w output_dir acc
                                 guide_file text st Hr Hw)
                (fun acc x st => emit_guide_no_exit w _ acc x st)
                [] st') as Ha.
  destruct (for_each (emit_guide w (api_guides_dir output_dir)) guide_files [] st')
    as [[acc|e|c] st'']; cbn [fst snd then_wp] in *;
    [contradiction | exact I | exact Ha].
Qed.

(** The manifest step cannot fail the run, and changes no other file. *)
Lemma manifest_step_harmless json_loads w readme_path output_dir st guides st1 :
  generate_api w readme_path output_dir st = (Ret guides, st1) ->
  exists st2,
    create_guide_json json_loads w readme_path output_dir st = (Ret tt, st2) /\
    dirs (st_fs st2) = dirs (st_fs st1) /\
    (forall path, path <> manifest_path output_dir ->
                  get_file (files_of st2) path = get_file (files_of st1) path) /\
    (read_text w (template_path w readme_path) = None \/
     (exists text,
         read_text w (template_path w readme_path) = Some text /\
         (json_loads (Re.sub multiline line_comment_pattern "" text) = None \/
          write_ok w (manifest_path output_dir) = false)) ->
     files_of st2 = files_of st1 /\
     exists e, In (ErrorGeneratingManifest e) (st_log st2)).
Proof.
  intros H.
  destruct (create_guide_json_after_api json_loads _ _ _ _ _ _ H)
    as [st2 [Hstep ->]].
  eexists. split; [reflexivity|].
  destruct (manifest_step_frame _ _ _ _ _ _ _ Hstep) as [Hd Hf].
  split; [exact Hd|]. split; [exact Hf|].
  intros Hfail. destruct Hstep as [text manifest manifest' Hr Hp Hb Hw | e _].
  - exfalso. destruct Hfail as [Hn | [text' [Hr' [Hn | Hn]]]]; congruence.
  - split; [reflexivity|]. exists e.
    cbn [logged st_log]. rewrite !in_app_iff. left. right. now left.
Qed.

End RunOutcomes.
(* ================================================================== *)
(** * Links, said without recursion *)

Module LinkFacts.
Import Py Re Script Spec StrFacts Cont ReFacts.

(** [cut_at], said without recursion: the text splits at a [delim], no
    line break comes before it, and no [delim] starts before it. *)
Lemma cut_at_iff (delim s before after : string) :
  cut_at delim s = Some (before, after) <->
  s = before ++ delim ++ after /\
  str_in (String nl "") before = false /\
  forall j, j < length before -> startswith (drop j s) delim = false.
Proof.
  split.
  - revert before; induction s as [|c s IH]; intros before; cbn [cut_at].
    + destruct (startswith "" delim) eqn:E; [|discriminate].
      intros H; injection H as <- <-.
      split; [now apply startswith_drop|]. split; [reflexivity|].
      cbn [length]. lia.
    + destruct (startswith (String c s) delim) eqn:E.
      * intros H; injection H as <- <-.
        split; [now apply startswith_drop|]. split; [reflexivity|].
        cbn [length]. lia.
      * destruct (Ascii.eqb c nl) eqn:Ec; [discriminate|].
        destruct (cut_at delim s) as [[b a]|]; [|discriminate].
        intros H; injection H as <- <-.
        destruct (IH b eq_refl) as [Hs [Hnl Hfirst]].
        split; [cbn [append]; now f_equal|]. split.
        -- cbn [str_in startswith]. rewrite Ascii.eqb_sym, Ec. exact Hnl.
        -- intros [|j] Hj; cbn [drop]; [exact E|].
           apply Hfirst. cbn [length] in Hj. lia.
  - revert s; induction before as [|c b IH]; intros s [Hs [Hnl Hfirst]].
    + cbn [append] in Hs. subst s.
      assert (E : startswith (delim ++ after) delim = true)
        by apply startswith_app.
      destruct (delim ++ after) as [|x t] eqn:D; cbn [cut_at]; rewrite E;
        rewrite <- D, drop_app; reflexivity.
    + cbn [append] in Hs. subst s. cbn [cut_at].
      assert (H0 : startswith (String c (b ++ delim ++ after)) delim = false)
        by (apply (Hfirst 0); cbn [length]; lia).
      rewrite H0.
      cbn [str_in startswith] in Hnl. apply orb_false_iff in Hnl as [Hc Hnl].
      rewrite andb_true_r, Ascii.eqb_sym in Hc. rewrite Hc.
      rewrite (IH (b ++ delim ++ after)); [reflexivity|].
      split; [reflexivity|]. split; [exact Hnl|].
      intros j Hj. apply (Hfirst (S j)). cbn [length]. lia.
Qed.

(** For a delimiter of one character, "none starts before" is "none
    in the text before". *)
Lemma no_char_before (x : ascii) (b t : string) :
  (forall j, j < length b -> startswith (drop j (b ++ t)) (String x "") = false)
  <-> str_in (String x "") b = false.
Proof.
  induction b as [|c b IH]; cbn [append length str_in].
  - split; [reflexivity | intros _ j Hj; lia].
  - rewrite orb_false_iff, <- IH. split.
    + intros H. split.
      * specialize (H 0 ltac:(lia)). cbn [drop startswith] in *.
        now destruct (Ascii.eqb x c).
      * intros j Hj. apply (H (S j)). lia.
    + intros [H0 H] [|j] Hj; cbn [drop].
      * cbn [startswith] in *. now destruct (Ascii.eqb x c).
      * apply H. lia.
Qed.

(** A link, said without recursion: the text reads bracket, name, [](],
    path, parenthesis; name and path hold no line break, the path no
    closing parenthesis, and no [](] starts inside the name. *)
Lemma link_at_iff (s name path after : string) :
  link_at s = Some (name, path, after) <->
  s = "[" ++ name ++ "](" ++ path ++ ")" ++ after /\
  str_in (String nl "") name = false /\
  str_in (String nl "") path = false /\
  str_in ")" path = false /\
  forall j, j < length name -> startswith (drop (S j) s) "](" = false.
Proof.
  unfold link_at. split.
  - destruct s as [|c s]; [discriminate|].
    destruct (Ascii.eqb_spec c "[") as [->|]; [|discriminate].
    destruct (cut_at "](" s) as [[n s2]|] eqn:E1; [|discriminate].
    destruct (cut_at ")" s2) as [[q a]|] eqn:E2; [|discriminate].
    intros H; injection H as -> -> ->.
    apply cut_at_iff in E1 as [Hs [Hn Hfirst]].
    apply cut_at_iff in E2 as [Hs2 [Hp Hclose]].
    subst s s2. split; [reflexivity|]. split; [exact Hn|].
    split; [exact Hp|]. split; [now apply (no_char_before ")" path (")" ++ after))|].
    exact Hfirst.
  - intros [-> [Hn [Hp [Hc Hfirst]]]].
    cbn [append]. rewrite Ascii.eqb_refl.
    replace (cut_at "](" (name ++ String "]" (String "(" (path ++ String ")" after))))
      with (Some (name, path ++ ")" ++ after)).
    + replace (cut_at ")" (path ++ ")" ++ after)) with (Some (path, after));
        [reflexivity|].
      symmetry. apply cut_at_iff. split; [reflexivity|]. split; [exact Hp|].
      now apply no_char_before.
    + symmetry. apply cut_at_iff. split; [reflexivity|]. split; [exact Hn|].
      exact Hfirst.
Qed.

End LinkFacts.

(* ================================================================== *)
(** * More facts *)

Module TitleFacts.
Import Py Re Script Spec Cont Out More StrFacts ReFacts.

Lemma split_cons (sep : ascii) (s : string) :
  exists l ls, split sep s = l :: ls.
Proof.
  induction s as [|c s [l [ls IH]]]; cbn [split]; [eauto|].
  destruct (Ascii.eqb c sep); [eauto|]. rewrite IH. eauto.
Qed.

(** The first piece of a text cut at the line breaks is its first line. *)
Lemma split_first_line (s : string) :
  exists ls, split nl s = line_of s :: ls.
Proof.
  induction s as [|c s [ls IH]]; cbn [split line_of]; [eauto|].
  destruct (Ascii.eqb c nl); [eauto|]. rewrite IH. eauto.
Qed.

Lemma line_after (s : string) : s = line_of s ++ after_line s.
Proof.
  induction s as [|c s IH]; cbn [line_of after_line]; [reflexivity|].
  destruct (Ascii.eqb c nl); cbn [append]; [reflexivity | now f_equal].
Qed.

(** The lazy [.*?] before [$] takes the rest of the line. *)
Lemma title_star (u pre : string) (p : option ascii) (gs : list string) :
  exists q,
    star_lazy (atom_ok multiline Any) (title_k (pre ++ u)) p gs u =
    Some {| prev := q; rest := after_line u;
            groups := List.app gs [pre ++ line_of u] |}.
Proof.
  revert pre p; induction u as [|c u IH]; intros pre p.
  - exists p. cbn [star_lazy line_of after_line]. unfold title_k.
    cbn [rmatch at_eol rest prev groups].
    now rewrite captured_app, app_nil_r.
  - cbn [star_lazy line_of after_line]. unfold title_k at 1.
    cbn [rmatch at_eol rest prev groups multiline MULTILINE orb].
    destruct (Ascii.eqb c nl) eqn:E; cbn [andb].
    + exists p. now rewrite captured_app, app_nil_r.
    + cbn [atom_ok multiline DOTALL orb]. rewrite E. cbn [negb].
      replace (pre ++ String c u) with ((pre ++ String c "") ++ u)
        by now rewrite app_assoc.
      destruct (IH (pre ++ String c "") (Some c)) as [q ->].
      exists q. now rewrite app_assoc.
Qed.

(** One attempt of [title_pattern]: it matches at the start of a line
    that begins with [# ], and the group is the rest of that line. *)
Lemma title_match (p : option ascii) (s : string) :
  match_at multiline title_pattern false p s =
  if at_line_start p && startswith s "# "
  then Some {| m_text := captured s (after_line (drop 2 s));
               m_groups := [line_of (drop 2 s)];
               m_after := after_line (drop 2 s) |}
  else None.
Proof.
  unfold match_at. cbn [andb].
  change (fun st : mstate => Some st) with (@Some mstate).
  unfold title_pattern.
  cbn [seq lit rmatch rest prev groups atom_ok star at_bol
       multiline MULTILINE].
  replace (at_bol multiline {| prev := p; rest := s; groups := [] |})
    with (at_line_start p) by now destruct p.
  destruct (at_line_start p); cbn [andb]; [|reflexivity].
  cbn [startswith].
  destruct s as [|a s]; [reflexivity|].
  destruct (Ascii.eqb "#" a); cbn [andb]; [|reflexivity].
  destruct s as [|b s]; [reflexivity|].
  destruct (Ascii.eqb " " b); cbn [andb drop]; [|reflexivity].
  destruct (title_star s "" (Some b) []) as [q Hq].
  cbn [append] in Hq.
  change (star_lazy (atom_ok multiline Any) (title_k s) (Some b) [] s)
    with (star_lazy (atom_ok multiline Any)
            (fun st' : mstate =>
               if at_eol multiline
                    {| prev := prev st'; rest := rest st';
                       groups := (groups st' ++ [captured s (rest st')])%list |}
               then Some {| prev := prev st'; rest := rest st';
                            groups := (groups st' ++ [captured s (rest st')])%list |}
               else None) (Some b) [] s) in Hq.
  rewrite Hq. reflexivity.
Qed.

(** [startswith] looks at one line only when the prefix holds no line
    break. *)
Lemma startswith_heading_line (s : string) :
  startswith (line_of s) "# " = startswith s "# ".
Proof.
  destruct s as [|a s]; [reflexivity|]. cbn [line_of].
  destruct (Ascii.eqb_spec a nl) as [->|_]; [reflexivity|].
  cbn [startswith]. f_equal.
  destruct s as [|b s]; [reflexivity|]. cbn [line_of].
  destruct (Ascii.eqb_spec b nl) as [->|_]; reflexivity.
Qed.

Lemma drop_line (s : string) :
  startswith s "# " = true -> drop 2 (line_of s) = line_of (drop 2 s).
Proof.
  destruct s as [|a [|b s]]; cbn [startswith]; try discriminate.
  - now rewrite andb_false_r.
  - destruct (Ascii.eqb_spec "#" a) as [<-|]; [|discriminate].
    destruct (Ascii.eqb_spec " " b) as [<-|]; [|discriminate].
    reflexivity.
Qed.

(** [re.search] with [title_pattern], from the start of a line and from
    the middle of one. *)
Lemma title_search (s : string) (p : option ascii) :
  option_map (fun m => group m 1) (search_from multiline title_pattern p s) =
  if at_line_start p
  then heading_of_lines (split nl s)
  else heading_of_lines (tl (split nl s)).
Proof.
  revert p; induction s as [|c s IH]; intros p.
  - cbn [search_from]. rewrite title_match, andb_false_r.
    now destruct (at_line_start p).
  - cbn [search_from]. rewrite title_match.
    destruct (split_first_line (String c s)) as [ls Hls].
    pose proof (startswith_heading_line (String c s)) as Hh.
    destruct (at_line_start p).
    + cbn [andb]. rewrite Hls. cbn [heading_of_lines]. rewrite Hh.
      destruct (startswith (String c s) "# ") eqn:E.
      * cbn [option_map group m_groups nth Nat.sub]. f_equal.
        symmetry. now apply drop_line.
      * rewrite IH. cbn [at_line_start split] in *.
        destruct (Ascii.eqb c nl).
        -- now injection Hls as _ <-.
        -- destruct (split_cons nl s) as [l0 [ls0 Hs]]. rewrite Hs in *.
           now injection Hls as _ <-.
    + cbn [andb]. rewrite IH. cbn [at_line_start split].
      destruct (Ascii.eqb c nl); [reflexivity|].
      destruct (split_cons nl s) as [l0 [ls0 ->]]. reflexivity.
Qed.

(** The title the script takes is the first heading, line by line. *)
Lemma title_is_first_heading (content : string) :
  option_map (fun m => group m 1) (search multiline title_pattern content) =
  first_heading content.
Proof. exact (title_search content None). Qed.

End TitleFacts.

Module SortFacts.
Import Py Script Spec Out More StrFacts ManifestFacts.

(** ** The order of [str] *)

Lemma ascii_compare_refl (a : ascii) : Ascii.compare a a = Eq.
Proof. unfold Ascii.compare. apply N.compare_refl. Qed.

Lemma ascii_compare_trans (a b c : ascii) (o : comparison) :
  o <> Eq ->
  (Ascii.compare a b = o \/ a = b) -> (Ascii.compare b c = o \/ b = c) ->
  Ascii.compare a c = o \/ a = c.
Proof.
  intros Ho [H1| ->] [H2| ->]; auto. left.
  unfold Ascii.compare in *.
  destruct o; [contradiction| |].
  - rewrite N.compare_lt_iff in *. lia.
  - rewrite N.compare_gt_iff in *. lia.
Qed.

Lemma string_compare_cons (a b : ascii) (s t : string) :
  String.compare (String a s) (String b t) =
  match Ascii.compare a b with
  | Eq => String.compare s t
  | o => o
  end.
Proof. cbn [String.compare]. now destruct (Ascii.compare a b). Qed.

Lemma string_lt_trans (s t u : string) :
  String.compare s t = Lt -> String.compare t u = Lt -> String.compare s u = Lt.
Proof.
  revert t u; induction s as [|a s IH]; intros [|b t] [|c u];
    try discriminate; try reflexivity.
  rewrite !string_compare_cons.
  destruct (Ascii.compare a b) eqn:Eab; try discriminate.
  - apply Ascii.compare_eq_iff in Eab as ->.
    destruct (Ascii.compare b c); try discriminate; [apply IH | reflexivity].
  - intros _. destruct (Ascii.compare b c) eqn:Ebc; try discriminate.
    + apply Ascii.compare_eq_iff in Ebc as <-. now rewrite Eab.
    + intros _.
      destruct (ascii_compare_trans a b c Lt ltac:(discriminate)
                  (or_introl Eab) (or_introl Ebc)) as [-> | ->];
        [reflexivity|].
      unfold Ascii.compare in *. rewrite N.compare_lt_iff in *. lia.
Qed.

Lemma leb_iff (s t : string) :
  String.leb s t = true <-> String.compare s t = Lt \/ s = t.
Proof.
  unfold String.leb. destruct (String.compare s t) eqn:E.
  - apply String.compare_eq_iff in E. tauto.
  - tauto.
  - split; [discriminate|]. intros [H | ->]; [discriminate|].
    assert (String.compare t t = Eq).
    { clear. induction t as [|a t IH]; [reflexivity|].
      now rewrite string_compare_cons, ascii_compare_refl. }
    congruence.
Qed.

Lemma leb_trans (s t u : string) :
  String.leb s t = true -> String.leb t u = true -> String.leb s u = true.
Proof.
  rewrite !leb_iff. intros [H1| ->] [H2| ->]; auto.
  left. eapply string_lt_trans; eauto.
Qed.

Lemma leb_false_ge (s t : string) :
  String.leb s t = false -> String.leb t s = true.
Proof.
  intros H. destruct (String.leb_total s t) as [E|E]; [congruence | exact E].
Qed.

(** ** Sorting by name *)

Lemma insert_by_name_perm (g : generated_guide) (l : list generated_guide) :
  Permutation (insert_by_name g l) (g :: l).
Proof.
  induction l as [|h t IH]; cbn [insert_by_name]; [reflexivity|].
  destruct (String.leb (g_name h) (g_name g)); [|reflexivity].
  rewrite IH. apply perm_swap.
Qed.

Lemma sort_fold_perm (l acc : list generated_guide) :
  Permutation (fold_left (fun acc g => insert_by_name g acc) l acc)
              (acc ++ l).
Proof.
  revert acc; induction l as [|g l IH]; intros acc; cbn [fold_left].
  - now rewrite List.app_nil_r.
  - rewrite IH, insert_by_name_perm. apply Permutation_middle.
Qed.

Lemma sort_by_name_perm (l : list generated_guide) :
  Permutation (sort_by_name l) l.
Proof. exact (sort_fold_perm l []). Qed.

Lemma insert_by_name_sorted (g : generated_guide) (l : list generated_guide) :
  StronglySorted name_le l -> StronglySorted name_le (insert_by_name g l).
Proof.
  induction 1 as [|h t Ht IH Hh]; cbn [insert_by_name].
  - repeat constructor.
  - destruct (String.leb (g_name h) (g_name g)) eqn:E.
    + constructor; [exact IH|].
      apply Forall_forall. intros x Hx.
      apply (Permutation_in _ (insert_by_name_perm g t)) in Hx.
      destruct Hx as [<- | Hx]; [exact E|].
      rewrite Forall_forall in Hh. now apply Hh.
    + apply leb_false_ge in E.
      constructor; [now constructor|].
      constructor; [exact E|].
      apply Forall_forall. intros x Hx. rewrite Forall_forall in Hh.
      eapply leb_trans; [exact E | now apply Hh].
Qed.

Lemma sort_fold_sorted (l acc : list generated_guide) :
  StronglySorted name_le acc ->
  StronglySorted name_le (fold_left (fun acc g => insert_by_name g acc) l acc).
Proof.
  revert acc; induction l as [|g l IH]; intros acc H; cbn [fold_left];
    [exact H|].
  apply IH. now apply insert_by_name_sorted.
Qed.

Lemma sort_by_name_sorted (l : list generated_guide) :
  StronglySorted name_le (sort_by_name l).
Proof. apply sort_fold_sorted. constructor. Qed.



End SortFacts.

Module IndexFacts.
Import Py Script Spec Out More StrFacts ManifestFacts SortFacts.

(** Looking a type up in the groups of a list of types. *)
Lemma lookup_group_of (guides : list generated_guide) (types : list string)
    (t : string) :
  lookup_group (map (group_of guides) types) t =
  if existsb (String.eqb t) types
  then Some (filter (of_type t) guides)
  else None.
Proof.
  induction types as [|k types IH]; cbn [map lookup_group existsb group_of];
    [reflexivity|].
  rewrite (String.eqb_sym t k).
  destruct (String.eqb_spec k t) as [->|_]; cbn [orb]; [reflexivity | exact IH].
Qed.

Lemma existsb_types (guides : list generated_guide) (t : string) :
  existsb (String.eqb t) (map g_type guides) = false ->
  filter (of_type t) guides = [].
Proof.
  induction guides as [|g guides IH]; cbn [map existsb filter]; [reflexivity|].
  intros [H1 H2]%orb_false_iff. unfold of_type at 1.
  rewrite String.eqb_sym, H1. now apply IH.
Qed.

Lemma sort_by_name_nil : sort_by_name [] = [].
Proof. reflexivity. Qed.

(** The rows of the index: the two fixed ones, then a row for each
    listed guide. *)
Lemma index_rows_listed (guides : list generated_guide) :
  index_rows guides =
  (fixed_rows ++
   flat_map (fun t => map (guide_row t) (sort_by_name (filter (of_type t) guides)))
            guide_type_order)%list.
Proof.
  unfold index_rows, fixed_rows. cbn [List.app]. do 2 f_equal.
  rewrite group_by_type_groups.
  induction guide_type_order as [|t order IH]; cbn [flat_map]; [reflexivity|].
  rewrite IH. f_equal. rewrite lookup_group_of, existsb_distinct.
  destruct (existsb (String.eqb t) (map g_type guides)) eqn:E; [reflexivity|].
  now rewrite (existsb_types _ _ E).
Qed.

(** A guide of one of the four types is in exactly one of the groups of
    the index. *)
Lemma by_order_perm (guides : list generated_guide) :
  Forall (fun g => In (g_type g) guide_type_order) guides ->
  Permutation (flat_map (fun t => filter (of_type t) guides) guide_type_order)
              guides.
Proof.
  induction 1 as [|g guides Hg _ IH]; [reflexivity|].
  cbn [guide_type_order flat_map] in *. rewrite !List.app_nil_r in *.
  assert (Ht : forall t, of_type t g = String.eqb (g_type g) t) by reflexivity.
  cbn [filter]. rewrite !Ht.
  destruct Hg as [E|[E|[E|[E|[]]]]]; rewrite <- E;
    cbn [String.eqb Ascii.eqb Bool.eqb andb]; cbn [List.app].
  - now constructor.
  - symmetry. apply Permutation_cons_app. now symmetry.
  - symmetry. rewrite List.app_assoc.
    apply (Permutation_cons_app _ _ g). rewrite <- List.app_assoc. now symmetry.
  - symmetry. rewrite !List.app_assoc.
    apply (Permutation_cons_app _ _ g). rewrite <- !List.app_assoc. now symmetry.
Qed.

Lemma listed_guides_perm (guides : list generated_guide) :
  Forall (fun g => In (g_type g) guide_type_order) guides ->
  Permutation (listed_guides guides) guides.
Proof.
  intros H. rewrite <- (by_order_perm guides H) at 2. unfold listed_guides.
  clear H. induction guide_type_order as [|t order IH]; cbn [flat_map]; [reflexivity|].
  apply Permutation_app; [apply sort_by_name_perm | exact IH].
Qed.

(** A guide of another type is in no group of the index. *)
Lemma listed_guides_types (guides : list generated_guide) (g : generated_guide) :
  In g (listed_guides guides) <->
  In g guides /\ In (g_type g) guide_type_order.
Proof.
  unfold listed_guides. rewrite in_flat_map. split.
  - intros [t [Ht Hg]].
    apply (Permutation_in _ (sort_by_name_perm _)) in Hg.
    apply filter_In in Hg as [Hg E]. unfold of_type in E.
    apply String.eqb_eq in E. split; [exact Hg | now rewrite E].
  - intros [Hg Ht]. exists (g_type g). split; [exact Ht|].
    apply (Permutation_in _ (Permutation_sym (sort_by_name_perm _))).
    apply filter_In. split; [exact Hg|]. unfold of_type. apply String.eqb_refl.
Qed.

End IndexFacts.

Module PathFacts.
Import Py Script Spec Out More StrFacts ReplaceFacts.

Lemma drop_app_ge (n : nat) (x y : string) :
  length x <= n -> drop n (x ++ y) = drop (n - length x) y.
Proof.
  revert n; induction x as [|c x IH]; intros n H; cbn [length append] in *.
  - now rewrite Nat.sub_0_r.
  - destruct n as [|n]; [lia|]. cbn [drop Nat.sub]. apply IH. lia.
Qed.

(** The end of a text is the end of its last part, when that part is
    long enough. *)
Lemma endswith_app (x y p : string) :
  length p <= length y -> endswith (x ++ y) p = endswith y p.
Proof.
  intros H. unfold endswith. rewrite length_app.
  rewrite drop_app_ge by lia.
  replace (length x + length y - length p - length x)
    with (length y - length p) by lia.
  f_equal. apply Nat.leb_le in H as H'. rewrite H'. apply Nat.leb_le. lia.
Qed.

Lemma endswith_self (p : string) : endswith p p = true.
Proof.
  unfold endswith. rewrite Nat.leb_refl, Nat.sub_diag. cbn [drop andb].
  apply String.eqb_refl.
Qed.

Lemma endswith_iff (s p : string) :
  endswith s p = true <-> exists x, s = x ++ p.
Proof.
  split.
  - unfold endswith. intros [Hl He]%andb_true_iff.
    apply String.eqb_eq in He. exists (take (length s - length p) s).
    pose proof (take_drop (length s - length p) s) as T.
    rewrite He in T. now symmetry.
  - intros [x ->]. rewrite endswith_app by lia. apply endswith_self.
Qed.

Lemma app_not_nil (x y : string) : y <> "" -> String.eqb (x ++ y) "" = false.
Proof.
  intros H. apply String.eqb_neq. intros E.
  apply (f_equal length) in E. rewrite length_app in E.
  destruct y; [congruence | cbn in E; lia].
Qed.

Lemma join2_prefix (a b : string) :
  startswith b "/" = false -> OsPath.join2 a b = dir_prefix a ++ b.
Proof.
  intros H. unfold OsPath.join2, dir_prefix. rewrite H.
  destruct (String.eqb a "" || endswith a "/"); [reflexivity|].
  now rewrite app_assoc.
Qed.

(** The prefix made by a path that ends with a name. *)
Lemma dir_prefix_app (a b : string) :
  b <> "" -> endswith b "/" = false -> dir_prefix (a ++ b) = a ++ b ++ "/".
Proof.
  intros Hb He. unfold dir_prefix. rewrite app_not_nil by exact Hb.
  destruct b as [|c b]; [congruence|].
  rewrite endswith_app by (cbn; lia). rewrite He. cbn [orb].
  now rewrite app_assoc.
Qed.

(** ** Pieces of a split *)

Lemma split_pieces (sep : ascii) (s : string) :
  Forall (fun q => str_in (String sep "") q = false) (split sep s).
Proof.
  induction s as [|c s IH]; cbn [split].
  - repeat constructor.
  - destruct (Ascii.eqb c sep) eqn:E.
    + constructor; [reflexivity | exact IH].
    + destruct (split sep s) as [|p ps]; [repeat constructor|].
      * cbn [str_in startswith]. now rewrite Ascii.eqb_sym, E.
      * inversion IH as [|? ? Hp Hps]; subst. constructor; [|exact Hps].
        cbn [str_in startswith]. rewrite Ascii.eqb_sym, E. exact Hp.
Qed.

Lemma split_not_nil (sep : ascii) (s : string) : split sep s <> [].
Proof.
  destruct s as [|c s]; cbn [split]; [discriminate|].
  destruct (Ascii.eqb c sep); [discriminate|].
  destruct (split sep s); discriminate.
Qed.

(** What follows the last separator holds no separator. *)
Lemma last_piece_no_sep (sep : ascii) (s : string) :
  str_in (String sep "") (last_piece (split sep s)) = false.
Proof.
  pose proof (split_pieces sep s) as H. rewrite Forall_forall in H.
  apply H. unfold last_piece.
  destruct (exists_last (split_not_nil sep s)) as [l [x E]].
  rewrite E, last_last. apply in_or_app. right. now left.
Qed.

Lemma split_app_sep (sep : ascii) (a b : string) :
  split sep (a ++ String sep b) = (split sep a ++ split sep b)%list.
Proof.
  induction a as [|c a IH]; cbn [append split].
  - now rewrite Ascii.eqb_refl.
  - rewrite IH. destruct (Ascii.eqb c sep); [reflexivity|].
    pose proof (split_not_nil sep a) as Hn.
    destruct (split sep a) as [|p ps]; [congruence | reflexivity].
Qed.

Lemma split_no_sep (sep : ascii) (s : string) :
  str_in (String sep "") s = false -> split sep s = [s].
Proof.
  induction s as [|c s IH]; [reflexivity|]. intros H.
  pose proof (str_in_head _ _ _ H) as Hh. apply str_in_tail in H.
  cbn [startswith] in Hh. rewrite andb_true_r in Hh.
  cbn [split]. rewrite Ascii.eqb_sym, Hh. now rewrite (IH H).
Qed.

Lemma last_app_piece (l1 l2 : list string) :
  l2 <> [] -> last_piece (l1 ++ l2) = last_piece l2.
Proof.
  intros H. unfold last_piece.
  induction l1 as [|x l1 IH]; [reflexivity|].
  cbn [List.app]. rewrite <- IH.
  destruct (l1 ++ l2)%list eqn:E; [|reflexivity].
  apply app_eq_nil in E as [_ E]. congruence.
Qed.

(** What follows the last slash of a path is its last component. *)
Lemma last_piece_app (sep : ascii) (a b : string) :
  str_in (String sep "") b = false ->
  last_piece (split sep (a ++ String sep b)) = b.
Proof.
  intros H. rewrite split_app_sep, last_app_piece by apply split_not_nil.
  now rewrite split_no_sep.
Qed.

Lemma basename_no_slash (p : string) : str_in "/" (OsPath.basename p) = false.
Proof. apply last_piece_no_sep. Qed.

(** Replacing [.md] brings no slash in front. *)
Lemma replace_md_no_slash (new s : string) (k : nat) :
  startswith new "/" = false -> new <> "" ->
  str_in "/" s = false ->
  startswith (replace_from ".md" new k s) "/" = false.
Proof.
  intros Hn Hne. revert k; induction s as [|c s IH]; intros k Hs; [reflexivity|].
  pose proof (str_in_head _ _ _ Hs) as Hh. apply str_in_tail in Hs.
  cbn [replace_from]. destruct k as [|k]; [|now apply IH].
  destruct (startswith (String c s) ".md").
  - destruct new as [|d new]; [congruence|]. exact Hn.
  - exact Hh.
Qed.

Lemma json_name_no_slash (p : string) :
  startswith (replace (OsPath.basename p) ".md" ".json") "/" = false.
Proof.
  apply replace_md_no_slash; [reflexivity | discriminate |].
  apply basename_no_slash.
Qed.

Lemma type_dir (p : string) :
  infer_guide_type p ++ "s" <> "" /\
  endswith (infer_guide_type p ++ "s") "/" = false /\
  startswith (infer_guide_type p ++ "s") "/" = false.
Proof.
  unfold infer_guide_type.
  repeat match goal with
         | |- context [if ?b then _ else _] => destruct b
         end; repeat split; discriminate.
Qed.

Lemma join2_name (a b c : string) :
  b <> "" -> endswith b "/" = false -> startswith c "/" = false ->
  OsPath.join2 (a ++ b) c = a ++ b ++ "/" ++ c.
Proof.
  intros Hb He Hc. rewrite join2_prefix by exact Hc.
  rewrite dir_prefix_app by assumption. now rewrite !app_assoc.
Qed.

(** Where the output of a guide goes, written out. *)
Lemma guide_output_path_eq (output_dir guide_file : string) :
  guide_output_path output_dir guide_file =
  dir_prefix output_dir ++ guide_relative_path guide_file.
Proof.
  unfold guide_output_path, guide_output_path_in, api_guides_dir,
    guide_relative_path, OsPath.join.
  cbn [fold_left].
  destruct (type_dir guide_file) as [T1 [T2 T3]].
  set (P := dir_prefix output_dir).
  set (T := infer_guide_type guide_file ++ "s") in *.
  set (F := replace (OsPath.basename guide_file) ".md" ".json").
  rewrite (join2_prefix output_dir "api") by reflexivity. fold P.
  rewrite (join2_name P "api" "guides") by (reflexivity || discriminate).
  change (P ++ "api" ++ "/" ++ "guides") with (P ++ "api/guides").
  rewrite (join2_name P "api/guides" T) by (assumption || reflexivity || discriminate).
  replace (P ++ "api/guides" ++ "/" ++ T) with ((P ++ "api/guides/") ++ T)
    by (rewrite app_assoc; reflexivity).
  rewrite join2_name; [|exact T1|exact T2|apply json_name_no_slash].
  rewrite app_assoc. reflexivity.
Qed.

(** The relative path in the record of a guide leads, from the output
    directory, to the file written for the guide. *)
Lemma guide_relative_path_joins (output_dir guide_file : string) :
  OsPath.join output_dir [guide_relative_path guide_file] =
  guide_output_path output_dir guide_file.
Proof.
  rewrite guide_output_path_eq. cbn [OsPath.join fold_left].
  now apply join2_prefix.
Qed.

End PathFacts.

Module LoopFacts.
Import Py Re Script Spec Out More StrFacts RunFacts TitleFacts.

Lemma bind_ret {A B} (m : M A) (k : A -> M B) (st st' : state) (a : A) :
  m st = (Ret a, st') -> bind m k st = k a st'.
Proof. intros H. unfold bind. now rewrite H. Qed.

Lemma bind_raise {A B} (m : M A) (k : A -> M B) (st st' : state) (e : exn) :
  m st = (Raise e, st') -> bind m k st = (Raise e, st').
Proof. intros H. unfold bind. now rewrite H. Qed.

Lemma bind_exit {A B} (m : M A) (k : A -> M B) (st st' : state) (c : Z) :
  m st = (SysExit c, st') -> bind m k st = (SysExit c, st').
Proof. intros H. unfold bind. now rewrite H. Qed.

Lemma makedirs_ok (w : world) (path : string) (st : state) :
  mkdir_ok w path = true -> makedirs w path st = (Ret tt, with_dir path st).
Proof. intros H. unfold makedirs. now rewrite H. Qed.

Lemma makedirs_fails (w : world) (path : string) (st : state) :
  mkdir_ok w path = false -> makedirs w path st = (Raise OSError, st).
Proof. intros H. unfold makedirs. now rewrite H. Qed.

Lemma write_file_ok (w : world) (path : string) (c : file_content) (st : state) :
  write_ok w path = true -> write_file w path c st = (Ret tt, with_file path c st).
Proof. intros H. unfold write_file. now rewrite H. Qed.

(** A guide file that can be read: its title is the first heading, or
    the name of the file without [.md]. *)
Lemma process_guide_markdown_read (w : world) (file_path text : string)
    (st : state) :
  read_text w file_path = Some text ->
  process_guide_markdown w file_path st =
  (Ret (Some {| title := guide_title file_path text;
                content := strip_comments text |}), st).
Proof.
  intros H. unfold process_guide_markdown, try_except, bind, read_file.
  rewrite H. cbn [ret]. unfold guide_title.
  rewrite <- title_is_first_heading.
  now destruct (search multiline title_pattern (strip_comments text)).
Qed.

(** A guide file that cannot be read: the error is printed and the
    function returns [None]. *)
Lemma process_guide_markdown_unread (w : world) (file_path : string)
    (st : state) :
  read_text w file_path = None ->
  process_guide_markdown w file_path st =
  (Ret None, logged (ErrorProcessingGuide file_path) st).
Proof.
  intros H. unfold process_guide_markdown, try_except, bind, read_file.
  now rewrite H.
Qed.

(** One turn of the loop. *)
Lemma emit_guide_run (w : world) (dir : string) (acc : list generated_guide)
    (guide_file : string) (st : state) :
  emit_ok w dir guide_file = true ->
  emit_guide w dir acc guide_file st =
  (Ret (acc ++ generated_of w [guide_file])%list, emitted w dir st guide_file).
Proof.
  unfold emit_ok, emitted, generated_of, emit_guide. cbn [flat_map]. cbv zeta.
  fold (guide_output_path_in dir guide_file).
  destruct (read_text w guide_file) as [text|] eqn:R.
  - intros [Hm Hw]%andb_true_iff.
    rewrite (bind_ret _ _ _ _ _ (process_guide_markdown_read w _ _ st R)).
    rewrite (bind_ret _ _ _ _ _ (makedirs_ok w _ st Hm)).
    rewrite (bind_ret _ _ _ _ _ (write_file_ok w _ _ _ Hw)).
    reflexivity.
  - intros _.
    rewrite (bind_ret _ _ _ _ _ (process_guide_markdown_unread w _ st R)).
    cbn [ret List.app]. now rewrite List.app_nil_r.
Qed.

Lemma generated_of_app (w : world) (l1 l2 : list string) :
  generated_of w (l1 ++ l2) = (generated_of w l1 ++ generated_of w l2)%list.
Proof. apply flat_map_app. Qed.

(** The whole loop. *)
Lemma emit_guides_run (w : world) (dir : string) (guide_files : list string)
    (acc : list generated_guide) (st : state) :
  forallb (emit_ok w dir) guide_files = true ->
  for_each (emit_guide w dir) guide_files acc st =
  (Ret (acc ++ generated_of w guide_files)%list,
   fold_left (emitted w dir) guide_files st).
Proof.
  revert acc st; induction guide_files as [|f l IH]; intros acc st H.
  - cbn [for_each fold_left generated_of flat_map ret].
    now rewrite List.app_nil_r.
  - cbn [forallb] in H. apply andb_true_iff in H as [Hf Hl].
    cbn [for_each fold_left].
    rewrite (bind_ret _ _ _ _ _ (emit_guide_run w dir acc f st Hf)).
    rewrite (IH _ _ Hl). rewrite <- List.app_assoc.
    now rewrite <- generated_of_app.
Qed.

(** The loop writes files and makes directories; it leaves the files of
    other paths alone. *)
Lemma emitted_frame (w : world) (dir : string) (guide_files : list string)
    (st : state) (path : string) :
  (forall f, In f guide_files -> guide_output_path_in dir f <> path) ->
  get_file (files_of (fold_left (emitted w dir) guide_files st)) path =
  get_file (files_of st) path.
Proof.
  revert st; induction guide_files as [|f l IH]; intros st H; [reflexivity|].
  cbn [fold_left]. rewrite IH by (intros; apply H; now right).
  unfold emitted. destruct (read_text w f); [|reflexivity].
  unfold files_of. cbn [logged with_file with_dir st_fs files].
  apply get_set_other. intros E. apply (H f); [now left | now symmetry].
Qed.

End LoopFacts.

Module ApiFacts.
Import Py Re Script Spec Out More StrFacts RunFacts TitleFacts LoopFacts.

(** The output directories are made one after the other. *)
Lemma output_dirs_made (w : world) (readme_path output_dir : string)
    {B} (k : M B) (st : state) :
  forallb (mkdir_ok w) (output_dirs output_dir) = true ->
  (print (LookingForGuides (guides_dir w readme_path)) ;;
   makedirs w (OsPath.join output_dir ["api"]) ;;
   makedirs w (OsPath.join (OsPath.join output_dir ["api"]) ["guides"]) ;;
   for_each (fun _ guide_type =>
               makedirs w (OsPath.join
                             (OsPath.join (OsPath.join output_dir ["api"])
                                ["guides"]) [guide_type]))
            guide_types tt ;;
   k) st =
  k (prepared w readme_path output_dir st).
Proof.
  unfold output_dirs, prepared, api_guides_dir. cbn [forallb fold_left].
  rewrite !andb_true_iff. intros [H1 [H2 [H3 [H4 [H5 [H6 _]]]]]].
  cbn [for_each guide_types].
  rewrite (bind_ret _ _ _ _ _ eq_refl : bind (print _) _ st = _).
  fold (logged (LookingForGuides (guides_dir w readme_path)) st).
  rewrite (bind_ret _ _ _ _ _ (makedirs_ok w _ _ H1)).
  rewrite (bind_ret _ _ _ _ _ (makedirs_ok w _ _ H2)).
  erewrite (bind_ret (bind _ _)); [reflexivity|].
  rewrite (bind_ret _ _ _ _ _ (makedirs_ok w _ _ H3)).
  rewrite (bind_ret _ _ _ _ _ (makedirs_ok w _ _ H4)).
  rewrite (bind_ret _ _ _ _ _ (makedirs_ok w _ _ H5)).
  rewrite (bind_ret _ _ _ _ _ (makedirs_ok w _ _ H6)).
  reflexivity.
Qed.

Lemma list_guide_files_run (w : world) (dir : string) (st : state) :
  listing_ok w dir = true ->
  list_guide_files w dir st = (Ret (listed_files w dir), st).
Proof.
  unfold listing_ok, list_guide_files, listed_files.
  destruct (path_exists w dir); [|reflexivity].
  destruct (listdir w dir); [reflexivity | discriminate].
Qed.

(** [generate_api] when the README holds the marker and the world lets
    every directory be made and every file be written. *)
Lemma generate_api_run (w : world) (readme_path output_dir text : string)
    (st : state) :
  read_text w readme_path = Some text ->
  str_in golden_rules (strip_comments text) = true ->
  world_ok w readme_path output_dir = true ->
  generate_api w readme_path output_dir st =
  (Ret (generated_of w (listed_files w (guides_dir w readme_path))),
   api_state w readme_path output_dir text st).
Proof.
  intros Hr Hm. unfold world_ok. rewrite !andb_true_iff.
  intros [[[[Hd Hl] He] Hg] Hi].
  unfold generate_api. cbv zeta.
  fold (guides_dir w readme_path) in *.
  rewrite (output_dirs_made w readme_path output_dir _ st Hd).
  set (st0 := prepared w readme_path output_dir st).
  assert (R : try_except (read_file w readme_path)
                (fun _ => print ErrorReadingReadme ;; sys_exit 1) st0 =
              (Ret text, st0)).
  { unfold try_except, read_file. now rewrite Hr. }
  rewrite (bind_ret _ _ _ _ _ R).
  assert (F : (find (strip_comments text) golden_rules =? -1)%Z = false).
  { apply Z.eqb_neq. intros E. apply find_absent in E. congruence. }
  rewrite F.
  rewrite (bind_ret _ _ _ _ _ eq_refl : bind (ret tt) _ st0 = _).
  rewrite (bind_ret _ _ _ _ _ (list_guide_files_run w _ st0 Hl)).
  fold (api_guides_dir output_dir).
  rewrite (bind_ret _ _ _ _ _ (emit_guides_run w _ _ [] st0 He)).
  cbn [List.app].
  fold (guide_json_path output_dir).
  rewrite (bind_ret _ _ _ _ _ (write_file_ok w _ _ _ Hg)).
  unfold create_index_html. cbv zeta. fold (index_html_path output_dir).
  unfold bind at 1. unfold print at 1.
  unfold bind at 1. unfold bind at 1.
  rewrite (write_file_ok w _ _ _ Hi).
  reflexivity.
Qed.

End ApiFacts.

Module OutputFacts.
Import Py Re Script Spec Out More StrFacts RunFacts PathFacts LoopFacts
  ApiFacts.

Lemma string_app_inv_head (p a b : string) : p ++ a = p ++ b -> a = b.
Proof.
  induction p as [|c p IH]; cbn [append]; [exact (fun H => H)|].
  intros H. injection H as H. now apply IH.
Qed.

Lemma guide_json_path_eq (output_dir : string) :
  guide_json_path output_dir = dir_prefix output_dir ++ "api/guide.json".
Proof.
  unfold guide_json_path, OsPath.join. cbn [fold_left].
  rewrite (join2_prefix output_dir "api") by reflexivity.
  now rewrite join2_name by (reflexivity || discriminate).
Qed.

Lemma index_html_path_eq (output_dir : string) :
  index_html_path output_dir = dir_prefix output_dir ++ "index.html".
Proof.
  unfold index_html_path, OsPath.join. cbn [fold_left]. now apply join2_prefix.
Qed.

Lemma manifest_path_eq (output_dir : string) :
  manifest_path output_dir = dir_prefix output_dir ++ "manifest.json".
Proof.
  unfold manifest_path, OsPath.join. cbn [fold_left]. now apply join2_prefix.
Qed.




(** ** What the steps leave of the files *)

Lemma files_of_logged (e : event) (st : state) :
  files_of (logged e st) = files_of st.
Proof. reflexivity. Qed.

Lemma files_of_with_dir (d : string) (st : state) :
  files_of (with_dir d st) = files_of st.
Proof. reflexivity. Qed.

Lemma files_of_prepared (w : world) (readme_path output_dir : string)
    (st : state) :
  files_of (prepared w readme_path output_dir st) = files_of st.
Proof. reflexivity. Qed.



(** The log only grows. *)
Lemma emitted_log (w : world) (dir : string) (guide_files : list string)
    (st : state) (e : event) :
  In e (st_log st) -> In e (st_log (fold_left (emitted w dir) guide_files st)).
Proof.
  revert st; induction guide_files as [|f l IH]; intros st H; [exact H|].
  cbn [fold_left]. apply IH. unfold emitted.
  destruct (read_text w f); cbn [logged st_log with_file with_dir];
    apply in_or_app; now left.
Qed.

(** The output tree after the loop does not depend on the log. *)
Lemma emitted_fs (w : world) (dir : string) (guide_files : list string)
    (st st' : state) :
  st_fs st = st_fs st' ->
  st_fs (fold_left (emitted w dir) guide_files st) =
  st_fs (fold_left (emitted w dir) guide_files st').
Proof.
  revert st st'; induction guide_files as [|f l IH]; intros st st' H;
    [exact H|].
  cbn [fold_left]. apply IH. unfold emitted.
  destruct (read_text w f); cbn [logged with_file with_dir st_fs];
    now rewrite H.
Qed.

(** ** Failures before the guides *)

Lemma output_dirs_fail (w : world) (readme_path output_dir : string)
    {B} (k : M B) (st : state) :
  forallb (mkdir_ok w) (output_dirs output_dir) = false ->
  exists st',
    (print (LookingForGuides (guides_dir w readme_path)) ;;
     makedirs w (OsPath.join output_dir ["api"]) ;;
     makedirs w (OsPath.join (OsPath.join output_dir ["api"]) ["guides"]) ;;
     for_each (fun _ guide_type =>
                 makedirs w (OsPath.join
                               (OsPath.join (OsPath.join output_dir ["api"])
                                  ["guides"]) [guide_type]))
              guide_types tt ;;
     k) st = (Raise OSError, st') /\
    files_of st' = files_of st /\
    st_log st' =
    (st_log st ++ [LookingForGuides (guides_dir w readme_path)])%list.
Proof.
  unfold output_dirs, api_guides_dir. cbn [forallb for_each guide_types].
  intros H. unfold bind, makedirs, print, ret.
  repeat match goal with
         | |- context [mkdir_ok w ?d] =>
             destruct (mkdir_ok w d); cbn [andb] in H;
             [|eexists; repeat split; reflexivity]
         end.
  discriminate.
Qed.

End OutputFacts.

Module GuideFacts.
Import Py Re Script Spec Out More StrFacts ManifestFacts SortFacts
  IndexFacts PathFacts LoopFacts TitleFacts.

Lemma index_rows_of_listed (guides : list generated_guide) :
  index_rows guides =
  (fixed_rows ++ map index_row_of (listed_guides guides))%list.
Proof.
  rewrite index_rows_listed. f_equal. unfold listed_guides.
  induction guide_type_order as [|t order IH]; [reflexivity|].
  cbn [flat_map]. rewrite map_app, IH. f_equal.
  apply map_ext_in. intros g Hg.
  apply (Permutation_in _ (sort_by_name_perm _)) in Hg.
  apply filter_In in Hg as [_ Hg]. unfold of_type in Hg.
  apply String.eqb_eq in Hg. unfold index_row_of. now rewrite Hg.
Qed.

(** The types of guides are the types of the index. *)
Lemma infer_guide_type_listed (path : string) :
  In (infer_guide_type path) guide_type_order.
Proof.
  unfold infer_guide_type, guide_type_order.
  repeat match goal with
         | |- context [if ?b then _ else _] => destruct b
         end; cbn [In]; tauto.
Qed.

Lemma generated_of_types (w : world) (guide_files : list string) :
  Forall (fun g => In (g_type g) guide_type_order) (generated_of w guide_files).
Proof.
  apply Forall_forall. intros g Hg. unfold generated_of in Hg.
  apply in_flat_map in Hg as [f [_ Hg]].
  destruct (read_text w f); [|contradiction].
  destruct Hg as [<-|[]]. apply infer_guide_type_listed.
Qed.

(** A heading holds no line break. *)
Lemma heading_one_line (content t : string) :
  first_heading content = Some t -> str_in (String nl "") t = false.
Proof.
  unfold first_heading. pose proof (split_pieces nl content) as H.
  induction H as [|l ls Hl _ IH]; cbn [heading_of_lines]; [discriminate|].
  destruct (startswith l "# "); [|exact IH].
  intros [= E]. rewrite <- E. exact (str_in_drop _ 2 l Hl).
Qed.

(** A needle found in a directory is found in the paths under it. *)
Lemma ci_occurs_under (needle dir name : string) :
  ci_occurs needle dir -> startswith name "/" = false ->
  ci_occurs needle (OsPath.join2 dir name).
Proof.
  intros [pre [mid [post [-> Hm]]]] Hn.
  rewrite join2_prefix by exact Hn. unfold dir_prefix.
  exists pre, mid.
  destruct (String.eqb _ "" || endswith _ "/").
  - exists (post ++ name). split; [now rewrite !app_assoc | exact Hm].
  - exists (post ++ "/" ++ name). split; [now rewrite !app_assoc | exact Hm].
Qed.

End GuideFacts.

Module CommentFacts.
Import Py Re Script Spec Cont Out More StrFacts ReFacts TitleFacts.

(** The greedy [.*] before [$] takes the rest of the line. *)
Lemma any_star_eol (u : string) (p : option ascii) (gs : list string) :
  exists q,
    star_greedy (atom_ok multiline Any) eol_k p gs u =
    Some {| prev := q; rest := after_line u; groups := gs |}.
Proof.
  revert p; induction u as [|c u IH]; intros p.
  - exists p. reflexivity.
  - cbn [star_greedy after_line atom_ok multiline DOTALL orb].
    destruct (Ascii.eqb c nl) eqn:E; cbn [negb].
    + exists p. unfold eol_k. cbn [rmatch at_eol rest multiline MULTILINE].
      rewrite E. reflexivity.
    + destruct (IH (Some c)) as [q ->]. now exists q.
Qed.

Lemma slashes_k_at (u : string) (p : option ascii) (gs : list string) :
  slashes_k {| prev := p; rest := u; groups := gs |} =
  if startswith u "//"
  then star_greedy (atom_ok multiline Any) eol_k (Some "/"%char) gs (drop 2 u)
  else None.
Proof.
  unfold slashes_k. cbn [seq lit rmatch rest prev groups atom_ok startswith].
  destruct u as [|a u]; [reflexivity|].
  destruct (Ascii.eqb_spec "/" a) as [<-|_]; cbn [andb]; [|reflexivity].
  destruct u as [|b u]; [reflexivity|].
  destruct (Ascii.eqb_spec "/" b) as [<-|_]; cbn [andb drop]; reflexivity.
Qed.

Lemma space_not_slash (c : ascii) (u : string) :
  isspace c = true -> startswith (String c u) "//" = false.
Proof.
  intros H. cbn [startswith].
  destruct (Ascii.eqb_spec "/" c) as [<-|]; [discriminate | reflexivity].
Qed.

(** The greedy [\s*] before [//] takes all the whitespace there is. *)
Lemma space_star (u : string) (p : option ascii) (gs : list string) :
  exists q,
    star_greedy isspace slashes_k p gs u =
    slashes_k {| prev := q; rest := skip_spaces u; groups := gs |}.
Proof.
  revert p; induction u as [|c u IH]; intros p.
  - exists p. reflexivity.
  - cbn [star_greedy skip_spaces]. destruct (isspace c) eqn:E.
    + destruct (IH (Some c)) as [q Hq]. exists q. rewrite Hq.
      destruct (slashes_k {| prev := q; rest := skip_spaces u; groups := gs |});
        [reflexivity|].
      rewrite slashes_k_at, space_not_slash by exact E. reflexivity.
    + now exists p.
Qed.

(** One attempt of [line_comment_pattern]. *)
Lemma line_comment_match (p : option ascii) (s : string) :
  match_at multiline line_comment_pattern false p s =
  if line_comment_at s
  then Some {| m_text := captured s (after_comment s);
               m_groups := [];
               m_after := after_comment s |}
  else None.
Proof.
  unfold match_at. cbn [andb].
  change (fun st : mstate => Some st) with (@Some mstate).
  unfold line_comment_pattern.
  change (seq [Plus Greedy Space; lit "//"; Star Greedy Any; Eol])
    with (Seq (Plus Greedy Space) (seq [lit "//"; Star Greedy Any; Eol])).
  cbn [rmatch rest prev groups star atom_ok].
  fold slashes_k.
  destruct s as [|c s]; [reflexivity|].
  unfold line_comment_at, after_comment. cbn [skip_spaces].
  destruct (isspace c) eqn:E; cbn [andb]; [|reflexivity].
  change (atom_ok multiline Space) with isspace.
  destruct (space_star s (Some c) []) as [q ->].
  rewrite slashes_k_at.
  destruct (startswith (skip_spaces s) "//"); [|reflexivity].
  destruct (any_star_eol (drop 2 (skip_spaces s)) (Some "/"%char) [])
    as [q' ->].
  reflexivity.
Qed.

Lemma skip_spaces_suffix (s : string) : exists a, s = a ++ skip_spaces s.
Proof.
  induction s as [|c s [a IH]]; [now exists ""|].
  cbn [skip_spaces]. destruct (isspace c); [|now exists ""].
  exists (String c a). cbn [append]. now f_equal.
Qed.

(** A line comment and what follows it. *)
Lemma line_comment_split (s : string) :
  line_comment_at s = true ->
  exists a, s = a ++ after_comment s /\ 3 <= length a.
Proof.
  destruct s as [|c s]; [discriminate|].
  unfold line_comment_at, after_comment. cbn [skip_spaces].
  intros [Hc Hs]%andb_true_iff. rewrite Hc.
  destruct (skip_spaces_suffix s) as [a Ha].
  apply startswith_drop in Hs. cbn [length] in Hs.
  exists (String c a ++ "//" ++ line_of (drop 2 (skip_spaces s))). split.
  - rewrite !app_assoc. rewrite <- line_after. rewrite <- Hs.
    cbn [append]. now f_equal.
  - rewrite !length_app. cbn [length]. lia.
Qed.

Lemma line_comment_prev (p1 p2 : option ascii) (t : string) :
  match_at multiline line_comment_pattern false p1 t =
  match_at multiline line_comment_pattern false p2 t.
Proof. now rewrite !line_comment_match. Qed.

Lemma line_comment_nonempty (p : option ascii) (t : string) (m : match_obj) :
  match_at multiline line_comment_pattern false p t = Some m ->
  length (m_text m) <> 0.
Proof.
  rewrite line_comment_match.
  destruct (line_comment_at t) eqn:E; [|discriminate].
  intros [= <-]. cbn [m_text].
  destruct (line_comment_split t E) as [a [Ha Hl]].
  set (r := after_comment t) in *. rewrite Ha, captured_app. lia.
Qed.

(** The scan at the start of a line comment goes on behind it. *)
Lemma scan_line_comment (s : string) (p : option ascii) :
  line_comment_at s = true ->
  exists q,
    kept (scan multiline line_comment_pattern 0 p s) =
    kept (scan multiline line_comment_pattern 0 q (after_comment s)).
Proof.
  intros E. destruct (line_comment_split s E) as [a [Ha Hl]].
  destruct s as [|c s]; [discriminate|].
  cbn [scan]. rewrite line_comment_match, E. cbn [m_text].
  set (r := after_comment (String c s)) in *.
  assert (C : captured (String c s) r = a).
  { rewrite Ha. apply captured_app. }
  rewrite C.
  destruct a as [|c' a]; [cbn in Hl; lia|].
  cbn [length]. rewrite kept_hit.
  cbn [append] in Ha. injection Ha as _ Ha.
  exists (Some c). rewrite Ha.
  now rewrite (scan_skip _ _ a _ (Some c) (Some c) line_comment_prev
                 line_comment_nonempty).
Qed.

Lemma sub_line_comments_kept (s : string) :
  sub multiline line_comment_pattern "" s =
  kept (scan multiline line_comment_pattern 0 None s).
Proof. reflexivity. Qed.

Lemma after_comment_shorter (s : string) :
  line_comment_at s = true -> length (after_comment s) < length s.
Proof.
  intros E. destruct (line_comment_split s E) as [a [Ha Hl]].
  set (r := after_comment s) in *. rewrite Ha, length_app. lia.
Qed.

(** The scan of [re.sub] and the scan of [uncommented] agree. *)
Lemma kept_uncommented (n : nat) (s : string) (p : option ascii) :
  length s <= n ->
  kept (scan multiline line_comment_pattern 0 p s) = uncommented n s.
Proof.
  revert s p; induction n as [|n IH]; intros s p Hn.
  - destruct s; [|cbn in Hn; lia].
    cbn [scan]. now rewrite line_comment_match.
  - destruct s as [|c s].
    + cbn [scan]. now rewrite line_comment_match.
    + cbn [uncommented]. destruct (line_comment_at (String c s)) eqn:E.
      * destruct (scan_line_comment _ p E) as [q ->].
        apply IH. pose proof (after_comment_shorter _ E). lia.
      * cbn [scan]. rewrite line_comment_match, E, kept_plain.
        f_equal. apply IH. cbn [length] in Hn. lia.
Qed.

Lemma has_line_comment_iff (s : string) :
  has_line_comment s = true <-> exists j, line_comment_at (drop j s) = true.
Proof.
  split.
  - induction s as [|c s IH]; [discriminate|].
    cbn [has_line_comment]. intros [H|H]%orb_true_iff.
    + now exists 0.
    + destruct (IH H) as [j Hj]. now exists (S j).
  - intros [j H]. revert s H; induction j as [|j IH]; intros s H.
    + destruct s; cbn [drop has_line_comment] in *; [discriminate|].
      now rewrite H.
    + destruct s as [|c s]; [discriminate|].
      cbn [drop] in H. cbn [has_line_comment]. rewrite (IH s H).
      apply orb_true_r.
Qed.

(** A text without a line comment is left as it is. *)
Lemma kept_no_line_comment (s : string) (p : option ascii) :
  has_line_comment s = false ->
  kept (scan multiline line_comment_pattern 0 p s) = s.
Proof.
  revert p; induction s as [|c s IH]; intros p H; cbn [scan].
  - now rewrite line_comment_match.
  - cbn [has_line_comment] in H. apply orb_false_iff in H as [H1 H2].
    rewrite line_comment_match, H1, kept_plain. f_equal. now apply IH.
Qed.

(** A text with a line comment gets shorter by three characters or
    more. *)
Lemma kept_line_comment_shorter (s : string) (p : option ascii) :
  has_line_comment s = true ->
  length (kept (scan multiline line_comment_pattern 0 p s)) + 3 <= length s.
Proof.
  revert p; induction s as [|c s IH]; intros p H; [discriminate|].
  destruct (line_comment_at (String c s)) eqn:E.
  - destruct (scan_line_comment _ p E) as [q ->].
    destruct (line_comment_split _ E) as [a [Ha Hl]].
    pose proof (kept_le multiline line_comment_pattern
                  (after_comment (String c s)) 0 q) as Hle.
    set (r := after_comment (String c s)) in *.
    rewrite Ha, length_app. lia.
  - cbn [has_line_comment] in H. rewrite E in H. cbn [orb] in H.
    cbn [scan]. rewrite line_comment_match, E, kept_plain.
    cbn [length]. specialize (IH (Some c) H). lia.
Qed.

End CommentFacts.

Module NameFacts.
Import Py Re Script Spec Cont Out More StrFacts ReplaceFacts ReFacts
  ManifestFacts PathFacts LoopFacts GuideFacts.

(** ** Single characters in texts *)

Lemma str_in_char_app (c : ascii) (a b : string) :
  str_in (String c "") (a ++ b) =
  str_in (String c "") a || str_in (String c "") b.
Proof.
  induction a as [|x a IH]; cbn [append].
  - destruct b; reflexivity.
  - cbn [str_in startswith]. rewrite IH, !andb_true_r.
    now rewrite orb_assoc.
Qed.

(** A path with a slash, cut at its last slash. *)
Lemma last_slash (p : string) :
  str_in "/" p = true ->
  exists a b, p = a ++ String "/" b /\ str_in "/" b = false.
Proof.
  induction p as [|c p IH]; [discriminate|]. intros H.
  destruct (str_in "/" p) eqn:E.
  - destruct (IH eq_refl) as [a [b [-> Hb]]]. now exists (String c a), b.
  - cbn [str_in startswith] in H. rewrite E, andb_true_r, orb_false_r in H.
    apply Ascii.eqb_eq in H as <-. now exists "", p.
Qed.

(** A path ends as its last component does, for an ending without a
    slash. *)
Lemma endswith_basename (p e : string) :
  str_in "/" e = false ->
  endswith (OsPath.basename p) e = endswith p e.
Proof.
  intros He. unfold OsPath.basename.
  destruct (str_in "/" p) eqn:E.
  - destruct (last_slash p E) as [a [b [-> Hb]]].
    rewrite last_piece_app by exact Hb.
    destruct (Nat.le_gt_cases (length e) (length b)) as [Hl|Hl].
    + change (a ++ String "/" b) with (a ++ "/" ++ b).
      rewrite <- app_assoc. now rewrite endswith_app.
    + destruct (endswith b e) eqn:Eb.
      { apply endswith_iff in Eb as [x ->]. rewrite length_app in Hl. lia. }
      destruct (endswith (a ++ String "/" b) e) eqn:Ep; [|reflexivity].
      apply endswith_iff in Ep as [x Hx].
      assert (Hlen : length x <= length a).
      { apply (f_equal length) in Hx. rewrite !length_app in Hx.
        cbn [length] in Hx. lia. }
      pose proof (f_equal (drop (length a)) Hx) as Hd.
      rewrite drop_app in Hd. rewrite drop_app_ge in Hd by exact Hlen.
      apply (str_in_drop _ (length a - length x)) in He.
      rewrite <- Hd in He. discriminate.
  - now rewrite split_no_sep.
Qed.

(** ** Replacing at the end of a name *)

(** The [.md] at the end of a name is replaced, whatever comes before
    it. *)
Lemma replace_md_end (new y : string) (k : nat) :
  k <= length y ->
  exists z, replace_from ".md" new k (y ++ ".md") = z ++ new.
Proof.
  revert k; induction y as [|c y IH]; intros k Hk.
  - cbn [length] in Hk. replace k with 0 by lia.
    exists "". cbn. now rewrite app_nil_r.
  - cbn [append replace_from]. destruct k as [|k].
    + destruct (startswith (String c (y ++ ".md")) ".md") eqn:E.
      * assert (Hy : startswith (String c y) ".md" = true).
        { destruct (startswith (String c y) ".md") eqn:E'; [reflexivity|].
          pose proof (md_not_straddling c y "" E') as H.
          cbn [append] in H. congruence. }
        apply startswith_iff in Hy as [t Ht].
        cbn [append] in Ht. injection Ht as _ ->.
        destruct (IH 2) as [z Hz]; [cbn; lia|].
        exists (new ++ z). cbn [length Nat.sub]. rewrite Hz.
        now rewrite app_assoc.
      * destruct (IH 0) as [z Hz]; [lia|].
        exists (String c z). now rewrite Hz.
    + apply IH. cbn [length] in Hk. lia.
Qed.

(** The name of a JSON file made from a name that ends with [.md] ends
    with the new ending. *)
Lemma replace_md_endswith (new s : string) :
  endswith s ".md" = true ->
  endswith (replace s ".md" new) new = true.
Proof.
  intros [y ->]%endswith_iff. unfold replace.
  destruct (replace_md_end new y 0) as [z ->]; [lia|].
  apply endswith_iff. now exists z.
Qed.

(** Replacing [.md] by [.json] brings no slash. *)
Lemma replace_md_slash (s : string) (k : nat) :
  str_in "/" s = false ->
  str_in "/" (replace_from ".md" ".json" k s) = false.
Proof.
  revert k; induction s as [|c s IH]; intros k Hs; [reflexivity|].
  pose proof (str_in_head _ _ _ Hs) as Hh. apply str_in_tail in Hs.
  cbn [replace_from]. destruct k as [|k]; [|now apply IH].
  destruct (startswith (String c s) ".md").
  - change (str_in "/" (".json" ++ replace_from ".md" ".json" 2 s) = false).
    rewrite (str_in_char_app "/"), IH by exact Hs. reflexivity.
  - cbn [startswith] in Hh. cbn [str_in startswith].
    rewrite Hh, IH by exact Hs. reflexivity.
Qed.

(** The last component of the path of a record is the name of the JSON
    file of the guide. *)
Lemma record_file_name (guide_file : string) :
  last_piece (split "/" (guide_relative_path guide_file)) =
  replace (OsPath.basename guide_file) ".md" ".json".
Proof.
  unfold guide_relative_path.
  change ("api/guides/" ++ (infer_guide_type guide_file ++ "s") ++ "/" ++
          replace (OsPath.basename guide_file) ".md" ".json")
    with ("api/guides/" ++ (infer_guide_type guide_file ++ "s") ++
          String "/" (replace (OsPath.basename guide_file) ".md" ".json")).
  rewrite <- app_assoc. apply last_piece_app.
  apply replace_md_slash, basename_no_slash.
Qed.

(** ** The ending [.json] *)

Lemma json_not_straddling (c : ascii) (p r : string) :
  startswith (String c p) ".json" = false ->
  startswith (String c (p ++ ".json" ++ r)) ".json" = false.
Proof.
  cbn [startswith].
  destruct (Ascii.eqb "." c); cbn [andb]; [|reflexivity].
  destruct p as [|d p]; cbn [append startswith]; [reflexivity|].
  destruct (Ascii.eqb "j" d); cbn [andb]; [|reflexivity].
  destruct p as [|e p]; cbn [append startswith]; [reflexivity|].
  destruct (Ascii.eqb "s" e); cbn [andb]; [|reflexivity].
  destruct p as [|f p]; cbn [append startswith]; [reflexivity|].
  destruct (Ascii.eqb "o" f); cbn [andb]; [|reflexivity].
  destruct p as [|g p]; cbn [append startswith]; [reflexivity|].
  destruct (Ascii.eqb "n" g); cbn [andb]; [|reflexivity].
  destruct p; cbn [startswith]; discriminate.
Qed.

Lemma replace_json_piece (new p r : string) :
  str_in ".json" p = false ->
  replace_from ".json" new 0 (p ++ ".json" ++ r) =
  p ++ new ++ replace_from ".json" new 0 r.
Proof.
  induction p as [|c p IH]; intros H.
  - cbn [append]. apply (replace_from_hit "." "json").
  - cbn [append]. rewrite replace_from_miss.
    + f_equal. apply IH. eapply str_in_tail; eauto.
    + apply json_not_straddling. eapply str_in_head; eauto.
Qed.

(** ** The manifest *)

Lemma dict_set_absent (d : list (string * json)) (key : string) (v : json) :
  dict_get d key = None -> dict_set d key v = (d ++ [(key, v)])%list.
Proof.
  induction d as [|[k v0] d IH]; cbn [dict_get dict_set List.app];
    [reflexivity|].
  destruct (String.eqb k key); [discriminate|]. intros H. now rewrite IH.
Qed.

End NameFacts.

Module DirFacts.
Import Py Re Script Spec Cont Out More StrFacts PathFacts.

Lemma list_ascii_app (a b : string) :
  list_ascii_of_string (a ++ b) =
  (list_ascii_of_string a ++ list_ascii_of_string b)%list.
Proof.
  induction a as [|c a IH]; cbn [append list_ascii_of_string List.app];
    [reflexivity | now rewrite IH].
Qed.

(** The directory of a file in a directory whose name ends with
    something else than a slash. *)
Lemma dirname_file (a : string) (c : ascii) (f : string) :
  c <> "/"%char -> str_in "/" f = false ->
  OsPath.dirname ((a ++ String c "") ++ "/" ++ f) = a ++ String c "".
Proof.
  intros Hc Hf. unfold OsPath.dirname, OsPath.basename.
  change ((a ++ String c "") ++ "/" ++ f)
    with ((a ++ String c "") ++ String "/" f).
  rewrite last_piece_app by exact Hf.
  replace ((a ++ String c "") ++ String "/" f)
    with (((a ++ String c "") ++ "/") ++ f) by now rewrite !app_assoc.
  rewrite length_app, Nat.add_sub, take_app.
  assert (E : Ascii.eqb c "/" = false) by now apply Ascii.eqb_neq.
  unfold OsPath.all_slashes.
  rewrite !list_ascii_app, !forallb_app. cbn [list_ascii_of_string forallb].
  rewrite E. cbn [andb]. rewrite andb_false_r. cbn [andb].
  rewrite !rev_app_distr. cbn [rev List.app OsPath.rstrip_slash_rev].
  rewrite E, Ascii.eqb_refl. change (c :: rev (list_ascii_of_string a))
    with (rev [c] ++ rev (list_ascii_of_string a))%list.
  rewrite <- rev_app_distr, rev_involutive.
  change [c] with (list_ascii_of_string (String c "")).
  now rewrite <- list_ascii_app, string_of_list_ascii_of_string.
Qed.

(** The directory made for the output of a guide is the directory of
    its type in the plural. *)
Lemma dirname_guide_output (dir guide_file : string) :
  OsPath.dirname (guide_output_path_in dir guide_file) =
  OsPath.join dir [infer_guide_type guide_file ++ "s"].
Proof.
  unfold guide_output_path_in, OsPath.join. cbn [fold_left].
  destruct (type_dir guide_file) as [T1 [T2 T3]].
  rewrite (join2_prefix dir _ T3).
  rewrite <- app_assoc.
  rewrite join2_name; [|discriminate|reflexivity|apply json_name_no_slash].
  rewrite <- app_assoc.
  apply dirname_file; [discriminate|].
  apply NameFacts.replace_md_slash, basename_no_slash.
Qed.

End DirFacts.

Module ParentFacts.
Import Py Re Script Spec Cont Out More StrFacts PathFacts NameFacts DirFacts.

(** ** Lengths of the parts of a path *)

Lemma length_take (n : nat) (s : string) : length (take n s) <= n.
Proof.
  revert s; induction n as [|n IH]; intros [|c s]; cbn [take length];
    try lia. specialize (IH s). lia.
Qed.

Lemma length_list_ascii (s : string) :
  List.length (list_ascii_of_string s) = length s.
Proof. induction s as [|c s IH]; cbn; [reflexivity | now rewrite IH]. Qed.

Lemma length_of_list_ascii (l : list ascii) :
  length (string_of_list_ascii l) = List.length l.
Proof. induction l as [|c l IH]; cbn; [reflexivity | now rewrite IH]. Qed.

Lemma length_rstrip (r : list ascii) :
  List.length (OsPath.rstrip_slash_rev r) <= List.length r.
Proof.
  induction r as [|c r IH]; cbn [OsPath.rstrip_slash_rev List.length]; [lia|].
  destruct (Ascii.eqb c "/"); cbn [List.length]; lia.
Qed.

Lemma basename_length (p : string) :
  length (OsPath.basename p) <= length p.
Proof.
  unfold OsPath.basename. destruct (str_in "/" p) eqn:E.
  - destruct (last_slash p E) as [a [b [-> Hb]]].
    rewrite last_piece_app by exact Hb. rewrite length_app. cbn [length]. lia.
  - now rewrite split_no_sep.
Qed.

(** The head and the tail of a path are not longer than the path. *)
Lemma dirname_length (p : string) :
  length (OsPath.dirname p) + length (OsPath.basename p) <= length p.
Proof.
  pose proof (basename_length p) as Hb. unfold OsPath.dirname.
  pose proof (length_take (length p - length (OsPath.basename p)) p) as Ht.
  destruct (OsPath.all_slashes _); [lia|].
  rewrite length_of_list_ascii, length_rev.
  pose proof (length_rstrip
                (rev (list_ascii_of_string
                        (take (length p - length (OsPath.basename p)) p))))
    as Hr.
  rewrite length_rev, length_list_ascii in Hr. lia.
Qed.

(** ** The way up of [os.makedirs] *)

(** More fuel than the length of the path changes nothing. *)
Lemma parents_fuel (n m : nat) (name : string) :
  length name <= n -> length name <= m ->
  OsPath.parents n name = OsPath.parents m name.
Proof.
  revert m name; induction n as [|n IH]; intros m name Hn Hm.
  - destruct name; [|cbn in Hn; lia].
    destruct m; reflexivity.
  - destruct m as [|m].
    + destruct name; [reflexivity | cbn in Hm; lia].
    + cbn [OsPath.parents].
      set (name' := if String.eqb (OsPath.basename name) ""
                    then OsPath.dirname name else name).
      assert (Hl : length name' <= length name).
      { subst name'. destruct (String.eqb _ ""); [|lia].
        pose proof (dirname_length name). lia. }
      destruct (String.eqb_spec (OsPath.dirname name') "") as [|Hh];
        [reflexivity|].
      destruct (String.eqb_spec (OsPath.basename name') "") as [|Ht];
        [reflexivity|].
      cbn [orb]. f_equal.
      pose proof (dirname_length name') as Hd.
      assert (0 < length (OsPath.basename name')).
      { destruct (OsPath.basename name'); [congruence | cbn; lia]. }
      apply IH; lia.
Qed.

(** The way up from a file or directory in a directory whose name ends
    with something else than a slash. *)
Lemma made_by_makedirs_in (a : string) (c : ascii) (f : string) :
  c <> "/"%char -> f <> "" -> str_in "/" f = false ->
  OsPath.made_by_makedirs ((a ++ String c "") ++ "/" ++ f) =
  List.app (OsPath.made_by_makedirs (a ++ String c ""))
           [(a ++ String c "") ++ "/" ++ f].
Proof.
  intros Hc Hf Hs. unfold OsPath.made_by_makedirs. f_equal.
  set (p := (a ++ String c "") ++ "/" ++ f).
  assert (Hb : OsPath.basename p = f).
  { unfold OsPath.basename, p.
    change ((a ++ String c "") ++ "/" ++ f)
      with ((a ++ String c "") ++ String "/" f).
    now apply last_piece_app. }
  assert (Hd : OsPath.dirname p = a ++ String c "")
    by now apply dirname_file.
  assert (Hl : length p = S (length (a ++ String c "") + length f)).
  { unfold p. rewrite !length_app. cbn [length]. lia. }
  rewrite Hl. cbn [OsPath.parents]. rewrite Hb.
  destruct (String.eqb_spec f "") as [|_]; [congruence|].
  rewrite Hd, Hb.
  destruct (String.eqb_spec (a ++ String c "") "") as [E|_].
  { apply (f_equal length) in E. rewrite length_app in E. cbn in E. lia. }
  destruct (String.eqb_spec f "") as [|_]; [congruence|].
  cbn [orb]. f_equal. apply parents_fuel; lia.
Qed.

(** ** Directories that are there *)

Lemma in_add_dir (l : list string) (d x : string) :
  In x (add_dir l d) <-> In x l \/ x = d.
Proof.
  unfold add_dir. destruct (existsb (String.eqb d) l) eqn:E.
  - split; [now left|]. intros [H| ->]; [exact H|].
    apply existsb_exists in E as [y [Hy E]].
    apply String.eqb_eq in E. now subst.
  - rewrite in_app_iff. cbn [In]. intuition.
Qed.

Lemma in_add_dirs (ds l : list string) (x : string) :
  In x (fold_left add_dir ds l) <-> In x l \/ In x ds.
Proof.
  revert l; induction ds as [|d ds IH]; intros l; cbn [fold_left In].
  - tauto.
  - rewrite IH, in_add_dir. intuition.
Qed.

End ParentFacts.

Module ConfinedFacts.
Import Py Re Script Spec Cont Out More StrFacts RunFacts PathFacts
  OutputFacts DirFacts ParentFacts.

Section Confined.

Variable output_dir : string.
Variable st0 : state.

Lemma confined_refl : confined output_dir st0 st0.
Proof. split; [reflexivity | now left]. Qed.

Lemma confined_logged (e : event) (st : state) :
  confined output_dir st0 st -> confined output_dir st0 (logged e st).
Proof. exact (fun H => H). Qed.

Lemma confined_with_dir (path : string) (st : state) :
  (forall d, In d (OsPath.made_by_makedirs path) -> allowed output_dir d) ->
  confined output_dir st0 st -> confined output_dir st0 (with_dir path st).
Proof.
  intros Hd [Hf Hdirs]. split; [exact Hf|].
  intros x. cbn [with_dir st_fs dirs]. rewrite in_add_dirs.
  intros [Hx|Hx]; [now apply Hdirs | right; now apply Hd].
Qed.

Lemma confined_with_file (path : string) (c : file_content) (st : state) :
  startswith path (dir_prefix output_dir) = true ->
  confined output_dir st0 st -> confined output_dir st0 (with_file path c st).
Proof.
  intros Hp [Hf Hdirs]. split; [|exact Hdirs].
  intros x Hx. unfold files_of. cbn [with_file st_fs files].
  rewrite get_set_other by (intros ->; congruence).
  now apply Hf.
Qed.

(** ** The steps of the script, one by one *)

Lemma keeps_ret {A} (a : A) : keeps output_dir st0 (ret a).
Proof. intros st H. exact H. Qed.

Lemma keeps_raise {A} (e : exn) : keeps output_dir st0 (@raise A e).
Proof. intros st H. exact H. Qed.

Lemma keeps_sys_exit {A} (c : Z) : keeps output_dir st0 (@sys_exit A c).
Proof. intros st H. exact H. Qed.

Lemma keeps_print (e : event) : keeps output_dir st0 (print e).
Proof. intros st H. exact H. Qed.

Lemma keeps_bind {A B} (m : M A) (k : A -> M B) :
  keeps output_dir st0 m -> (forall a, keeps output_dir st0 (k a)) ->
  keeps output_dir st0 (bind m k).
Proof.
  intros Hm Hk st H. apply wp_bind.
  eapply wp_conseq; [exact (Hm st H)|].
  intros [a|e|c] st' H'; cbn [then_wp]; [now apply Hk | exact H' | exact H'].
Qed.

Lemma keeps_try_except {A} (body : M A) (handler : exn -> M A) :
  keeps output_dir st0 body -> (forall e, keeps output_dir st0 (handler e)) ->
  keeps output_dir st0 (try_except body handler).
Proof.
  intros Hb Hh st H. apply wp_try_except.
  eapply wp_conseq; [exact (Hb st H)|].
  intros [a|e|c] st' H'; [exact H' | now apply Hh | exact H'].
Qed.

Lemma keeps_makedirs (w : world) (path : string) :
  (forall d, In d (OsPath.made_by_makedirs path) -> allowed output_dir d) ->
  keeps output_dir st0 (makedirs w path).
Proof.
  intros Hd st H. apply wp_makedirs; intros _; [|exact H].
  now apply confined_with_dir.
Qed.

Lemma keeps_write_file (w : world) (path : string) (c : file_content) :
  startswith path (dir_prefix output_dir) = true ->
  keeps output_dir st0 (write_file w path c).
Proof.
  intros Hp st H. apply wp_write_file; intros _; [|exact H].
  now apply confined_with_file.
Qed.

Lemma keeps_read_file (w : world) (path : string) :
  keeps output_dir st0 (read_file w path).
Proof. intros st H. apply wp_read_file; intros; exact H. Qed.

Lemma keeps_lift {A} (r : raises A) : keeps output_dir st0 (lift r).
Proof. intros st H. apply wp_lift. now destruct r. Qed.

Lemma keeps_for_each {A B} (body : B -> A -> M B) (l : list A) (acc : B) :
  (forall acc a, keeps output_dir st0 (body acc a)) ->
  keeps output_dir st0 (for_each body l acc).
Proof.
  intros Hb. revert acc; induction l as [|a l IH]; intros acc.
  - apply keeps_ret.
  - cbn [for_each]. apply keeps_bind; [apply Hb | exact IH].
Qed.

(** ** The paths of the script lie under the output directory *)

Lemma under_prefix (rel : string) :
  startswith (dir_prefix output_dir ++ rel) (dir_prefix output_dir) = true.
Proof. apply startswith_app. Qed.

Lemma guide_output_under (guide_file : string) :
  startswith (guide_output_path_in (api_guides_dir output_dir) guide_file)
             (dir_prefix output_dir) = true.
Proof.
  fold (guide_output_path output_dir guide_file).
  rewrite guide_output_path_eq. apply under_prefix.
Qed.

Lemma api_dir_eq :
  OsPath.join output_dir ["api"] = dir_prefix output_dir ++ "api".
Proof. unfold OsPath.join. cbn [fold_left]. now apply join2_prefix. Qed.

Lemma api_guides_dir_eq :
  api_guides_dir output_dir = dir_prefix output_dir ++ "api/guides".
Proof.
  unfold api_guides_dir. rewrite api_dir_eq. unfold OsPath.join.
  cbn [fold_left]. now rewrite join2_name by (reflexivity || discriminate).
Qed.

Lemma type_dir_eq (name : string) :
  startswith name "/" = false ->
  OsPath.join (api_guides_dir output_dir) [name] =
  dir_prefix output_dir ++ "api/guides/" ++ name.
Proof.
  intros H. rewrite api_guides_dir_eq. unfold OsPath.join. cbn [fold_left].
  rewrite join2_name by (exact H || reflexivity || discriminate).
  reflexivity.
Qed.

(** ** The directories of the script are under the output directory or
    on the way up from [api] *)

Lemma allowed_api :
  forall d, In d (OsPath.made_by_makedirs (OsPath.join output_dir ["api"])) ->
            allowed output_dir d.
Proof.
  intros d. unfold OsPath.made_by_makedirs.
  intros [H|[<-|[]]]%in_app_or; [now right|].
  left. rewrite api_dir_eq. apply under_prefix.
Qed.

Lemma allowed_api_guides :
  forall d, In d (OsPath.made_by_makedirs (api_guides_dir output_dir)) ->
            allowed output_dir d.
Proof.
  intros d. rewrite api_guides_dir_eq.
  replace (dir_prefix output_dir ++ "api/guides")
    with (((dir_prefix output_dir ++ "ap") ++ "i") ++ "/" ++ "guides")
    by (rewrite !app_assoc; reflexivity).
  rewrite made_by_makedirs_in by (reflexivity || discriminate).
  replace ((dir_prefix output_dir ++ "ap") ++ "i")
    with (OsPath.join output_dir ["api"])
    by (rewrite api_dir_eq, app_assoc; reflexivity).
  intros [H|[<-|[]]]%in_app_or; [now apply allowed_api|].
  left. rewrite api_dir_eq, !app_assoc. apply under_prefix.
Qed.

Lemma allowed_type_dir (name : string) :
  name <> "" -> str_in "/" name = false ->
  forall d,
    In d (OsPath.made_by_makedirs
            (OsPath.join (api_guides_dir output_dir) [name])) ->
    allowed output_dir d.
Proof.
  intros Hn Hs d.
  assert (H0 : startswith name "/" = false).
  { destruct name as [|c name]; [reflexivity|].
    now apply str_in_head in Hs. }
  rewrite type_dir_eq by exact H0.
  replace (dir_prefix output_dir ++ "api/guides/" ++ name)
    with (((dir_prefix output_dir ++ "api/guide") ++ "s") ++ "/" ++ name)
    by (rewrite !app_assoc; reflexivity).
  rewrite made_by_makedirs_in by (assumption || discriminate).
  replace ((dir_prefix output_dir ++ "api/guide") ++ "s")
    with (api_guides_dir output_dir)
    by (rewrite api_guides_dir_eq, app_assoc; reflexivity).
  intros [H|[<-|[]]]%in_app_or; [now apply allowed_api_guides|].
  left. rewrite api_guides_dir_eq, !app_assoc. apply under_prefix.
Qed.

Lemma type_dir_no_slash (p : string) :
  str_in "/" (infer_guide_type p ++ "s") = false.
Proof.
  unfold infer_guide_type.
  repeat match goal with
         | |- context [if ?b then _ else _] => destruct b
         end; reflexivity.
Qed.

Lemma allowed_guide_dir (guide_file : string) :
  forall d,
    In d (OsPath.made_by_makedirs
            (OsPath.dirname
               (guide_output_path_in (api_guides_dir output_dir) guide_file))) ->
    allowed output_dir d.
Proof.
  rewrite dirname_guide_output.
  apply allowed_type_dir; [apply type_dir | apply type_dir_no_slash].
Qed.

End Confined.

End ConfinedFacts.

Module KeepsFacts.
Import Py Re Script Spec Cont Out More StrFacts RunFacts PathFacts
  OutputFacts DirFacts ConfinedFacts.

Ltac keeps_step :=
  lazymatch goal with
  | |- keeps _ _ (bind _ _) => apply keeps_bind; [|intros ?]
  | |- keeps _ _ (ret _) => apply keeps_ret
  | |- keeps _ _ (raise _) => apply keeps_raise
  | |- keeps _ _ (sys_exit _) => apply keeps_sys_exit
  | |- keeps _ _ (print _) => apply keeps_print
  | |- keeps _ _ (read_file _ _) => apply keeps_read_file
  | |- keeps _ _ (lift _) => apply keeps_lift
  | |- keeps _ _ (try_except _ _) => apply keeps_try_except; [|intros ?]
  | |- keeps _ _ (for_each _ _ _) => apply keeps_for_each; intros ? ?
  | |- keeps _ _ (if ?b then _ else _) => destruct b
  | |- keeps _ _ (match ?x with Some _ => _ | None => _ end) => destruct x
  end.

Section Run.

Variable json_loads : string -> option json.
Variable w : world.
Variables readme_path output_dir : string.
Variable st0 : state.

Lemma keeps_process_guide_markdown (file_path : string) :
  keeps output_dir st0
    (process_guide_markdown w file_path).
Proof. unfold process_guide_markdown. cbv zeta. repeat keeps_step. Qed.

Lemma keeps_emit_guide (acc : list generated_guide) (guide_file : string) :
  keeps output_dir st0
    (emit_guide w (api_guides_dir output_dir) acc guide_file).
Proof.
  unfold emit_guide. cbv zeta.
  fold (guide_output_path_in (api_guides_dir output_dir) guide_file).
  apply keeps_bind; [apply keeps_process_guide_markdown|].
  intros [data|]; [|apply keeps_ret].
  repeat keeps_step.
  - apply keeps_makedirs, allowed_guide_dir.
  - apply keeps_write_file, guide_output_under.
Qed.

Lemma keeps_list_guide_files (dir : string) :
  keeps output_dir st0
    (list_guide_files w dir).
Proof. unfold list_guide_files. repeat keeps_step. Qed.

Lemma keeps_create_index_html (guides : list generated_guide) :
  keeps output_dir st0
    (create_index_html w output_dir guides).
Proof.
  unfold create_index_html. cbv zeta. fold (index_html_path output_dir).
  repeat keeps_step. apply keeps_write_file.
  rewrite index_html_path_eq. apply under_prefix.
Qed.

Lemma keeps_generate_api :
  keeps output_dir st0
    (generate_api w readme_path output_dir).
Proof.
  unfold generate_api. cbv zeta. fold (api_guides_dir output_dir).
  fold (guide_json_path output_dir). cbn [for_each guide_types].
  repeat keeps_step.
  - apply keeps_makedirs, allowed_api.
  - apply keeps_makedirs, allowed_api_guides.
  - apply keeps_makedirs, allowed_type_dir; [discriminate | reflexivity].
  - apply keeps_makedirs, allowed_type_dir; [discriminate | reflexivity].
  - apply keeps_makedirs, allowed_type_dir; [discriminate | reflexivity].
  - apply keeps_makedirs, allowed_type_dir; [discriminate | reflexivity].
  - apply keeps_list_guide_files.
  - apply keeps_emit_guide.
  - apply keeps_write_file. rewrite guide_json_path_eq. apply under_prefix.
  - apply keeps_create_index_html.
Qed.

Lemma keeps_generate_mcp_manifest (guides : list generated_guide) :
  keeps output_dir st0
    (generate_mcp_manifest json_loads w
               (OsPath.dirname (abspath w readme_path)) output_dir guides).
Proof.
  unfold generate_mcp_manifest. cbv zeta. fold (manifest_path output_dir).
  repeat keeps_step.
  apply keeps_write_file. rewrite manifest_path_eq. apply under_prefix.
Qed.

Lemma keeps_create_guide_json :
  keeps output_dir st0
    (create_guide_json json_loads w readme_path output_dir).
Proof.
  unfold create_guide_json.
  apply keeps_bind; [apply keeps_generate_api|]. intros guides.
  apply keeps_bind; [apply keeps_generate_mcp_manifest|]. intros _.
  intros st H. exact H.
Qed.

End Run.

End KeepsFacts.

Module StatusFacts.
Import Py Re Script Spec Cont Out More StrFacts ReFacts RunFacts RunOutcomes
  OutputFacts.

(** A reference is made of a link to a guide. *)
Lemma reference_fields (content : string) (r : reference) :
  In r (extract_references content) ->
  r = reference_of (ref_name r, ref_path r) /\
  is_guide_link (ref_name r, ref_path r) = true.
Proof.
  unfold extract_references, extract_references_at.
  rewrite extract_fold. cbn [List.app].
  intros [[name path] [<- [_ Hl]%filter_In]]%in_map_iff.
  now split.
Qed.

(** How a run can end, and what is there when it ends well. *)
Lemma create_guide_json_status (json_loads : string -> option json)
    (w : world) (readme_path output_dir : string) (st : state) :
  wp (create_guide_json json_loads w readme_path output_dir)
     (fun o st' =>
        (exit_status o = 0%Z \/ exit_status o = 1%Z) /\
        (exit_status o = 0%Z ->
         In Success (st_log st') /\
         (exists c, get_file (files_of st') (guide_json_path output_dir)
                    = Some (JsonFile c)) /\
         (exists rows, get_file (files_of st') (index_html_path output_dir)
                       = Some (IndexHtml rows)))) st.
Proof.
  apply wp_create_guide_json, wp_generate_api_start.
  - intros st' _. split; [now right | discriminate].
  - intros st' _. split; [now right | discriminate].
  - intros text st' _ _ _. apply wp_generate_api_rest.
    + intros e st1. split; [now right | discriminate].
    + intros guides st1 _ _ st2 Hstep. split; [now left|]. intros _.
      destruct (manifest_step_frame _ _ _ _ _ _ _ Hstep) as [_ Hframe].
      unfold files_of at 1 2. cbn [logged st_fs st_log]. fold (files_of st2).
      split; [|split].
      * apply in_or_app. left.
        destruct Hstep; unfold api_done; cbn [logged st_log with_file];
          rewrite ?in_app_iff; cbn [In]; tauto.
      * rewrite Hframe by apply guide_json_not_manifest.
        unfold files_of, api_done. cbn [logged with_file st_fs files].
        rewrite get_set_other by apply guide_json_not_index.
        rewrite get_set_same. eauto.
      * rewrite Hframe by apply index_not_manifest.
        unfold files_of, api_done. cbn [logged with_file st_fs files].
        rewrite get_set_same. eauto.
Qed.

End StatusFacts.

Module StripFacts.
Import Py Re Script Spec Cont Out More StrFacts ReFacts.

(** The lazy [.*?] before [-->] stops at the first [-->]. *)
Lemma close_star (u : string) (p : option ascii) (gs : list string) :
  star_lazy (atom_ok dotall Any) comment_k p gs u =
  match after_close u with
  | Some behind => Some {| prev := Some ">"%char; rest := behind; groups := gs |}
  | None => None
  end.
Proof.
  revert p; induction u as [|c u IH]; intros p.
  - reflexivity.
  - cbn [star_lazy after_close]. rewrite comment_k_at.
    destruct (startswith (String c u) "-->"); [reflexivity|].
    cbn [atom_ok dotall DOTALL orb]. apply IH.
Qed.

(** One attempt of [comment_pattern]. *)
Lemma comment_match (p : option ascii) (s : string) :
  match_at dotall comment_pattern false p s =
  if startswith s "<!--" then
    match after_close (drop 4 s) with
    | Some behind => Some {| m_text := captured s behind;
                             m_groups := [];
                             m_after := behind |}
    | None => None
    end
  else None.
Proof.
  unfold match_at. cbn [andb].
  change (fun st : mstate => Some st) with (@Some mstate).
  rewrite comment_rmatch.
  destruct (startswith s "<!--"); [|reflexivity].
  rewrite close_star. now destruct (after_close (drop 4 s)).
Qed.

Lemma after_close_split (u behind : string) :
  after_close u = Some behind -> exists a, u = a ++ "-->" ++ behind.
Proof.
  induction u as [|c u IH]; cbn [after_close].
  - discriminate.
  - destruct (startswith (String c u) "-->") eqn:E.
    + intros [= <-]. exists "". exact (startswith_drop _ _ E).
    + intros H. destruct (IH H) as [a ->]. now exists (String c a).
Qed.

(** A comment block and what follows it. *)
Lemma comment_split (s behind : string) :
  startswith s "<!--" = true -> after_close (drop 4 s) = Some behind ->
  exists a, s = a ++ behind /\ 7 <= length a.
Proof.
  intros Hs Hc. apply startswith_drop in Hs. cbn [length] in Hs.
  destruct (after_close_split _ _ Hc) as [a Ha].
  exists ("<!--" ++ a ++ "-->"). split.
  - rewrite Hs at 1. rewrite Ha. now rewrite !app_assoc.
  - rewrite !length_app. cbn [length]. lia.
Qed.

Lemma comment_prev (p1 p2 : option ascii) (t : string) :
  match_at dotall comment_pattern false p1 t =
  match_at dotall comment_pattern false p2 t.
Proof. now rewrite !comment_match. Qed.

Lemma comment_nonempty (p : option ascii) (t : string) (m : match_obj) :
  match_at dotall comment_pattern false p t = Some m ->
  length (m_text m) <> 0.
Proof.
  rewrite comment_match.
  destruct (startswith t "<!--") eqn:E; [|discriminate].
  destruct (after_close (drop 4 t)) as [behind|] eqn:C; [|discriminate].
  intros [= <-]. cbn [m_text].
  destruct (comment_split t behind E C) as [a [Ha Hl]].
  rewrite Ha, captured_app. lia.
Qed.

(** The scan at the start of a comment block goes on behind it. *)
Lemma scan_comment (s behind : string) (p : option ascii) :
  startswith s "<!--" = true -> after_close (drop 4 s) = Some behind ->
  exists q,
    kept (scan dotall comment_pattern 0 p s) =
    kept (scan dotall comment_pattern 0 q behind).
Proof.
  intros E C. destruct (comment_split s behind E C) as [a [Ha Hl]].
  destruct s as [|c s]; [discriminate|].
  cbn [scan]. rewrite comment_match, E, C. cbn [m_text].
  assert (Hcap : captured (String c s) behind = a).
  { rewrite Ha. apply captured_app. }
  rewrite Hcap.
  destruct a as [|c' a]; [cbn in Hl; lia|].
  cbn [length]. rewrite kept_hit.
  cbn [append] in Ha. injection Ha as _ Ha.
  exists (Some c). rewrite Ha.
  now rewrite (scan_skip _ _ a _ (Some c) (Some c) comment_prev
                 comment_nonempty).
Qed.

(** The scan of [re.sub] and the pass of [uncomment] agree. *)
Lemma kept_uncomment (n : nat) (s : string) (p : option ascii) :
  length s <= n ->
  kept (scan dotall comment_pattern 0 p s) = uncomment n s.
Proof.
  revert s p; induction n as [|n IH]; intros s p Hn.
  - destruct s; [|cbn in Hn; lia].
    cbn [scan]. now rewrite comment_match.
  - destruct s as [|c s].
    + cbn [scan]. now rewrite comment_match.
    + cbn [uncomment].
      destruct (startswith (String c s) "<!--") eqn:E.
      * destruct (after_close (drop 4 (String c s))) as [behind|] eqn:C.
        -- destruct (scan_comment _ _ p E C) as [q ->].
           apply IH. destruct (comment_split _ _ E C) as [a [Ha Hl]].
           apply (f_equal length) in Ha. rewrite length_app in Ha. lia.
        -- cbn [scan]. rewrite comment_match, E, C, kept_plain.
           f_equal. apply IH. cbn [length] in Hn. lia.
      * cbn [scan]. rewrite comment_match, E, kept_plain.
        f_equal. apply IH. cbn [length] in Hn. lia.
Qed.

(** [strip_comments] is the pass from left to right. *)
Lemma strip_comments_pass (s : string) :
  strip_comments s = without_comments s.
Proof. rewrite strip_comments_kept. now apply kept_uncomment. Qed.

End StripFacts.

Module ExtensionFacts.
Import Py Re Script Spec Cont Out More StrFacts PathFacts.

(** Pieces put together again. *)
Lemma join_split (sep : ascii) (s : string) :
  join (String sep "") (split sep s) = s.
Proof.
  induction s as [|c s IH]; [reflexivity|].
  cbn [split]. destruct (Ascii.eqb_spec c sep) as [->|Hc].
  - pose proof (split_not_nil sep s) as Hn.
    destruct (split sep s) as [|p ps]; [congruence|].
    change (join (String sep "") ("" :: p :: ps))
      with ("" ++ String sep "" ++ join (String sep "") (p :: ps)).
    now rewrite IH.
  - pose proof (split_not_nil sep s) as Hn.
    destruct (split sep s) as [|p ps]; [congruence|].
    destruct ps as [|q ps].
    + cbn [join] in *. now rewrite IH.
    + change (join (String sep "") (String c p :: q :: ps))
        with (String c (p ++ String sep "" ++ join (String sep "") (q :: ps))).
      f_equal. exact IH.
Qed.

(** A name with an extension that holds no dot. *)
Lemma without_extension_app (stem ext : string) :
  str_in "." ext = false ->
  without_extension (stem ++ String "." ext) = stem.
Proof.
  intros H. unfold without_extension.
  rewrite split_app_sep, (split_no_sep "." ext H), rev_app_distr.
  cbn [rev List.app].
  pose proof (split_not_nil "." stem) as Hn.
  destruct (rev (split "." stem)) as [|x l] eqn:E.
  - apply (f_equal (@rev string)) in E. rewrite rev_involutive in E.
    cbn in E. congruence.
  - rewrite <- E, rev_involutive. apply join_split.
Qed.

End ExtensionFacts.

(* ================================================================== *)
(** * The claims of the specification *)

Module Claims.
Import Py Re Script Spec Cont Out Demo.
Import StrFacts ReplaceFacts ReFacts LinkFacts ManifestFacts RunFacts RunOutcomes.
Import More PathFacts ApiFacts NameFacts StripFacts ExtensionFacts.

(** ** C1 *)

(** C1.  For every content, [extract_references] returns exactly one
    Reference record per markdown link [[name](path)] of the content
    whose path contains [guides] and ends with [.md], in the
    left-to-right order of the links, with the fields [name], [path],
    [type = infer_guide_type path] and
    [apiUrl = api/guides/{type}s/{basename with .md replaced by .json}];
    the other links give no record.  The links of a content are found
    from left to right, each search starting behind the link before; a
    link at a position is the text bracket, name, [](], path, closing
    parenthesis, where name and path hold no line break, the path no
    closing parenthesis, and no [](] starts inside the name. *)
Theorem extract_references_guide_links (content : string) :
  extract_references content =
  map reference_of (filter is_guide_link (markdown_links content)) /\
  List.length (extract_references content) =
  List.length (filter is_guide_link (markdown_links content)) /\
  (forall s name path after,
      link_at s = Some (name, path, after) <->
      s = "[" ++ name ++ "](" ++ path ++ ")" ++ after /\
      str_in (String nl "") name = false /\
      str_in (String nl "") path = false /\
      str_in ")" path = false /\
      forall j, j < length name -> startswith (drop (S j) s) "](" = false).
Proof.
  assert (E : extract_references content =
              map reference_of (filter is_guide_link (markdown_links content))).
  { unfold extract_references, extract_references_at.
    rewrite extract_fold, finditer_links. reflexivity. }
  split; [exact E|]. split; [rewrite E; apply length_map|].
  exact link_at_iff.
Qed.

(** On the README of the repository. *)
Lemma extract_references_of_readme :
  extract_references (strip_comments readme_text) =
  map reference_of
      (filter is_guide_link (markdown_links (strip_comments readme_text))).
Proof.
  apply (extract_references_guide_links (strip_comments readme_text)).
Defined.

(** The example of the specification. *)
Example extract_references_python :
  extract_references
    (lines ["## The Golden Rules"; "[Python Guide](./docs/guides/python.md)"]) =
  [{| ref_name := "Python Guide";
      ref_path := "./docs/guides/python.md";
      ref_type := "language";
      ref_apiUrl := "api/guides/languages/python.json" |}].
Proof. reflexivity. Qed.

(** ** C2 *)

(** C2, as stated, fails: a path with [shell] and [sql] in it is not a
    platform guide when it also has [python] in it. *)
Lemma shell_and_sql_not_always_platform :
  ~ (forall path,
        ci_occurs "shell" path -> ci_occurs "sql" path ->
        infer_guide_type path = "platform").
Proof.
  intros H.
  specialize (H "docs/guides/python-shell-sql.md").
  assert (infer_guide_type "docs/guides/python-shell-sql.md" = "platform")
    by (apply H; apply str_in_lower; reflexivity).
  discriminate.
Qed.

(** C2, amended.  [infer_guide_type] is total and classifies by
    case-insensitive substring checks in the fixed order python, make,
    postgresql or sql, shell, the first match deciding: language,
    pattern, platform, language, and other when none matches.  So a path
    with both [shell] and [sql] in it, and neither [python] nor [make],
    is a platform guide. *)
Theorem infer_guide_type_first_match (path : string) :
  In (infer_guide_type path) ["language"; "pattern"; "platform"; "other"] /\
  (ci_occurs "python" path -> infer_guide_type path = "language") /\
  (~ ci_occurs "python" path -> ci_occurs "make" path ->
   infer_guide_type path = "pattern") /\
  (~ ci_occurs "python" path -> ~ ci_occurs "make" path ->
   ci_occurs "postgresql" path \/ ci_occurs "sql" path ->
   infer_guide_type path = "platform") /\
  (~ ci_occurs "python" path -> ~ ci_occurs "make" path ->
   ~ ci_occurs "postgresql" path -> ~ ci_occurs "sql" path ->
   ci_occurs "shell" path ->
   infer_guide_type path = "language") /\
  (~ ci_occurs "python" path -> ~ ci_occurs "make" path ->
   ~ ci_occurs "postgresql" path -> ~ ci_occurs "sql" path ->
   ~ ci_occurs "shell" path ->
   infer_guide_type path = "other") /\
  (ci_occurs "shell" path -> ci_occurs "sql" path ->
   ~ ci_occurs "python" path -> ~ ci_occurs "make" path ->
   infer_guide_type path = "platform").
Proof.
  unfold infer_guide_type.
  rewrite <- !str_in_lower.
  destruct (str_in "python" (lower path));
  destruct (str_in "make" (lower path));
  destruct (str_in "postgresql" (lower path));
  destruct (str_in "sql" (lower path));
  destruct (str_in "shell" (lower path));
  cbn [orb In]; intuition congruence.
Qed.

(** On a path that spells both in capitals. *)
Lemma infer_guide_type_shell_sql :
  infer_guide_type "docs/guides/Shell-SQL.md" = "platform".
Proof.
  apply (infer_guide_type_first_match "docs/guides/Shell-SQL.md").
  - exists "docs/guides/", "Shell", "-SQL.md". split; reflexivity.
  - exists "docs/guides/Shell-", "SQL", ".md". split; reflexivity.
  - intros H%str_in_lower. discriminate H.
  - intros H%str_in_lower. discriminate H.
Defined.

(** ** C3 *)

(** C3, as stated, fails twice.  The endpoints added for the guides do
    not follow the order in which the guides were processed: with the
    guides python, make, shell, notes, the shell guide comes before the
    make guide, next to the other language guide.  And the name of an
    endpoint is not always the output file name without its extension:
    the guide file [a.md.md] is written to [a.json.json], whose name
    without extension is [a.json], and its endpoint is named [a]. *)
Lemma manifest_endpoints_not_in_processing_order :
  ~ (forall fields items guides manifest,
        dict_get fields "endpoints" = Some (JArr items) ->
        build_manifest (JObj fields) guides = Ok manifest ->
        manifest =
        JObj (dict_set fields "endpoints"
                (JArr (filter is_main_guide items ++ map endpoint_of guides)))) /\
  ~ (forall guide_file text,
        endpoint_of (guide_record guide_file text) =
        JObj [("name",
               JStr (without_extension
                       (replace (OsPath.basename guide_file) ".md" ".json")));
              ("description",
               JStr (capitalize (infer_guide_type guide_file) ++ " guide for "
                     ++ guide_title guide_file text));
              ("path", JStr ("/" ++ guide_relative_path guide_file))]) /\
  endpoint_of (guide_record "/repo/docs/guides/a.md.md" "Notes") =
  JObj [("name", JStr "a");
        ("description", JStr "Other guide for a");
        ("path", JStr "/api/guides/others/a.json.json")] /\
  without_extension "a.json.json" = "a.json".
Proof.
  split; [|split; [|split; reflexivity]].
  - intros H.
    specialize (H [("version", JInt 1); ("endpoints", JArr [main_guide_endpoint])]
                  [main_guide_endpoint] generated _ eq_refl eq_refl).
    discriminate H.
  - intros H. specialize (H "/repo/docs/guides/a.md.md" "Notes").
    vm_compute in H. discriminate H.
Qed.

(** What [build_manifest] returns for a template whose endpoints are
    objects. *)
Lemma build_manifest_grouped (fields : list (string * json))
    (items : list json) (guides : list generated_guide) :
  dict_get fields "endpoints" = Some (JArr items) ->
  forallb is_object items = true ->
  build_manifest (JObj fields) guides =
  Ok (JObj (dict_set fields "endpoints"
              (JArr (filter is_main_guide items
                     ++ map endpoint_of (grouped guides))))).
Proof.
  intros Hget Hobj. unfold build_manifest. rewrite Hget.
  cbn [py_iter bind_raises]. rewrite (keep_main_guide_objects _ Hobj).
  cbn [bind_raises]. now rewrite guide_endpoints_grouped.
Qed.

(** C3, amended.  The manifest keeps of the template's endpoints only
    the one named [main_guide], first and untouched, and then holds
    exactly one endpoint per generated guide, with name = the output
    file name with every [.json] taken out, which is the file name
    without its extension when the file is [stem.json] and the stem
    holds no [.json]; description = [{Type} guide for {name}] and path =
    [/] + the relative output path.  The added endpoints are grouped by
    guide type: the types in the order in which the processing met them
    first, and within a type the guides in processing order.  With a
    template that holds only [main_guide] and two generated guides the
    manifest has exactly 3 endpoints. *)
Theorem manifest_endpoints_grouped (fields : list (string * json))
    (items : list json) (guides : list generated_guide) :
  dict_get fields "endpoints" = Some (JArr items) ->
  forallb is_object items = true ->
  exists endpoints,
    build_manifest (JObj fields) guides =
    Ok (JObj (dict_set fields "endpoints" (JArr endpoints))) /\
    endpoints = (filter is_main_guide items
                 ++ map endpoint_of (grouped guides))%list /\
    Permutation (grouped guides) guides /\
    (forall g,
        endpoint_of g =
        JObj [("name",
               JStr (replace (last_piece (split "/" (g_path g))) ".json" ""));
              ("description",
               JStr (capitalize (g_type g) ++ " guide for " ++ g_name g));
              ("path", JStr ("/" ++ g_path g))]) /\
    List.length endpoints =
    List.length (filter is_main_guide items) + List.length guides /\
    (forall main a b,
        items = [main] -> is_main_guide main = true -> guides = [a; b] ->
        exists ea eb, endpoints = [main; ea; eb]) /\
    (forall g stem,
        last_piece (split "/" (g_path g)) = stem ++ ".json" ->
        str_in ".json" stem = false ->
        replace (last_piece (split "/" (g_path g))) ".json" "" = stem /\
        without_extension (last_piece (split "/" (g_path g))) = stem).
Proof.
  intros Hget Hobj.
  exists (filter is_main_guide items ++ map endpoint_of (grouped guides))%list.
  split; [now apply build_manifest_grouped|].
  split; [reflexivity|]. split; [apply grouped_members|].
  split; [reflexivity|]. split; [|split].
  - rewrite List.length_app, List.length_map.
    now rewrite (Permutation_length (grouped_members guides)).
  - intros main a b -> Hmain ->. cbn [filter]. rewrite Hmain.
    pose proof (Permutation_length (grouped_members [a; b])) as Hl.
    destruct (grouped [a; b]) as [|x [|y [|z l]]]; try discriminate Hl.
    now exists (endpoint_of x), (endpoint_of y).
  - intros g stem -> Hstem. split.
    + unfold replace.
      change (stem ++ ".json") with (stem ++ ".json" ++ "").
      rewrite (replace_json_piece "" stem "" Hstem).
      cbn [append replace_from]. apply StrFacts.app_nil_r.
    + now apply (without_extension_app stem "json").
Qed.

(** On the template and the guides of the repository. *)
Lemma manifest_endpoints_of_repo :
  exists endpoints,
    build_manifest template_json generated =
    Ok (JObj (dict_set [("version", JInt 1);
                        ("endpoints", JArr [main_guide_endpoint])]
                "endpoints" (JArr endpoints))) /\
    endpoints = (filter is_main_guide [main_guide_endpoint]
                 ++ map endpoint_of (grouped generated))%list.
Proof.
  destruct (manifest_endpoints_grouped
              [("version", JInt 1); ("endpoints", JArr [main_guide_endpoint])]
              [main_guide_endpoint] generated eq_refl eq_refl)
    as [endpoints [H1 [H2 _]]].
  exists endpoints. split; [exact H1 | exact H2].
Defined.

(** ** C5 *)

(** C5, as stated, fails: taking a comment out can put the two halves of
    another one together. *)
Lemma strip_comments_not_idempotent :
  strip_comments (strip_comments "<!<!-- x -->-- y -->") <>
  strip_comments "<!<!-- x -->-- y -->".
Proof. discriminate. Qed.

(** C5, amended.  Comment-stripping takes out, in one pass from left to
    right, every [<!-- ... -->] block it meets: where [<!--] stands and
    a [-->] comes behind it, the text up to the first such [-->] goes,
    and what the pass has put out is not looked at again.  A text comes
    back unchanged exactly when it holds no [<!--] with a [-->] behind
    it, so stripping twice equals stripping once exactly when the text
    stripped once holds no such block. *)
Theorem strip_comments_twice (s : string) :
  strip_comments s = without_comments s /\
  (strip_comments s = s <-> has_comment s = false) /\
  (strip_comments (strip_comments s) = strip_comments s <->
   has_comment (strip_comments s) = false).
Proof.
  split; [apply strip_comments_pass|]. split; apply strip_fixed_iff.
Qed.

(** On a text with one plain comment. *)
Lemma strip_comments_twice_plain :
  strip_comments "a <!-- b --> c" = "a  c" /\
  strip_comments (strip_comments "a <!-- b --> c") =
  strip_comments "a <!-- b --> c".
Proof.
  destruct (strip_comments_twice "a <!-- b --> c") as [H1 [_ [_ H3]]].
  split; [rewrite H1; reflexivity | exact (H3 eq_refl)].
Defined.

(** ** C8 *)

(** C8.  When the manifest is written, what [manifest.json] holds is the
    parsed template with its [endpoints] field replaced: every other
    top-level key has the value it had, and the other fields stand as
    they stood, in their order. *)
Theorem manifest_keeps_other_fields (json_loads : string -> option json)
    (w : world) (readme_path output_dir text : string)
    (fields : list (string * json)) (manifest' : json)
    (guides : list generated_guide) (st : state) :
  read_text w (template_path w readme_path) = Some text ->
  json_loads (sub multiline line_comment_pattern "" text) = Some (JObj fields) ->
  build_manifest (JObj fields) guides = Ok manifest' ->
  write_ok w (manifest_path output_dir) = true ->
  exists fields' st',
    generate_mcp_manifest json_loads w (project_dir w readme_path) output_dir
      guides st = (Ret tt, st') /\
    get_file (files_of st') (manifest_path output_dir) =
    Some (JsonFile (JObj fields')) /\
    (forall key, key <> "endpoints" ->
                 dict_get fields' key = dict_get fields key) /\
    filter (other_than "endpoints") fields' =
    filter (other_than "endpoints") fields /\
    exists endpoints, dict_get fields' "endpoints" = Some (JArr endpoints).
Proof.
  intros Hr Hp Hb Hw.
  assert (Hm : exists endpoints,
             manifest' = JObj (dict_set fields "endpoints" (JArr endpoints))).
  { unfold build_manifest in Hb.
    destruct (py_iter _) as [items|]; [|discriminate].
    cbn [bind_raises] in Hb.
    destruct (keep_main_guide items) as [kept|]; [|discriminate].
    cbn [bind_raises] in Hb. injection Hb as <-. eauto. }
  destruct Hm as [endpoints ->].
  exists (dict_set fields "endpoints" (JArr endpoints)).
  eexists. split.
  - unfold generate_mcp_manifest, try_except, bind, read_file. cbv zeta.
    fold (template_path w readme_path). fold (manifest_path output_dir).
    rewrite Hr. cbn [ret]. rewrite Hp. cbn [ret]. rewrite Hb. cbn [lift ret].
    unfold write_file. rewrite Hw. reflexivity.
  - split; [apply get_set_same|].
    split; [intros key Hk; now apply dict_get_set_other|].
    split; [apply dict_set_others|].
    exists endpoints. apply dict_get_set_same.
Qed.

(** In the repository the [version] of the template passes through. *)
Lemma manifest_of_repo_keeps_version :
  exists fields' st',
    generate_mcp_manifest loads healthy (project_dir healthy "README.md") "out"
      generated start = (Ret tt, st') /\
    get_file (files_of st') (manifest_path "out") =
    Some (JsonFile (JObj fields')) /\
    dict_get fields' "version" = Some (JInt 1).
Proof.
  destruct (manifest_keeps_other_fields loads healthy "README.md" "out"
              template_text
              [("version", JInt 1); ("endpoints", JArr [main_guide_endpoint])]
              _ generated start eq_refl eq_refl eq_refl eq_refl)
    as [fields' [st' [H1 [H2 [H3 _]]]]].
  exists fields', st'. split; [exact H1|]. split; [exact H2|].
  rewrite H3; [reflexivity | discriminate].
Defined.

(** ** C10 *)

(** C10.  The conversion of a file name replaces every [.md] of the
    base name by [.json], not only a trailing one: between pieces free
    of [.md] every [.md] goes, so [a.md.md] gives [a.json.json], as the
    output file name and in the [apiUrl].  In the same way the title
    taken from the file name when the guide has no heading has every
    [.md] removed. *)
Theorem md_replaced_everywhere (parts : list string) (new : string) :
  Forall (fun p => str_in ".md" p = false) parts ->
  replace (join ".md" parts) ".md" new = join new parts /\
  replace "a.md.md" ".md" ".json" = "a.json.json" /\
  replace "a.md.md" ".md" "" = "a" /\
  map ref_apiUrl (extract_references "[A](docs/guides/a.md.md)") =
  ["api/guides/others/a.json.json"] /\
  (forall (w : world) (file_path text : string) (st : state),
      read_text w file_path = Some text ->
      search multiline title_pattern (strip_comments text) = None ->
      process_guide_markdown w file_path st =
      (Ret (Some {| title := replace (OsPath.basename file_path) ".md" "";
                    content := strip_comments text |}), st)) /\
  (forall (w : world) (dir : string) (acc : list generated_guide)
          (guide_file text : string) (st : state),
      read_text w guide_file = Some text ->
      mkdir_ok w (OsPath.dirname (guide_output_path_in dir guide_file)) = true ->
      write_ok w (guide_output_path_in dir guide_file) = true ->
      exists data st',
        emit_guide w dir acc guide_file st =
        (Ret (acc ++ [{| g_name := title data;
                         g_type := infer_guide_type guide_file;
                         g_path := "api/guides/"
                                   ++ (infer_guide_type guide_file ++ "s")
                                   ++ "/"
                                   ++ replace (OsPath.basename guide_file)
                                        ".md" ".json" |}])%list, st') /\
        exists c, get_file (files_of st') (guide_output_path_in dir guide_file)
                  = Some c).
Proof.
  intros Hparts. split; [now apply replace_md_join|].
  split; [reflexivity|]. split; [reflexivity|]. split; [reflexivity|]. split.
  - intros w file_path text st Hr Hs.
    unfold process_guide_markdown, try_except, bind, read_file.
    rewrite Hr. cbn [ret]. now rewrite Hs.
  - intros w dir acc guide_file text st Hr Hd Hw.
    unfold emit_guide, process_guide_markdown, try_except, bind, read_file.
    cbv zeta. fold (guide_output_path_in dir guide_file).
    rewrite Hr. cbn [ret]. unfold makedirs. rewrite Hd.
    unfold write_file. cbn [st_fs files dirs st_log]. rewrite Hw.
    cbn [print st_fs st_log].
    eexists. eexists. split; [reflexivity|].
    eexists. unfold files_of. cbn [st_fs files]. apply get_set_same.
Qed.

(** [a.md.md] is the pieces [a], empty, empty joined with [.md]. *)
Lemma a_md_md_parts :
  replace (join ".md" ["a"; ""; ""]) ".md" ".json" = join ".json" ["a"; ""; ""].
Proof.
  apply (md_replaced_everywhere ["a"; ""; ""] ".json").
  repeat constructor.
Defined.

(** ** C4 *)

(** C4, on the code.  The script makes the directory [other] for the
    guides of type [other], but writes their files under [{type}s], that
    is under [others].  In the repository [healthy], whose guide
    [notes.md] is of type [other], the file goes to
    [api/guides/others/notes.json], nothing is written under
    [api/guides/other/], and [api/guides/] ends up with five
    directories. *)
Theorem other_guide_written_under_others :
  infer_guide_type "/repo/docs/guides/notes.md" = "other" /\
  exists guides st',
    generate_api healthy "README.md" "out" start = (Ret guides, st') /\
    (exists c, get_file (files_of st') "out/api/guides/others/notes.json"
               = Some c) /\
    forallb (fun kv => negb (startswith (fst kv) "out/api/guides/other/"))
            (files_of st') = true /\
    filter (fun d => startswith d "out/api/guides/") (dirs (st_fs st')) =
    ["out/api/guides/languages"; "out/api/guides/patterns";
     "out/api/guides/platforms"; "out/api/guides/other";
     "out/api/guides/others"].
Proof.
  split; [reflexivity|].
  eexists. eexists. split; [vm_compute; reflexivity|].
  split; [eexists; vm_compute; reflexivity|].
  split; vm_compute; reflexivity.
Qed.

(** ** C6 *)

(** C6.  If the text of the root document, comments stripped, does not
    contain [## The Golden Rules], the run ends with exit status 1 and
    has written no file.  (The directories of the output tree are made
    before the document is read; they hold no file.) *)
Theorem no_marker_aborts (json_loads : string -> option json) (w : world)
    (prog readme_path output_dir text : string) (st : state) :
  read_text w readme_path = Some text ->
  str_in golden_rules (strip_comments text) = false ->
  let run := main json_loads w [prog; readme_path; output_dir] st in
  exit_status (fst run) = 1%Z /\
  exit_status (fst run) <> 0%Z /\
  files_of (snd run) = files_of st.
Proof.
  intros Hr Hm run.
  destruct (no_marker_no_files json_loads w readme_path output_dir text st Hr Hm)
    as [H1 H2].
  subst run. cbn [main]. rewrite H1. split; [reflexivity|].
  split; [discriminate | exact H2].
Qed.

(** In the repository, with a README whose only marker sits in a
    comment. *)
Lemma no_marker_in_repo :
  let run := main loads (repo (Some readme_without_marker) (Some template_text) [])
               ["generate_json.py"; "README.md"; "out"] start in
  exit_status (fst run) = 1%Z /\
  exit_status (fst run) <> 0%Z /\
  files_of (snd run) = files_of start.
Proof.
  apply (no_marker_aborts loads
           (repo (Some readme_without_marker) (Some template_text) [])
           "generate_json.py" "README.md" "out" readme_without_marker start);
    reflexivity.
Defined.

(** The directories are there all the same. *)
Example no_marker_directories :
  dirs (st_fs (snd (main loads
                      (repo (Some readme_without_marker) (Some template_text) [])
                      ["generate_json.py"; "README.md"; "out"] start))) =
  ["out"; "out/api"; "out/api/guides"; "out/api/guides/languages";
   "out/api/guides/patterns"; "out/api/guides/platforms";
   "out/api/guides/other"].
Proof. vm_compute. reflexivity. Qed.

(** ** C9 *)



(** ** C7 *)

(** C7.  Once the guides, [guide.json] and [index.html] are written, the
    manifest step cannot fail the run: whatever happens while the
    template is read or parsed or [manifest.json] is written, the run
    returns (exit status 0), and every file other than [manifest.json]
    is as it was before the step; when reading, parsing or writing
    fails, no file changes at all and the error is a line of the log.
    A failed write of [guide.json], of [index.html] or of the JSON file
    of a guide is not caught: the run aborts with exit status 1. *)
Theorem manifest_errors_only_logged (json_loads : string -> option json)
    (w : world) (readme_path output_dir : string) (st : state) :
  (forall guides st1,
      generate_api w readme_path output_dir st = (Ret guides, st1) ->
      exists st2,
        create_guide_json json_loads w readme_path output_dir st = (Ret tt, st2) /\
        exit_status (fst (create_guide_json json_loads w readme_path output_dir st))
        = 0%Z /\
        dirs (st_fs st2) = dirs (st_fs st1) /\
        (forall path, path <> manifest_path output_dir ->
                      get_file (files_of st2) path = get_file (files_of st1) path) /\
        (read_text w (template_path w readme_path) = None \/
         (exists text,
             read_text w (template_path w readme_path) = Some text /\
             (json_loads (sub multiline line_comment_pattern "" text) = None \/
              write_ok w (manifest_path output_dir) = false)) ->
         files_of st2 = files_of st1 /\
         exists e, In (ErrorGeneratingManifest e) (st_log st2))) /\
  (write_ok w (guide_json_path output_dir) = false \/
   write_ok w (index_html_path output_dir) = false \/
   (exists names f text,
       path_exists w (guides_dir w readme_path) = true /\
       listdir w (guides_dir w readme_path) = Some names /\
       In f names /\
       endswith f ".md" = true /\
       isfile w (OsPath.join (guides_dir w readme_path) [f]) = true /\
       read_text w (OsPath.join (guides_dir w readme_path) [f]) = Some text /\
       write_ok w (guide_output_path output_dir
                     (OsPath.join (guides_dir w readme_path) [f])) = false) ->
   aborted (fst (create_guide_json json_loads w readme_path output_dir st)) /\
   exit_status (fst (create_guide_json json_loads w readme_path output_dir st))
   = 1%Z).
Proof.
  split.
  - intros guides st1 H.
    destruct (manifest_step_harmless json_loads _ _ _ _ _ _ H)
      as [st2 [Hrun [Hd [Hf Hfail]]]].
    exists st2. split; [exact Hrun|]. rewrite Hrun.
    split; [reflexivity|]. split; [exact Hd|]. split; [exact Hf | exact Hfail].
  - intros H.
    assert (Ha : aborted (fst (create_guide_json json_loads w readme_path
                                 output_dir st))).
    { destruct H as [H | [H | [names [f [text [He [Hl [Hin [Hmd [Hf [Hr Hw]]]]]]]]]]].
      - now apply guide_json_write_failure.
      - now apply index_html_write_failure.
      - now apply (guide_write_failure json_loads w readme_path output_dir st
                     names f text). }
    split; [exact Ha | now apply aborted_status].
Qed.

(** The repository without its template: the run returns and logs the
    error.  The repository with an [index.html] that cannot be written:
    the run ends with status 1. *)
Lemma repo_without_template_succeeds :
  (exists st2,
      create_guide_json loads (repo (Some readme_text) None []) "README.md" "out"
        start = (Ret tt, st2) /\
      exists e, In (ErrorGeneratingManifest e) (st_log st2)) /\
  exit_status
    (fst (create_guide_json loads
            (repo (Some readme_text) (Some template_text) ["out/index.html"])
            "README.md" "out" start)) = 1%Z.
Proof.
  split.
  - destruct (manifest_errors_only_logged loads
                (repo (Some readme_text) None []) "README.md" "out" start)
      as [H _].
    assert (E : exists guides st1,
               generate_api (repo (Some readme_text) None []) "README.md" "out"
                 start = (Ret guides, st1))
      by (eexists; eexists; vm_compute; reflexivity).
    destruct E as [guides [st1 E]].
    destruct (H guides st1 E) as [st2 [Hrun [_ [_ [_ Hfail]]]]].
    destruct (Hfail (or_introl eq_refl)) as [_ He].
    exists st2. split; [exact Hrun | exact He].
  - destruct (manifest_errors_only_logged loads
                (repo (Some readme_text) (Some template_text) ["out/index.html"])
                "README.md" "out" start)
      as [_ H].
    exact (proj2 (H (or_intror (or_introl eq_refl)))).
Defined.

End Claims.

(* ================================================================== *)
(** * More properties of the script *)

Module Extras.
Import Py Re Script Spec Cont Out Demo More StrFacts ReplaceFacts ReFacts
  ManifestFacts RunFacts RunOutcomes LinkFacts TitleFacts SortFacts
  IndexFacts PathFacts LoopFacts ApiFacts OutputFacts GuideFacts
  CommentFacts NameFacts DirFacts ParentFacts ConfinedFacts KeepsFacts
  StatusFacts.

(** ** The command line *)

(** X1.  Called with anything but two arguments, the script prints its
    usage and exits with status 1; it makes no directory and writes no
    file. *)
Theorem wrong_argument_count (json_loads : string -> option json)
    (w : world) (argv : list string) (st : state) :
  List.length argv <> 3 ->
  main json_loads w argv st = (SysExit 1, logged Usage st).
Proof.
  intros H. destruct argv as [|a [|b [|c [|d argv]]]]; try reflexivity.
  cbn [List.length] in H. congruence.
Qed.

Lemma wrong_argument_count_one_argument :
  List.length ["generate_json.py"; "README.md"] <> 3 /\
  main loads healthy ["generate_json.py"; "README.md"] start =
  (SysExit 1, logged Usage start).
Proof.
  split; [cbn; lia|]. apply wrong_argument_count. cbn. lia.
Defined.

(** ** Failures before the guides *)

(** X2.  A README that cannot be read ends the run with status 1 once
    the output directories are made: the error is printed, and no file
    is written. *)
Theorem unreadable_readme_exits (json_loads : string -> option json)
    (w : world) (readme_path output_dir : string) (st : state) :
  read_text w readme_path = None ->
  forallb (mkdir_ok w) (output_dirs output_dir) = true ->
  create_guide_json json_loads w readme_path output_dir st =
  (SysExit 1, logged ErrorReadingReadme (prepared w readme_path output_dir st)) /\
  files_of (prepared w readme_path output_dir st) = files_of st.
Proof.
  intros Hr Hd. split; [|reflexivity].
  unfold create_guide_json. apply bind_exit.
  unfold generate_api. cbv zeta. fold (guides_dir w readme_path).
  rewrite (output_dirs_made w readme_path output_dir _ st Hd).
  apply bind_exit. unfold try_except, read_file. now rewrite Hr.
Qed.

Lemma unreadable_readme_in_repo :
  read_text (repo None (Some template_text) []) "README.md" = None /\
  forallb (mkdir_ok (repo None (Some template_text) [])) (output_dirs "out")
  = true /\
  create_guide_json loads (repo None (Some template_text) []) "README.md" "out"
    start =
  (SysExit 1,
   logged ErrorReadingReadme
     (prepared (repo None (Some template_text) []) "README.md" "out" start)) /\
  files_of (prepared (repo None (Some template_text) []) "README.md" "out" start)
  = files_of start.
Proof.
  split; [reflexivity|]. split; [reflexivity|].
  apply unreadable_readme_exits; reflexivity.
Defined.

(** X3.  When one of the output directories cannot be made, the
    exception leaves the script: nothing is written, and of the lines of
    the script only the first is printed. *)
Theorem output_directory_failure (json_loads : string -> option json)
    (w : world) (readme_path output_dir : string) (st : state) :
  forallb (mkdir_ok w) (output_dirs output_dir) = false ->
  exists st',
    create_guide_json json_loads w readme_path output_dir st =
    (Raise OSError, st') /\
    files_of st' = files_of st /\
    st_log st' =
    (st_log st ++ [LookingForGuides (guides_dir w readme_path)])%list.
Proof.
  intros Hd. unfold create_guide_json, generate_api. cbv zeta.
  fold (guides_dir w readme_path).
  lazymatch goal with
  | |- context [bind (for_each _ guide_types tt) (fun _ => ?k)] =>
      destruct (output_dirs_fail w readme_path output_dir k st Hd)
        as [st' [E H]]
  end.
  exists st'. split; [|exact H].
  apply bind_raise. exact E.
Qed.

Lemma output_directory_failure_in_repo :
  forallb (mkdir_ok (broken [] ["out/api/guides/patterns"] healthy))
          (output_dirs "out") = false /\
  exists st',
    create_guide_json loads (broken [] ["out/api/guides/patterns"] healthy)
      "README.md" "out" start = (Raise OSError, st') /\
    files_of st' = files_of start /\
    st_log st' =
    (st_log start ++
     [LookingForGuides
        (guides_dir (broken [] ["out/api/guides/patterns"] healthy)
           "README.md")])%list.
Proof.
  split; [reflexivity|]. apply output_directory_failure. reflexivity.
Defined.

(** X4.  When what is at the place of the guides directory exists but
    cannot be listed, the exception leaves the script after the README
    was read: no file is written. *)
Theorem listing_failure (json_loads : string -> option json)
    (w : world) (readme_path output_dir text : string) (st : state) :
  forallb (mkdir_ok w) (output_dirs output_dir) = true ->
  read_text w readme_path = Some text ->
  str_in golden_rules (strip_comments text) = true ->
  path_exists w (guides_dir w readme_path) = true ->
  listdir w (guides_dir w readme_path) = None ->
  create_guide_json json_loads w readme_path output_dir st =
  (Raise OSError, prepared w readme_path output_dir st) /\
  files_of (prepared w readme_path output_dir st) = files_of st.
Proof.
  intros Hd Hr Hm He Hl. split; [|reflexivity].
  unfold create_guide_json. apply bind_raise.
  unfold generate_api. cbv zeta. fold (guides_dir w readme_path).
  rewrite (output_dirs_made w readme_path output_dir _ st Hd).
  set (st0 := prepared w readme_path output_dir st).
  assert (R : try_except (read_file w readme_path)
                (fun _ => print ErrorReadingReadme ;; sys_exit 1) st0 =
              (Ret text, st0)).
  { unfold try_except, read_file. now rewrite Hr. }
  rewrite (bind_ret _ _ _ _ _ R).
  assert (F : (find (strip_comments text) golden_rules =? -1)%Z = false).
  { apply Z.eqb_neq. intros E. apply find_absent in E. congruence. }
  rewrite F.
  rewrite (bind_ret _ _ _ _ _ eq_refl : bind (ret tt) _ st0 = _).
  apply bind_raise. unfold list_guide_files.
  unfold guides_dir, project_dir in He, Hl. now rewrite He, Hl.
Qed.

Lemma listing_failure_in_repo :
  create_guide_json loads (unlistable healthy) "README.md" "out" start =
  (Raise OSError, prepared (unlistable healthy) "README.md" "out" start) /\
  files_of (prepared (unlistable healthy) "README.md" "out" start) =
  files_of start.
Proof.
  apply (listing_failure loads (unlistable healthy) "README.md" "out"
           readme_text start); reflexivity.
Defined.

(** ** Runs that succeed *)





(** X7.  Without a guides directory the run goes through with no guide:
    the index holds its two fixed rows only, and no file is written but
    [guide.json], [index.html] and possibly [manifest.json]. *)
Theorem run_without_guides_directory (json_loads : string -> option json)
    (w : world) (readme_path output_dir text : string) (st : state) :
  read_text w readme_path = Some text ->
  str_in golden_rules (strip_comments text) = true ->
  path_exists w (guides_dir w readme_path) = false ->
  forallb (mkdir_ok w) (output_dirs output_dir) = true ->
  write_ok w (guide_json_path output_dir) = true ->
  write_ok w (index_html_path output_dir) = true ->
  exists st',
    create_guide_json json_loads w readme_path output_dir st = (Ret tt, st') /\
    get_file (files_of st') (index_html_path output_dir) =
    Some (IndexHtml fixed_rows) /\
    forall path,
      path <> guide_json_path output_dir ->
      path <> index_html_path output_dir ->
      path <> manifest_path output_dir ->
      get_file (files_of st') path = get_file (files_of st) path.
Proof.
  intros Hr Hm He Hd Hg Hi.
  assert (Hl : listed_files w (guides_dir w readme_path) = []).
  { unfold listed_files. now rewrite He. }
  assert (Hw : world_ok w readme_path output_dir = true).
  { unfold world_ok, listing_ok. rewrite Hd, He, Hl, Hg, Hi. reflexivity. }
  pose proof (generate_api_run w readme_path output_dir text st Hr Hm Hw) as E.
  destruct (create_guide_json_after_api json_loads _ _ _ _ _ _ E)
    as [st2 [Hstep Hrun]].
  rewrite Hrun. eexists. split; [reflexivity|].
  destruct (manifest_step_frame _ _ _ _ _ _ _ Hstep) as [_ Hframe].
  unfold files_of at 1 2. cbn [logged st_fs]. fold (files_of st2).
  split.
  - rewrite Hframe by apply index_not_manifest.
    unfold files_of, api_state, api_done. cbn [logged with_file st_fs files].
    rewrite get_set_same, Hl. reflexivity.
  - intros path H1 H2 H3. rewrite Hframe by exact H3.
    unfold files_of, api_state, api_done. cbn [logged with_file st_fs files].
    rewrite get_set_other by exact H2.
    rewrite get_set_other by exact H1.
    rewrite Hl. reflexivity.
Qed.

Lemma run_without_guides_directory_in_repo :
  exists st',
    create_guide_json loads (without_guides healthy) "README.md" "out" start =
    (Ret tt, st') /\
    get_file (files_of st') (index_html_path "out") =
    Some (IndexHtml fixed_rows) /\
    forall path,
      path <> guide_json_path "out" ->
      path <> index_html_path "out" ->
      path <> manifest_path "out" ->
      get_file (files_of st') path = get_file (files_of start) path.
Proof.
  apply (run_without_guides_directory loads (without_guides healthy)
           "README.md" "out" readme_text start); reflexivity.
Defined.

(** X8.  A guide file that cannot be read is passed over: the loop goes
    on, the error is printed, and the guides and the output tree are
    those of the listing without that file. *)
Theorem unreadable_guide_skipped (w : world) (dir : string)
    (before after : list string) (guide_file : string) (st : state) :
  read_text w guide_file = None ->
  forallb (emit_ok w dir) (before ++ after) = true ->
  exists st',
    for_each (emit_guide w dir) (before ++ guide_file :: after) [] st =
    (Ret (generated_of w (before ++ after)), st') /\
    In (ErrorProcessingGuide guide_file) (st_log st') /\
    st_fs st' = st_fs (fold_left (emitted w dir) (before ++ after) st) /\
    for_each (emit_guide w dir) (before ++ after) [] st =
    (Ret (generated_of w (before ++ after)),
     fold_left (emitted w dir) (before ++ after) st).
Proof.
  intros Hr Hok.
  assert (Hok' : forallb (emit_ok w dir) (before ++ guide_file :: after) = true).
  { rewrite forallb_app in *. cbn [forallb]. unfold emit_ok at 2.
    rewrite Hr. exact Hok. }
  assert (G : generated_of w (before ++ guide_file :: after) =
              generated_of w (before ++ after)).
  { rewrite !generated_of_app. f_equal.
    unfold generated_of at 1. cbn [flat_map]. now rewrite Hr. }
  rewrite (emit_guides_run w dir _ [] st Hok').
  rewrite (emit_guides_run w dir _ [] st Hok).
  cbn [List.app]. rewrite G.
  eexists. split; [|split; [|split]]; try reflexivity.
  - rewrite fold_left_app. cbn [fold_left]. apply emitted_log.
    unfold emitted at 1. rewrite Hr. cbn [logged st_log].
    apply in_or_app. right. now left.
  - rewrite !fold_left_app. cbn [fold_left]. apply emitted_fs.
    unfold emitted at 1. now rewrite Hr.
Qed.

Lemma unreadable_guide_skipped_in_repo :
  exists st',
    for_each
      (emit_guide (broken ["/repo/docs/guides/make.md"] [] healthy) "out/api/guides")
      (["/repo/docs/guides/python.md"] ++
       "/repo/docs/guides/make.md" :: ["/repo/docs/guides/notes.md"]) [] start =
    (Ret (generated_of (broken ["/repo/docs/guides/make.md"] [] healthy)
            (["/repo/docs/guides/python.md"] ++ ["/repo/docs/guides/notes.md"])),
     st') /\
    In (ErrorProcessingGuide "/repo/docs/guides/make.md") (st_log st').
Proof.
  destruct (unreadable_guide_skipped
              (broken ["/repo/docs/guides/make.md"] [] healthy) "out/api/guides"
              ["/repo/docs/guides/python.md"] ["/repo/docs/guides/notes.md"]
              "/repo/docs/guides/make.md" start eq_refl eq_refl)
    as [st' [H1 [H2 _]]].
  exists st'. split; [exact H1 | exact H2].
Defined.

(** ** The index page *)

(** X9.  The rows of [index.html] are the row of the manifest, the row
    of the main guide, and a row for each guide of the types language,
    pattern, platform and other, in this order of the types; the guides
    of a type are those of the list, put in the order of their names. *)
Theorem index_lists_guides_by_type (guides : list generated_guide) :
  index_rows guides =
  (fixed_rows ++ map index_row_of (listed_guides guides))%list /\
  listed_guides guides =
  flat_map (fun t => sort_by_name (filter (of_type t) guides))
           ["language"; "pattern"; "platform"; "other"] /\
  forall t,
    StronglySorted name_le (sort_by_name (filter (of_type t) guides)) /\
    Permutation (sort_by_name (filter (of_type t) guides))
                (filter (of_type t) guides).
Proof.
  split; [apply index_rows_of_listed|]. split; [reflexivity|].
  intros t. split; [apply sort_by_name_sorted | apply sort_by_name_perm].
Qed.

(** X10.  Every guide the loop over the guide files generates has one
    row in the index, and no row is there for anything else. *)
Theorem index_lists_every_generated_guide (w : world)
    (guide_files : list string) :
  Permutation (listed_guides (generated_of w guide_files))
              (generated_of w guide_files) /\
  List.length (index_rows (generated_of w guide_files)) =
  2 + List.length (generated_of w guide_files).
Proof.
  pose proof (listed_guides_perm _ (generated_of_types w guide_files)) as P.
  split; [exact P|].
  rewrite index_rows_of_listed, List.length_app, List.length_map.
  now rewrite (Permutation_length P).
Qed.

(** X11.  A guide whose type is none of the four is left out of the
    index: the guides listed are those of the four types. *)
Theorem index_leaves_out_other_types (guides : list generated_guide)
    (g : generated_guide) :
  In g (listed_guides guides) <->
  In g guides /\
  In (g_type g) ["language"; "pattern"; "platform"; "other"].
Proof. apply listed_guides_types. Qed.



(** ** Titles *)

(** X13.  The title of a guide file that can be read is the text behind
    [# ] on the first line that begins so, comments removed first, and
    it holds no line break; without such a line it is the name of the
    file without [.md].  The content is the text without comments. *)
Theorem title_of_guide (w : world) (file_path text : string) (st : state) :
  read_text w file_path = Some text ->
  process_guide_markdown w file_path st =
  (Ret (Some {| title := guide_title file_path text;
                content := strip_comments text |}), st) /\
  guide_title file_path text =
  match heading_of_lines (split nl (strip_comments text)) with
  | Some t => t
  | None => replace (OsPath.basename file_path) ".md" ""
  end /\
  forall t, heading_of_lines (split nl (strip_comments text)) = Some t ->
            str_in (String nl "") t = false.
Proof.
  intros H. split; [now apply process_guide_markdown_read|].
  split; [reflexivity|]. intros t. apply heading_one_line.
Qed.

Lemma title_of_guide_in_repo :
  process_guide_markdown healthy "/repo/docs/guides/python.md" start =
  (Ret (Some {| title := "Python Guide";
                content := lines ["# Python Guide"; "Body text."] |}), start).
Proof.
  exact (proj1 (title_of_guide healthy "/repo/docs/guides/python.md"
                  (lines ["# Python Guide"; "Body text."]) start eq_refl)).
Defined.

(** ** Paths *)

(** X14.  The relative path kept in the record of a guide, joined to the
    output directory, is the path its document was written to, whatever
    the output directory: empty, or with a slash at its end. *)
Theorem record_path_is_output_path (output_dir guide_file text : string) :
  OsPath.join output_dir [g_path (guide_record guide_file text)] =
  OsPath.join (OsPath.join (OsPath.join output_dir ["api"]) ["guides"])
    [infer_guide_type guide_file ++ "s";
     replace (OsPath.basename guide_file) ".md" ".json"] /\
  g_path (guide_record guide_file text) =
  "api/guides/" ++ infer_guide_type guide_file ++ "s/"
  ++ replace (OsPath.basename guide_file) ".md" ".json".
Proof.
  split.
  - exact (guide_relative_path_joins output_dir guide_file).
  - cbn [guide_record g_path]. unfold guide_relative_path.
    now rewrite !app_assoc.
Qed.

(** X15.  The type is inferred from the whole path of a guide file: in a
    project directory whose path holds [python], in any letter case,
    every guide is a language guide. *)
Theorem guides_under_python_directory (w : world) (readme_path name : string) :
  ci_occurs "python" (project_dir w readme_path) ->
  startswith name "/" = false ->
  infer_guide_type (OsPath.join (guides_dir w readme_path) [name]) = "language".
Proof.
  intros Hp Hn.
  assert (H : ci_occurs "python" (OsPath.join (guides_dir w readme_path) [name])).
  { unfold guides_dir, OsPath.join. cbn [fold_left].
    apply ci_occurs_under; [|exact Hn].
    apply ci_occurs_under; [|reflexivity].
    apply ci_occurs_under; [exact Hp | reflexivity]. }
  apply str_in_lower in H. unfold infer_guide_type. now rewrite H.
Qed.

Lemma make_guide_under_python_directory :
  infer_guide_type
    (OsPath.join
       (guides_dir (repo (Some readme_text) None []) "Python-Notes/README.md")
       ["make.md"]) = "language".
Proof.
  apply guides_under_python_directory; [|reflexivity].
  exists "/repo/", "Python", "-Notes". split; reflexivity.
Defined.

(** ** The manifest template and its comments *)

(** X16.  What [re.sub] with the pattern of line comments makes of the
    template: going left to right, where whitespace begins that has
    [//] right behind all of it, the whitespace, the [//] and the rest
    of that line are dropped; every other character is kept. *)
Theorem line_comments_removed (text : string) :
  sub multiline line_comment_pattern "" text = without_line_comments text.
Proof.
  rewrite sub_line_comments_kept. unfold without_line_comments.
  now apply kept_uncommented.
Qed.

(** X17.  The template is left as it is exactly when no whitespace in
    it has [//] right behind; otherwise it loses three characters or
    more. *)
Theorem template_unchanged_iff (text : string) :
  (sub multiline line_comment_pattern "" text = text <->
   has_line_comment text = false) /\
  (has_line_comment text = true <->
   length (sub multiline line_comment_pattern "" text) + 3 <= length text).
Proof.
  rewrite sub_line_comments_kept.
  assert (H1 : has_line_comment text = false ->
               kept (scan multiline line_comment_pattern 0 None text) = text)
    by apply kept_no_line_comment.
  pose proof (kept_line_comment_shorter text None) as H2.
  destruct (has_line_comment text) eqn:E.
  - specialize (H2 eq_refl). split; split; try discriminate; try tauto.
    intros H. rewrite H in H2. lia.
  - specialize (H1 eq_refl). split; split; try discriminate; try tauto.
    rewrite H1. lia.
Qed.

(** X18.  A comment at the very start of the template has no whitespace
    before it, and stays. *)
Theorem leading_comment_stays (text : string) :
  has_line_comment text = false ->
  sub multiline line_comment_pattern "" ("//" ++ text) = "//" ++ text.
Proof.
  intros H. rewrite sub_line_comments_kept. apply kept_no_line_comment.
  cbn [append has_line_comment line_comment_at]. rewrite H. reflexivity.
Qed.

Lemma leading_comment_stays_before_object :
  has_line_comment "{}" = false /\
  sub multiline line_comment_pattern "" ("//" ++ "{}") = "//" ++ "{}".
Proof.
  split; [reflexivity|]. apply leading_comment_stays. reflexivity.
Defined.

(** X19.  A template without the key [endpoints] gets it as its last
    key, with the endpoints of the guides only. *)
Theorem manifest_without_endpoints_key (fields : list (string * json))
    (guides : list generated_guide) :
  dict_get fields "endpoints" = None ->
  build_manifest (JObj fields) guides =
  Ok (JObj (fields ++
            [("endpoints", JArr (map endpoint_of (grouped guides)))])).
Proof.
  intros H. cbn [build_manifest]. rewrite H.
  cbn [py_iter bind_raises keep_main_guide List.app].
  now rewrite guide_endpoints_grouped, dict_set_absent.
Qed.

Lemma manifest_without_endpoints_key_version_only :
  dict_get [("version", JInt 1)] "endpoints" = None /\
  build_manifest (JObj [("version", JInt 1)]) generated =
  Ok (JObj ([("version", JInt 1)] ++
            [("endpoints", JArr (map endpoint_of (grouped generated)))])).
Proof.
  split; [reflexivity|]. apply manifest_without_endpoints_key. reflexivity.
Defined.

(** X20.  The manifest is built exactly from the templates that are a
    dict whose [endpoints], if there, can be gone through and hold dicts
    only; any other template raises an [AttributeError] or a
    [TypeError], whatever the guides. *)
Theorem build_manifest_outcome (manifest : json)
    (guides : list generated_guide) :
  ((exists manifest', build_manifest manifest guides = Ok manifest') <->
   template_ok manifest = true) /\
  (template_ok manifest = false <->
   build_manifest manifest guides = Err AttributeError \/
   build_manifest manifest guides = Err TypeError).
Proof.
  assert (H : if template_ok manifest
              then exists manifest', build_manifest manifest guides = Ok manifest'
              else build_manifest manifest guides = Err AttributeError \/
                   build_manifest manifest guides = Err TypeError).
  { destruct manifest as [| | | | | |fields]; cbn [template_ok build_manifest];
      try (now left).
    destruct (dict_get fields "endpoints") as [[| | | |s|items|keys]|];
      cbn [py_iter bind_raises]; try (now right).
    - destruct s as [|c s]; [eexists; reflexivity | now left].
    - destruct (forallb is_object items) eqn:E.
      + rewrite (keep_main_guide_objects _ E). eexists; reflexivity.
      + rewrite (keep_main_guide_not_object _ E). now left.
    - destruct keys as [|k keys]; [eexists; reflexivity | now left].
    - eexists; reflexivity. }
  destruct (template_ok manifest).
  - destruct H as [m' H]. rewrite H. split; split; try discriminate; eauto.
    intros [?|?]; discriminate.
  - split; split; try discriminate; try tauto.
    intros [m' Hm]. destruct H as [H|H]; rewrite H in Hm; discriminate.
Qed.

(** ** References and names *)

(** X21.  Every reference taken from the README points to a path that
    holds [guides] and ends with [.md]; its type is one of the four,
    and its URL lies under the directory of that type and ends with
    [.json]. *)
Theorem references_are_guide_links (content : string) (r : reference) :
  In r (extract_references content) ->
  str_in "guides" (ref_path r) = true /\
  endswith (ref_path r) ".md" = true /\
  ref_type r = infer_guide_type (ref_path r) /\
  In (ref_type r) ["language"; "pattern"; "platform"; "other"] /\
  ref_apiUrl r =
  "api/guides/" ++ ref_type r ++ "s/"
  ++ replace (OsPath.basename (ref_path r)) ".md" ".json" /\
  endswith (ref_apiUrl r) ".json" = true.
Proof.
  unfold extract_references, extract_references_at.
  rewrite extract_fold. cbn [List.app].
  intros [[name path] [<- [_ Hl]%filter_In]]%in_map_iff.
  unfold is_guide_link in Hl. cbn [snd] in Hl.
  apply andb_true_iff in Hl as [Hg Hm].
  cbn [reference_of ref_path ref_type ref_apiUrl fst snd].
  repeat split; try assumption.
  - apply infer_guide_type_listed.
  - assert (A : forall x y p, endswith y p = true -> endswith (x ++ y) p = true).
    { intros x y p [z ->]%endswith_iff. apply endswith_iff.
      exists (x ++ z). now rewrite app_assoc. }
    apply (A "api/guides/"), (A (infer_guide_type path)), (A "s/").
    apply replace_md_endswith. now rewrite endswith_basename.
Qed.

Lemma references_are_guide_links_in_readme :
  In {| ref_name := "Notes"; ref_path := "./docs/guides/notes.md";
        ref_type := "other"; ref_apiUrl := "api/guides/others/notes.json" |}
     (extract_references readme_text) /\
  endswith "api/guides/others/notes.json" ".json" = true.
Proof.
  assert (H : In {| ref_name := "Notes"; ref_path := "./docs/guides/notes.md";
                    ref_type := "other";
                    ref_apiUrl := "api/guides/others/notes.json" |}
                 (extract_references readme_text)).
  { vm_compute. right. now left. }
  split; [exact H|].
  exact (proj2 (proj2 (proj2 (proj2 (proj2
           (references_are_guide_links readme_text _ H)))))).
Defined.

(** X22.  The name of the endpoint of a guide and the label of its row
    in the index come from the name of its JSON file; for a guide file
    [stem.md] whose stem holds no slash, no [.md] and no [.json], the
    JSON file is [stem.json] and the endpoint is named [stem]. *)
Theorem names_of_guide (dir stem text : string) :
  str_in "/" stem = false ->
  str_in ".md" stem = false ->
  str_in ".json" stem = false ->
  let guide_file := dir ++ "/" ++ stem ++ ".md" in
  let guide := guide_record guide_file text in
  g_path guide = "api/guides/" ++ infer_guide_type guide_file ++ "s/"
                 ++ stem ++ ".json" /\
  row_label (index_row_of guide) = stem ++ ".json" /\
  endpoint_of guide =
  JObj [("name", JStr stem);
        ("description",
         JStr (capitalize (infer_guide_type guide_file) ++ " guide for "
               ++ guide_title guide_file text));
        ("path", JStr ("/" ++ g_path guide))].
Proof.
  intros Hs Hm Hj guide_file guide.
  assert (Hb : OsPath.basename guide_file = stem ++ ".md").
  { unfold OsPath.basename, guide_file.
    change (dir ++ "/" ++ stem ++ ".md") with (dir ++ String "/" (stem ++ ".md")).
    apply last_piece_app. rewrite (str_in_char_app "/"), Hs. reflexivity. }
  assert (Hr : replace (OsPath.basename guide_file) ".md" ".json" =
               stem ++ ".json").
  { rewrite Hb. unfold replace.
    change (stem ++ ".md") with (stem ++ ".md" ++ "").
    rewrite (replace_md_piece ".json" stem "" Hm). reflexivity. }
  assert (Hl : last_piece (split "/" (g_path guide)) = stem ++ ".json").
  { cbn [guide g_path guide_record]. now rewrite record_file_name. }
  assert (Hp : g_path guide = "api/guides/" ++ infer_guide_type guide_file
                              ++ "s/" ++ stem ++ ".json").
  { cbn [guide g_path guide_record]. unfold guide_relative_path.
    rewrite Hr. now rewrite !app_assoc. }
  split; [exact Hp|]. split.
  - unfold index_row_of, guide_row. cbn [row_label]. exact Hl.
  - unfold endpoint_of, guide_endpoint. rewrite Hl.
    unfold replace.
    change (stem ++ ".json") with (stem ++ ".json" ++ "").
    rewrite (replace_json_piece "" stem "" Hj).
    cbn [append replace_from]. rewrite app_nil_r. reflexivity.
Qed.

Lemma names_of_python_guide :
  endpoint_of (guide_record ("/repo/docs/guides" ++ "/" ++ "python" ++ ".md")
                 (lines ["# Python Guide"; "Body text."])) =
  JObj [("name", JStr "python");
        ("description", JStr "Language guide for Python Guide");
        ("path", JStr "/api/guides/languages/python.json")].
Proof.
  exact (proj2 (proj2 (names_of_guide "/repo/docs/guides" "python"
                         (lines ["# Python Guide"; "Body text."])
                         eq_refl eq_refl eq_refl))).
Defined.

(** ** What a run touches *)

(** X23.  Whatever the world and however the run ends, the script
    touches nothing outside the output directory but the way to it:
    every file whose path does not begin with the output directory
    holds what it held, and every directory [os.makedirs] has made or
    found lies under the output directory, or is the output directory
    or a directory above it, on the way up from its [api]. *)
Theorem run_stays_in_output_directory (json_loads : string -> option json)
    (w : world) (prog readme_path output_dir : string) (st : state) :
  let st' := snd (main json_loads w [prog; readme_path; output_dir] st) in
  (forall path,
      startswith path (dir_prefix output_dir) = false ->
      get_file (files_of st') path = get_file (files_of st) path) /\
  (forall d,
      In d (dirs (st_fs st')) ->
      In d (dirs (st_fs st)) \/
      startswith d (dir_prefix output_dir) = true \/
      In d (OsPath.parents (length (OsPath.join output_dir ["api"]))
              (OsPath.join output_dir ["api"]))).
Proof.
  exact (keeps_create_guide_json json_loads w readme_path output_dir st st
           (confined_refl _ st)).
Qed.

(** In the repository the output directory [out] is made on the way to
    [out/api], and it is the only directory that is not under [out/]. *)
Lemma run_stays_in_output_directory_of_repo :
  OsPath.parents (length (OsPath.join "out" ["api"])) (OsPath.join "out" ["api"])
  = ["out"] /\
  forall d,
    In d (dirs (st_fs (snd (main loads healthy
                              ["generate_json.py"; "README.md"; "out"] start)))) ->
    In d (dirs (st_fs start)) \/
    startswith d (dir_prefix "out") = true \/
    In d (OsPath.parents (length (OsPath.join "out" ["api"]))
            (OsPath.join "out" ["api"])).
Proof.
  split; [reflexivity|].
  exact (proj2 (run_stays_in_output_directory loads healthy "generate_json.py"
                  "README.md" "out" start)).
Defined.

(** X24.  The directory made for the document of a guide is the
    directory of its type in the plural; it is one of the directories
    made at the start of the run unless the type is [other], whose
    directory at the start is [other] and not [others]. *)
Theorem guide_directory_is_plural_type (output_dir guide_file : string) :
  OsPath.dirname (guide_output_path output_dir guide_file) =
  dir_prefix output_dir ++ "api/guides/" ++ infer_guide_type guide_file ++ "s" /\
  (In (OsPath.dirname (guide_output_path output_dir guide_file))
      (output_dirs output_dir) <->
   infer_guide_type guide_file <> "other").
Proof.
  unfold guide_output_path. rewrite dirname_guide_output.
  rewrite type_dir_eq by apply type_dir.
  split; [reflexivity|].
  unfold output_dirs. rewrite !type_dir_eq by reflexivity.
  rewrite api_dir_eq, api_guides_dir_eq. cbn [In].
  pose proof (infer_guide_type_listed guide_file) as Ht.
  cbn [guide_type_order In] in Ht.
  destruct Ht as [<-|[<-|[<-|[<-|[]]]]]; split; try discriminate;
    try tauto.
  intros H _.
  repeat (destruct H as [H|H];
          [apply string_app_inv_head in H; discriminate|]).
  exact H.
Qed.

(** X25.  The script ends with status 0 or 1, whatever its arguments and
    the world; with status 0 the line of success was printed, and
    [guide.json] and [index.html] are there. *)
Theorem exit_status_zero_or_one (json_loads : string -> option json)
    (w : world) (argv : list string) (st : state) :
  let run := main json_loads w argv st in
  (exit_status (fst run) = 0%Z \/ exit_status (fst run) = 1%Z) /\
  (exit_status (fst run) = 0%Z ->
   In Success (st_log (snd run)) /\
   exists prog readme_path output_dir c rows,
     argv = [prog; readme_path; output_dir] /\
     get_file (files_of (snd run)) (guide_json_path output_dir)
     = Some (JsonFile c) /\
     get_file (files_of (snd run)) (index_html_path output_dir)
     = Some (IndexHtml rows)).
Proof.
  destruct argv as [|prog [|readme_path [|output_dir [|x argv]]]];
    try (cbn; split; [now right | discriminate]).
  cbn [main].
  pose proof (create_guide_json_status json_loads w readme_path output_dir st)
    as H.
  unfold wp in H. destruct H as [H1 H2]. split; [exact H1|].
  intros H0. destruct (H2 H0) as [Hs [[c Hc] [rows Hr]]].
  split; [exact Hs|]. exists prog, readme_path, output_dir, c, rows.
  now repeat split.
Qed.

Lemma exit_status_of_repo :
  exit_status
    (fst (main loads healthy ["generate_json.py"; "README.md"; "out"] start))
  = 0%Z /\
  In Success
     (st_log
        (snd (main loads healthy ["generate_json.py"; "README.md"; "out"]
                start))).
Proof.
  assert (E : exit_status
                (fst (main loads healthy
                        ["generate_json.py"; "README.md"; "out"] start))
              = 0%Z) by (vm_compute; reflexivity).
  split; [exact E|].
  exact (proj1 (proj2 (exit_status_zero_or_one loads healthy
                         ["generate_json.py"; "README.md"; "out"] start) E)).
Defined.

(** X26.  The URL of a reference of the README is the path in the record
    of a guide file when the link and the file have the same last
    component and are given the same type. *)
Theorem reference_url_is_record_path (content : string) (r : reference)
    (guide_file text : string) :
  In r (extract_references content) ->
  OsPath.basename (ref_path r) = OsPath.basename guide_file ->
  infer_guide_type (ref_path r) = infer_guide_type guide_file ->
  ref_apiUrl r = g_path (guide_record guide_file text) /\
  ref_type r = g_type (guide_record guide_file text).
Proof.
  intros [Hr _]%reference_fields Hb Ht. rewrite Hr.
  cbn [reference_of ref_apiUrl ref_type guide_record g_path g_type fst snd].
  unfold guide_relative_path. rewrite Hb, Ht.
  split; [now rewrite !app_assoc | reflexivity].
Qed.

Lemma reference_url_of_python_guide :
  ref_apiUrl {| ref_name := "Python Guide";
                ref_path := "./docs/guides/python.md";
                ref_type := "language";
                ref_apiUrl := "api/guides/languages/python.json" |} =
  g_path (guide_record "/repo/docs/guides/python.md"
            (lines ["# Python Guide"; "Body text."])).
Proof.
  refine (proj1 (reference_url_is_record_path readme_text
                   {| ref_name := "Python Guide";
                      ref_path := "./docs/guides/python.md";
                      ref_type := "language";
                      ref_apiUrl := "api/guides/languages/python.json" |}
                   "/repo/docs/guides/python.md"
                   (lines ["# Python Guide"; "Body text."]) _ eq_refl eq_refl)).
  vm_compute. now left.
Defined.

End Extras.
